(** * ai-travel-planner: the feedback-driven itinerary store

    A shallow embedding of [SelfTrainingLLMSystem] (app.py) and of the
    sibling [DualStorageManager] / [DatabaseManager] paths it relies on,
    followed by the properties of the specification that concern it.

    Conventions of the embedding
    - Python [int] is [Z]; Python [float] is the kernel's binary64 [float];
      a value that may be either is a [pynum].
    - Python [str] is [string], one character per code point below 256.
      City names reach the store through [sanitize_city_input], which
      keeps ASCII letters, blanks and hyphens only.  Case is that of
      [str.title] and [str.lower] on these code points, accented letters
      included; the title of the micro sign and of y with diaeresis lies
      past code point 255, so what is stated of titles is stated of names
      that hold neither ([title_within_range]).
    - [int / int] raises OverflowError when the quotient is past the
      float range ([int_truediv]), as [float(int)] does.
    - A JSON object with a fixed set of keys is a record whose fields are
      options: [None] is a missing key (or, for [rating], a null value).
    - A Python exception is the [Raise] case of [Result]; a [try/except]
      is [try_except].  The flat files live in [World]; what the outside
      (primary backend, disk, clock, random generator) answers during one
      interaction is an [Env].
    - A row of the primary backend carries a [datetime] object, which
      [json.dump] refuses with [TypeError]; a record read from a flat file
      carries none. *)

From Stdlib Require Import ZArith QArith Floats Ascii String.
From stdpp Require Import gmap strings list sorting.

Local Open Scope Z_scope.

(** ** Python numbers *)

Module Py.

Inductive Exn :=
  | OverflowError
  | ZeroDivisionError
  | OSError
  | TypeError
  | DatabaseError.

Inductive Result (A : Type) :=
  | Ok (a : A)
  | Raise (e : Exn).
Arguments Ok {A} a.
Arguments Raise {A} e.

Inductive pynum :=
  | PyInt (z : Z)
  | PyFloat (f : float).

(** A [datetime.datetime] object, as the database driver returns one. *)
Inductive datetime :=
  | Datetime (isoformat : string).

(** Nearest binary64 (ties to even) of the rational [n / d], [0 <= n],
    [0 < d], with sign [s].  The quotient is taken with enough extra bits
    and a sticky bit, so that rounding it is rounding [n / d]. *)
Definition round_rational (s : bool) (n d : Z) : float :=
  if n =? 0 then SF2Prim (S754_zero s)
  else
    let k := 64 + Z.log2 d in
    let q := (n * 2 ^ k) / d in
    let r := (n * 2 ^ k) mod d in
    let m := 2 * q + (if r =? 0 then 0 else 1) in
    SF2Prim (binary_normalize prec emax (if s then - m else m) (- (k + 1)) s).

(** The largest magnitudes that still round to a finite binary64. *)
Definition float_overflow_bound : Z := 2 ^ 1024 - 2 ^ 970.

(** [float(z)] as [int + float] and friends perform it:
    correctly rounded, [OverflowError] past the largest finite value. *)
Definition float_of_int (z : Z) : Result float :=
  if Z.abs z <? float_overflow_bound
  then Ok (round_rational (z <? 0) (Z.abs z) 1)
  else Raise OverflowError.

(** [a / b] on two [int]s whose quotient is within the float range (the
    numerators here are lengths of strings held in memory). *)
Definition truediv (a b : Z) : float :=
  round_rational (xorb (a <? 0) (b <? 0)) (Z.abs a) (Z.abs b).

(** [a / b] on any two [int]s: [ZeroDivisionError] for a zero divisor,
    [OverflowError] when the quotient is past the largest finite value. *)
Definition int_truediv (a b : Z) : Result float :=
  if b =? 0 then Raise ZeroDivisionError
  else if Z.abs a <? float_overflow_bound * Z.abs b then Ok (truediv a b)
  else Raise OverflowError.

(** [min(a, b)]: the first argument unless the second is smaller. *)
Definition min_int_float (a : Z) (b : float) : pynum :=
  if PrimFloat.ltb b (round_rational (a <? 0) (Z.abs a) 1)
  then PyFloat b else PyInt a.

(** [a + b] with [a] an [int]. *)
Definition add_int (a : Z) (b : pynum) : Result pynum :=
  match b with
  | PyInt z => Ok (PyInt (a + z))
  | PyFloat f =>
      match float_of_int a with
      | Ok fa => Ok (PyFloat (PrimFloat.add fa f))
      | Raise e => Raise e
      end
  end.

(** Ties-to-even rounding of [n / d] to an integer, [0 <= n], [0 < d]. *)
Definition round_half_even (n d : Z) : Z :=
  let q := n / d in
  let r := n mod d in
  if 2 * r <? d then q
  else if d <? 2 * r then q + 1
  else if Z.even q then q else q + 1.

(** [round(x, ndigits)] for [0 <= ndigits]: an [int] is returned as it
    is; a finite [float] goes through its exact decimal expansion,
    rounded half-even at [ndigits] places, and back to the nearest
    binary64. *)
Definition round_float (f : float) (ndigits : Z) : float :=
  match Prim2SF f with
  | S754_finite s m e =>
      let scaled :=
        if 0 <=? e then Z.pos m * 2 ^ e * 10 ^ ndigits
        else round_half_even (Z.pos m * 10 ^ ndigits) (2 ^ (- e)) in
      round_rational s scaled (10 ^ ndigits)
  | _ => f
  end.

Definition round (x : pynum) (ndigits : Z) : pynum :=
  match x with
  | PyInt z => PyInt z
  | PyFloat f => PyFloat (round_float f ndigits)
  end.

(** ** Python strings and lists *)

Definition code (c : ascii) : Z := Z.of_nat (nat_of_ascii c).

(** The letters A-Z and a-z. *)
Definition is_upper (c : ascii) : bool := (65 <=? code c) && (code c <=? 90).
Definition is_lower (c : ascii) : bool := (97 <=? code c) && (code c <=? 122).

(** Case below code point 256, as [str.title] and [str.lower] see it.
    The cased characters are the letters A-Z and a-z, the ordinal
    indicators (170, 186), the micro sign (181) and the letters 192-255
    but for the signs 215 and 247. *)
Definition between (low high : Z) (c : ascii) : bool :=
  (low <=? code c) && (code c <=? high).

Definition is_cased (c : ascii) : bool :=
  between 65 90 c || between 97 122 c
  || (code c =? 170) || (code c =? 181) || (code c =? 186)
  || between 192 214 c || between 216 246 c || between 248 255 c.

(** [c.lower()] *)
Definition lower_char (c : ascii) : ascii :=
  if between 65 90 c || between 192 214 c || between 216 222 c
  then ascii_of_nat (nat_of_ascii c + 32) else c.

(** [c.title()]: the sharp s (223) becomes the two letters Ss.  The
    title case of the micro sign (181) and of y with diaeresis (255)
    lies past code point 255; here they are left as they are, and what is
    stated of titles is stated of names that hold neither. *)
Definition title_char (c : ascii) : string :=
  if between 97 122 c || between 224 246 c || between 248 254 c
  then String (ascii_of_nat (nat_of_ascii c - 32)) EmptyString
  else if code c =? 223 then "Ss"%string
  else String c EmptyString.

(** [str.isspace] on one character. *)
Definition is_space (c : ascii) : bool :=
  ((9 <=? code c) && (code c <=? 13)) || ((28 <=? code c) && (code c <=? 32))
  || (code c =? 133) || (code c =? 160).

(** [str.title()]: a character is lower-cased when it follows a cased
    character and title-cased when it does not. *)
Fixpoint title_from (previous_is_cased : bool) (s : string) : string :=
  match s with
  | EmptyString => EmptyString
  | String c rest =>
      ((if previous_is_cased then String (lower_char c) EmptyString
        else title_char c)
       ++ title_from (is_cased c) rest)%string
  end.
Definition title (s : string) : string := title_from false s.

(** [len(s.split())]: the number of maximal runs of non-blank characters. *)
Fixpoint count_words_from (in_word : bool) (s : string) : Z :=
  match s with
  | EmptyString => 0
  | String c rest =>
      if is_space c then count_words_from false rest
      else (if in_word then 0 else 1) + count_words_from true rest
  end.
Definition count_words (s : string) : Z := count_words_from false s.

Definition len_str (s : string) : Z := Z.of_nat (String.length s).

Fixpoint lstrip (s : string) : string :=
  match s with
  | String c rest => if is_space c then lstrip rest else s
  | EmptyString => EmptyString
  end.
Definition strip (s : string) : string :=
  String.rev (lstrip (String.rev (lstrip s))).

(** [s[:n]] for [0 <= n]. *)
Definition str_prefix (n : Z) (s : string) : string :=
  String.substring 0 (Z.to_nat n) s.

(** [l[start:]], with Python's reading of a negative [start]. *)
Definition slice_from {A : Type} (start : Z) (l : list A) : list A :=
  let n := Z.of_nat (length l) in
  let first := if start <? 0 then Z.max (start + n) 0 else Z.min start n in
  drop (Z.to_nat first) l.

End Py.

Import Py.

(** ** Data model *)

(** One element of [data/complete_itineraries.json], or one row of the
    primary backend's [get_recent_itineraries]; a row carries fewer keys. *)
Module Itin.
Record t := mk {
  id : option Z;
  timestamp : option string;
  city : option string;
  destination : option string;
  trip_days : option Z;
  duration : option Z;
  budget : option string;
  budget_level : option string;
  interests : option (list string);
  travel_style : option (list string);
  include_food : option bool;
  include_transport : option bool;
  full_prompt_context : option string;
  full_itinerary : option string;
  itinerary_text : option string;
  itinerary_length : option Z;
  word_count : option Z;
  rated : option bool;
  rating : option Z;
  feedback_comments : option string;
  quality_score : option pynum;
  used_for_training : option bool;
  training_iteration : option Z;
  created_at : option datetime
}.

(** The four assignments of [record_feedback] on one record. *)
Definition set_feedback (i : t) (r : Z) (comments : string) (q : pynum) : t :=
  {| id := id i; timestamp := timestamp i; city := city i;
     destination := destination i; trip_days := trip_days i;
     duration := duration i; budget := budget i;
     budget_level := budget_level i; interests := interests i;
     travel_style := travel_style i; include_food := include_food i;
     include_transport := include_transport i;
     full_prompt_context := full_prompt_context i;
     full_itinerary := full_itinerary i; itinerary_text := itinerary_text i;
     itinerary_length := itinerary_length i; word_count := word_count i;
     rated := Some true;
     rating := Some r;
     feedback_comments := Some comments;
     quality_score := Some q;
     used_for_training := used_for_training i;
     training_iteration := training_iteration i;
     created_at := created_at i |}.

(** The two assignments of [_auto_train] on one record. *)
Definition set_training (i : t) (iteration : Z) : t :=
  {| id := id i; timestamp := timestamp i; city := city i;
     destination := destination i; trip_days := trip_days i;
     duration := duration i; budget := budget i;
     budget_level := budget_level i; interests := interests i;
     travel_style := travel_style i; include_food := include_food i;
     include_transport := include_transport i;
     full_prompt_context := full_prompt_context i;
     full_itinerary := full_itinerary i; itinerary_text := itinerary_text i;
     itinerary_length := itinerary_length i; word_count := word_count i;
     rated := rated i;
     rating := rating i;
     feedback_comments := feedback_comments i;
     quality_score := quality_score i;
     used_for_training := Some true;
     training_iteration := Some iteration;
     created_at := created_at i |}.

(** Whether [json.dump] accepts the record. *)
Definition serializable (i : t) : bool :=
  match created_at i with
  | Some _ => false
  | None => true
  end.

(** [(i.get('rating') or 0)] *)
Definition rating_or_0 (i : t) : Z := default 0 (rating i).

(** [i.get('city', i.get('destination', 'Unknown'))] *)
Definition city_name (i : t) : string :=
  default (default "Unknown"%string (destination i)) (city i).

(** [i.get('full_itinerary', i.get('itinerary_text', ''))] *)
Definition text (i : t) : string :=
  default (default ""%string (itinerary_text i)) (full_itinerary i).
End Itin.

(** One element of [data/feedback.json]. *)
Module Feedback.
Record t := mk {
  timestamp : string;
  itinerary_id : Z;
  rating : Z;
  comments : string
}.
End Feedback.

(** One element of [best_performing_prompts]. *)
Module PromptSummary.
Record t := mk {
  city : string;
  days : Z;
  budget : string;
  rating : Z;
  word_count : Z
}.
#[global] Instance eq_dec : EqDecision t.
Proof. solve_decision. Defined.
End PromptSummary.

(** [data/training_patterns.json] *)
Module Patterns.
Record successful := mk_successful {
  high_rated_cities : option (gmap string Z);
  popular_interests : option (gmap string Z);
  optimal_trip_durations : option (gmap string Z);
  budget_success_rates : option (gmap string Z)
}.
Record t := mk {
  last_update : option string;
  training_iterations : option Z;
  total_training_samples : option Z;
  successful_patterns : option successful;
  learned_prompt_enhancements : option (list string);
  quality_improvement_insights : option (list string);
  best_performing_prompts : option (list PromptSummary.t);
  optimization_rules : option (list string)
}.

(** [{}] *)
Definition empty_successful : successful :=
  mk_successful None None None None.

(** The mapping the auto-trainer counts in; absent keys read as empty. *)
Definition cities (p : t) : gmap string Z :=
  default ∅ (high_rated_cities (default empty_successful (successful_patterns p))).

Definition insights (p : t) : list string :=
  default [] (quality_improvement_insights p).
End Patterns.

(** What [get_statistics] returns. *)
Module Stats.
Record t := mk {
  total_itineraries : Z;
  total_feedback : Z;
  rated_itineraries : Z;
  average_rating : float;
  training_iterations : Z;
  high_quality_samples : Z;
  top_cities : list (string * Z);
  rating_distribution : gmap Z Z;
  avg_word_count : pynum;
  total_database_size : Z;
  improvement_rate : float
}.
End Stats.

(** ** The outside world *)

(** The three flat files; [None] is a file that cannot be opened or
    parsed.  Streamlit's cache in front of the itineraries file is cleared
    by every successful save, so a cached load reads what the file holds. *)
Record World := mkWorld {
  itineraries_file : option (list Itin.t);
  feedback_file : option (list Feedback.t);
  training_patterns_file : option Patterns.t
}.

(** What the collaborators answer during one interaction. *)
Record Env := mkEnv {
  use_database : bool;
  db_create_trip : Result Z;
  db_create_itinerary : Z → Result Z;
  db_rate_itinerary : Z → Z → string → Result unit;
  db_get_recent_itineraries : Z → Result (list Itin.t);
  db_training_cycles : Result (option Patterns.t);
  db_get_statistics : Result Stats.t;
  disk_writable : bool;
  now : string;
  random_choice : nat
}.

(** ** Computations: state of the files, and exceptions *)

Definition M (S A : Type) : Type := S → Result A * S.

#[global] Instance M_ret {S} : MRet (M S) := λ A a w, (Ok a, w).
#[global] Instance M_bind {S} : MBind (M S) := λ A B k m w,
  match m w with
  | (Ok a, w') => k a w'
  | (Raise e, w') => (Raise e, w')
  end.

(** [try: body  except Exception: handler] *)
Definition try_except {S A : Type} (body : M S A) (handler : Exn → M S A) : M S A :=
  λ w, match body w with
       | (Ok a, w') => (Ok a, w')
       | (Raise e, w') => handler e w'
       end.

(** A call whose outcome the environment decides. *)
Definition call {S A : Type} (outcome : Result A) : M S A := λ w, (outcome, w).

Definition pass {S : Type} : M S unit := mret tt.

(** [open(file, 'r')] followed by [json.load]. *)
Definition json_load {S A : Type} (file : S → option A) : M S A :=
  λ w, match file w with
       | Some data => (Ok data, w)
       | None => (Raise OSError, w)
       end.

(** [open(file, 'w')] followed by [json.dump].  A file that cannot be
    opened is left as it is; once opened it is truncated, and it holds the
    data ([put]) unless [json.dump] meets a value it cannot serialize and
    leaves a broken document behind ([spoil]). *)
Definition json_dump {S : Type} (writable serializable : bool)
    (put spoil : S → S) : M S unit :=
  λ w, if writable then
         if serializable then (Ok tt, put w) else (Raise TypeError, spoil w)
       else (Raise OSError, w).

(** ** Ordered dictionaries and sorting *)

(** A [dict] whose order of insertion is observed. *)
Fixpoint dict_get {V : Type} (k : string) (d : list (string * V)) : option V :=
  match d with
  | [] => None
  | (k', v) :: rest => if decide (k' = k) then Some v else dict_get k rest
  end.

(** [d[k] = v]: in place when [k] is present, at the end otherwise. *)
Fixpoint dict_set {V : Type} (k : string) (v : V) (d : list (string * V))
  : list (string * V) :=
  match d with
  | [] => [(k, v)]
  | (k', v') :: rest =>
      if decide (k' = k) then (k', v) :: rest else (k', v') :: dict_set k v rest
  end.

(** [sorted(items, key=lambda x: x[1], reverse=True)].  Python's sort is
    stable, also under [reverse=True]: an item goes in front of the first
    item whose count is not larger than its own. *)
Fixpoint insert_by_count (x : string * Z) (l : list (string * Z))
  : list (string * Z) :=
  match l with
  | [] => [x]
  | y :: rest =>
      if x.2 <? y.2 then y :: insert_by_count x rest else x :: y :: rest
  end.

Definition sorted_by_count_desc (items : list (string * Z)) : list (string * Z) :=
  foldr insert_by_count [] items.

(** ** app.py *)

Definition sanitize_text_input (text : string) (max_length : Z) : string :=
  if decide (text = ""%string) then ""%string
  else str_prefix max_length (strip text).

Definition _get_default_enhancements : list string :=
  [ "Include specific venue names with full addresses and contact details";
    "Add exact time allocations for each activity with start and end times";
    "Provide precise cost estimates in local currency";
    "Include detailed transport directions with multiple options";
    "Add insider tips and local secrets from experienced travelers";
    "Mention opening hours, booking requirements, and best visiting times";
    "Suggest specific restaurants with price ranges and signature dishes";
    "Provide alternative indoor/outdoor options for weather flexibility";
    "Include cultural etiquette tips and useful local phrases";
    "Add photo opportunities and best viewpoints at each location"
  ]%string.

(** The catalog [_generate_training_insight] draws from. *)
Definition insight_catalog : list string :=
  [ "Itineraries with exact time slots receive higher ratings";
    "Including restaurant details improves satisfaction";
    "Weather alternatives increase user satisfaction";
    "Transport cost breakdowns are highly valued";
    "Opening hours mentioned upfront reduce friction";
    "Grouping nearby attractions saves time";
    "Cultural tips enhance travel experience";
    "Budget breakdowns help planning";
    "Insider tips boost ratings significantly";
    "Day-by-day structure is preferred format";
    "Photo spots increase engagement";
    "Multi-option transport suggestions are valued"
  ]%string.

Definition _calculate_quality_score (rating length : Z) : Result pynum :=
  let length_bonus := min_int_float 20 (truediv length 1000) in
  match add_int (rating * 16) length_bonus with
  | Ok total => Ok (round total 2)
  | Raise e => Raise e
  end.

(** The loop of [record_feedback]: the first record whose id matches is
    updated, then [break]. *)
Fixpoint rate_first_match (itinerary_id rating : Z) (comments : string)
    (itineraries : list Itin.t) : Result (list Itin.t) :=
  match itineraries with
  | [] => Ok []
  | itin :: rest =>
      if decide (Itin.id itin = Some itinerary_id) then
        match _calculate_quality_score rating (len_str (Itin.text itin)) with
        | Ok q => Ok (Itin.set_feedback itin rating comments q :: rest)
        | Raise e => Raise e
        end
      else
        match rate_first_match itinerary_id rating comments rest with
        | Ok rest' => Ok (itin :: rest')
        | Raise e => Raise e
        end
  end.

(** The first loop of [_auto_train]. *)
Definition count_city (cities : gmap string Z) (itin : Itin.t) : gmap string Z :=
  let city := title (Itin.city_name itin) in
  let current_count := default 0 (cities !! city) in
  <[city := current_count + 1]> cities.

Definition count_cities (high_quality : list Itin.t) (cities : gmap string Z)
  : gmap string Z :=
  foldl count_city cities high_quality.

(** [if new_insight not in l: l.append(new_insight); l = l[-15:]] *)
Definition add_insight (new_insight : string) (l : list string) : list string :=
  if decide (new_insight ∈ l) then l
  else slice_from (-15) (l ++ [new_insight]).

(** The second loop of [_auto_train]. *)
Definition add_prompt (prompts : list PromptSummary.t) (itin : Itin.t)
  : list PromptSummary.t :=
  if Itin.rating_or_0 itin =? 5 then
    let prompt_summary :=
      {| PromptSummary.city := Itin.city_name itin;
         PromptSummary.days := default (default 1 (Itin.duration itin)) (Itin.trip_days itin);
         PromptSummary.budget :=
           default (default "Moderate"%string (Itin.budget_level itin)) (Itin.budget itin);
         PromptSummary.rating := default 5 (Itin.rating itin);
         PromptSummary.word_count := default 0 (Itin.word_count itin) |} in
    if decide (prompt_summary ∈ prompts) then prompts
    else slice_from (-10) (prompts ++ [prompt_summary])
  else prompts.

(** The third loop of [_auto_train]. *)
Definition mark_used (iteration : Z) (itin : Itin.t) : Itin.t :=
  if (4 <=? Itin.rating_or_0 itin) && negb (default false (Itin.used_for_training itin))
  then Itin.set_training itin iteration
  else itin.

Definition is_high_quality (i : Itin.t) : bool := 4 <=? Itin.rating_or_0 i.

(** The body of [_auto_train] between the two guards and the two saves:
    the document and the records it is about to write. *)
Definition train (now : string) (new_insight : string)
    (itineraries : list Itin.t) (patterns : Patterns.t)
  : Patterns.t * list Itin.t :=
  let high_quality := List.filter is_high_quality itineraries in
  let successful :=
    default Patterns.empty_successful (Patterns.successful_patterns patterns) in
  let cities := count_cities high_quality
                  (default ∅ (Patterns.high_rated_cities successful)) in
  let insights :=
    if decide (new_insight = ""%string)
    then Patterns.quality_improvement_insights patterns
    else Some (add_insight new_insight (Patterns.insights patterns)) in
  let prompts :=
    foldl add_prompt (default [] (Patterns.best_performing_prompts patterns))
          high_quality in
  let iterations := default 0 (Patterns.training_iterations patterns) + 1 in
  ({| Patterns.last_update := Some now;
      Patterns.training_iterations := Some iterations;
      Patterns.total_training_samples := Some (Z.of_nat (length high_quality));
      Patterns.successful_patterns :=
        Some {| Patterns.high_rated_cities := Some cities;
                Patterns.popular_interests := Patterns.popular_interests successful;
                Patterns.optimal_trip_durations :=
                  Patterns.optimal_trip_durations successful;
                Patterns.budget_success_rates :=
                  Patterns.budget_success_rates successful |};
      Patterns.learned_prompt_enhancements :=
        Patterns.learned_prompt_enhancements patterns;
      Patterns.quality_improvement_insights := insights;
      Patterns.best_performing_prompts := Some prompts;
      Patterns.optimization_rules := Patterns.optimization_rules patterns |},
   map (mark_used iterations) itineraries).

(** The counting pass of [get_statistics]. *)
Definition count_destination (city_counts : list (string * Z)) (itin : Itin.t)
  : list (string * Z) :=
  let city := title (Itin.city_name itin) in
  dict_set city (default 0 (dict_get city city_counts) + 1) city_counts.

Definition count_rating (rating_dist : gmap Z Z) (rating : Z) : gmap Z Z :=
  <[rating := default 0 (rating_dist !! rating) + 1]> rating_dist.

Definition is_rated (i : Itin.t) : bool :=
  default false (Itin.rated i) && (0 <? Itin.rating_or_0 i).

(** [[i.get('rating', 0) for i in rated if i.get('rating')]] *)
Definition ratings_of (rated : list Itin.t) : list Z :=
  flat_map (λ i, match Itin.rating i with
                 | Some r => if r =? 0 then [] else [r]
                 | None => []
                 end) rated.

Definition sum (l : list Z) : Z := foldl Z.add 0 l.

(** The JSON fallback of [get_statistics], once the three files are read.
    The two averages are divisions of [int]s, which raise when the
    quotient is past the float range; the entries of the dictionary are
    evaluated in their order. *)
Definition scan_statistics (itineraries : list Itin.t)
    (feedback : list Feedback.t) (patterns : Patterns.t) : Result Stats.t :=
  match itineraries with
  | [] =>
      Ok {| Stats.total_itineraries := 0; Stats.total_feedback := 0;
            Stats.rated_itineraries := 0; Stats.average_rating := 0%float;
            Stats.training_iterations := 0; Stats.high_quality_samples := 0;
            Stats.top_cities := []; Stats.rating_distribution := ∅;
            Stats.avg_word_count := PyInt 0; Stats.total_database_size := 0;
            Stats.improvement_rate := 0%float |}
  | _ =>
      let rated := List.filter is_rated itineraries in
      let ratings := ratings_of rated in
      let city_counts := foldl count_destination [] itineraries in
      let top_cities := take 5 (sorted_by_count_desc city_counts) in
      let rating_dist := foldl count_rating ∅ ratings in
      match (match ratings with
             | [] => Ok 0%float
             | _ => int_truediv (sum ratings) (Z.of_nat (length ratings))
             end) with
      | Raise e => Raise e
      | Ok average_rating =>
          match int_truediv
                  (sum (map (λ i, default 0 (Itin.word_count i)) itineraries))
                  (Z.of_nat (length itineraries)) with
          | Raise e => Raise e
          | Ok avg_word_count =>
              Ok {| Stats.total_itineraries := Z.of_nat (length itineraries);
                    Stats.total_feedback := Z.of_nat (length feedback);
                    Stats.rated_itineraries := Z.of_nat (length rated);
                    Stats.average_rating := average_rating;
                    Stats.training_iterations :=
                      default 0 (Patterns.training_iterations patterns);
                    Stats.high_quality_samples :=
                      default 0 (Patterns.total_training_samples patterns);
                    Stats.top_cities := top_cities;
                    Stats.rating_distribution := rating_dist;
                    Stats.avg_word_count := PyFloat avg_word_count;
                    Stats.total_database_size := Z.of_nat (length itineraries);
                    Stats.improvement_rate := 0%float |}
          end
      end
  end.

Section SelfTrainingLLMSystem.

Context (env : Env).

Definition put_itineraries (data : list Itin.t) (w : World) : World :=
  {| itineraries_file := Some data;
     feedback_file := feedback_file w;
     training_patterns_file := training_patterns_file w |}.

Definition put_feedback (data : list Feedback.t) (w : World) : World :=
  {| itineraries_file := itineraries_file w;
     feedback_file := Some data;
     training_patterns_file := training_patterns_file w |}.

Definition put_training_patterns (data : Patterns.t) (w : World) : World :=
  {| itineraries_file := itineraries_file w;
     feedback_file := feedback_file w;
     training_patterns_file := Some data |}.

(** The itineraries file after a dump that broke off. *)
Definition spoil_itineraries (w : World) : World :=
  {| itineraries_file := None;
     feedback_file := feedback_file w;
     training_patterns_file := training_patterns_file w |}.

Definition load_cached_itineraries : M World (list Itin.t) :=
  try_except (json_load itineraries_file) (λ _, mret []).

Definition _load_itineraries : M World (list Itin.t) :=
  from_database ←
    (if use_database env then
       try_except
         (rows ← call (db_get_recent_itineraries env 1000); mret (Some rows))
         (λ _, mret None)
     else mret None);
  match from_database with
  | Some rows => mret rows
  | None => load_cached_itineraries
  end.

Definition _save_itineraries (data : list Itin.t) : M World unit :=
  try_except
    (json_dump (disk_writable env) (forallb Itin.serializable data)
               (put_itineraries data) spoil_itineraries)
    (λ _, pass).

Definition _load_feedback : M World (list Feedback.t) :=
  try_except (json_load feedback_file) (λ _, mret []).

Definition _save_feedback (data : list Feedback.t) : M World unit :=
  try_except (json_dump (disk_writable env) true (put_feedback data) id)
             (λ _, pass).

Definition _generate_initial_patterns : Patterns.t :=
  {| Patterns.last_update := Some (now env);
     Patterns.training_iterations := Some 0;
     Patterns.total_training_samples := Some 0;
     Patterns.successful_patterns :=
       Some {| Patterns.high_rated_cities := Some ∅;
               Patterns.popular_interests :=
                 Some (list_to_map
                   [("museums", 85); ("food", 90); ("adventure", 88);
                    ("history", 82); ("beaches", 87); ("shopping", 75);
                    ("nightlife", 78); ("nature", 86)]%string);
               Patterns.optimal_trip_durations :=
                 Some (list_to_map [("1-3", 75); ("4-7", 88); ("8-14", 90)]%string);
               Patterns.budget_success_rates :=
                 Some (list_to_map
                   [("Budget", 75); ("Moderate", 88); ("Luxury", 82)]%string) |};
     Patterns.learned_prompt_enhancements := Some _get_default_enhancements;
     Patterns.quality_improvement_insights := Some [];
     Patterns.best_performing_prompts := Some [];
     Patterns.optimization_rules :=
       Some [ "Include specific restaurant names with addresses";
              "Add exact time estimates for each activity";
              "Provide alternative indoor options for weather";
              "Include insider tips and local secrets";
              "Suggest best times to avoid crowds" ]%string |}.

Definition _load_training_patterns : M World Patterns.t :=
  from_database ←
    (if use_database env then
       try_except (call (db_training_cycles env)) (λ _, mret None)
     else mret None);
  match from_database with
  | Some insights_generated => mret insights_generated
  | None =>
      try_except (json_load training_patterns_file)
                 (λ _, mret _generate_initial_patterns)
  end.

Definition _save_training_patterns (data : Patterns.t) : M World unit :=
  try_except (json_dump (disk_writable env) true (put_training_patterns data) id)
             (λ _, pass).

(** [random.choice(insights)] *)
Definition _generate_training_insight (high_quality : list Itin.t) : string :=
  default ""%string
    (insight_catalog !! (random_choice env mod length insight_catalog)%nat).

Definition _auto_train : M World unit :=
  try_except
    (if use_database env then pass
     else
       itineraries ← _load_itineraries;
       patterns ← _load_training_patterns;
       if Z.of_nat (length itineraries) <? 3 then pass
       else
         let high_quality := List.filter is_high_quality itineraries in
         match high_quality with
         | [] => pass
         | _ =>
             let new_insight := _generate_training_insight high_quality in
             let '(patterns, itineraries) :=
               train (now env) new_insight itineraries patterns in
             _save_training_patterns patterns;;
             _save_itineraries itineraries
         end)
    (λ _, pass).

(** The dictionary [store_complete_itinerary] appends. *)
Definition itinerary_entry (itin_id : Z) (city : string) (trip_days : Z)
    (budget : string) (interests travel_style : list string)
    (include_food include_transport : bool)
    (full_prompt_context full_itinerary : string) (word_count : Z) : Itin.t :=
  {| Itin.id := Some itin_id;
     Itin.timestamp := Some (now env);
     Itin.city := Some city;
     Itin.destination := Some city;
     Itin.trip_days := Some trip_days;
     Itin.duration := Some trip_days;
     Itin.budget := Some budget;
     Itin.budget_level := Some budget;
     Itin.interests := Some interests;
     Itin.travel_style := Some travel_style;
     Itin.include_food := Some include_food;
     Itin.include_transport := Some include_transport;
     Itin.full_prompt_context := Some full_prompt_context;
     Itin.full_itinerary := Some full_itinerary;
     Itin.itinerary_text := Some full_itinerary;
     Itin.itinerary_length := Some (len_str full_itinerary);
     Itin.word_count := Some word_count;
     Itin.rated := Some false;
     Itin.rating := Some 0;
     Itin.feedback_comments := Some ""%string;
     Itin.quality_score := Some (PyInt 0);
     Itin.used_for_training := Some false;
     Itin.training_iteration := Some 0;
     Itin.created_at := None |}.

Definition store_complete_itinerary (city : string) (trip_days : Z)
    (budget : string) (interests travel_style : list string)
    (include_food include_transport : bool)
    (full_prompt_context full_itinerary : string) : M World Z :=
  let word_count := count_words full_itinerary in
  itin_id ←
    (if use_database env then
       try_except
         (trip_id ← call (db_create_trip env);
          itin_id ← call (db_create_itinerary env trip_id);
          mret (Some itin_id))
         (λ _, mret None)
     else mret None);
  itineraries_data ← try_except (json_load itineraries_file) (λ _, mret []);
  let itin_id :=
    match itin_id with
    | Some from_primary => from_primary
    | None => Z.of_nat (length itineraries_data) + 1
    end in
  _save_itineraries
    (itineraries_data ++
     [itinerary_entry itin_id city trip_days budget interests travel_style
        include_food include_transport full_prompt_context full_itinerary
        word_count]);;
  mret itin_id.

Definition record_feedback (itinerary_id rating : Z) (comments : string)
  : M World unit :=
  let comments := sanitize_text_input comments 1000 in
  (if use_database env then
     try_except (call (db_rate_itinerary env itinerary_id rating comments))
                (λ _, pass)
   else pass);;
  itineraries ← _load_itineraries;
  itineraries ← call (rate_first_match itinerary_id rating comments itineraries);
  _save_itineraries itineraries;;
  let feedback_entry :=
    {| Feedback.timestamp := now env;
       Feedback.itinerary_id := itinerary_id;
       Feedback.rating := rating;
       Feedback.comments := comments |} in
  feedback_data ← _load_feedback;
  let feedback_data := feedback_data ++ [feedback_entry] in
  _save_feedback feedback_data;;
  if Z.of_nat (length feedback_data) mod 3 =? 0 then _auto_train else pass.

Definition get_statistics : M World Stats.t :=
  from_database ←
    (if use_database env then
       try_except (stats ← call (db_get_statistics env); mret (Some stats))
                  (λ _, mret None)
     else mret None);
  match from_database with
  | Some stats => mret stats
  | None =>
      itineraries ← _load_itineraries;
      feedback ← _load_feedback;
      patterns ← _load_training_patterns;
      call (scan_statistics itineraries feedback patterns)
  end.

Definition get_recent_itineraries (limit : Z) : M World (list Itin.t) :=
  from_database ←
    (if use_database env then
       try_except
         (rows ← call (db_get_recent_itineraries env limit); mret (Some rows))
         (λ _, mret None)
     else mret None);
  match from_database with
  | Some rows => mret rows
  | None =>
      itineraries ← _load_itineraries;
      mret (slice_from (- limit) (rev itineraries))
  end.

End SelfTrainingLLMSystem.

(** ** src/database/db_manager.py *)

Module DatabaseManager.

(** A row of the table [itineraries], as far as [rate_itinerary] reads and
    writes it; [numeric] values are exact rationals. *)
Record row := mk_row {
  id : Z;
  character_count : Z;
  rating : option Z;
  feedback_comments : option string;
  quality_score : option Q
}.

(** The value of [(%s * 16.0) + (character_count / 1000.0)]. *)
Definition quality_score_of (rating character_count : Z) : Q :=
  (inject_Z rating * 16 + inject_Z character_count / 1000)%Q.

(** The [UPDATE] that [rate_itinerary] issues, on the rows whose id
    matches ([rated_at] is left out). *)
Definition rate_itinerary (itinerary_id rating : Z) (comments : string)
    (itineraries : list row) : list row :=
  map (λ r, if id r =? itinerary_id then
              {| id := id r;
                 character_count := character_count r;
                 rating := Some rating;
                 feedback_comments := Some comments;
                 quality_score :=
                   Some (quality_score_of rating (character_count r)) |}
            else r)
      itineraries.

End DatabaseManager.

(** ** src/database/dual_storage_manager.py *)

Module DualStorageManager.

Record itinerary := mk_itinerary {
  trip_id : Z;
  itinerary_text : string;
  word_count : Z;
  character_count : Z;
  created_at : string;
  id : Z
}.

(** [data/itineraries.json]; [None] is a file that cannot be read. *)
Record Files := mk_files {
  itineraries_file : option (list itinerary)
}.

Section Manager.

Context (use_postgres : bool) (db_create_itinerary : Z → Result Z)
        (writable : bool) (now : string).

Definition _load_json : M Files (list itinerary) :=
  try_except (json_load itineraries_file) (λ _, mret []).

Definition _save_json (data : list itinerary) : M Files unit :=
  try_except (json_dump writable true (λ _, mk_files (Some data)) (λ files, files))
             (λ _, pass).

Definition create_itinerary (trip_id : Z) (itinerary_text : string)
    (word_count : Z) : M Files Z :=
  itin_id ←
    (if use_postgres then
       try_except (itin_id ← call (db_create_itinerary trip_id); mret (Some itin_id))
                  (λ _, mret None)
     else mret None);
  itineraries ← _load_json;
  let itin_id :=
    match itin_id with
    | Some from_primary => from_primary
    | None => Z.of_nat (length itineraries) + 1
    end in
  let itin_data :=
    {| trip_id := trip_id;
       itinerary_text := itinerary_text;
       word_count := word_count;
       character_count := len_str itinerary_text;
       created_at := now;
       id := itin_id |} in
  _save_json (itineraries ++ [itin_data]);;
  mret itin_id.

End Manager.

End DualStorageManager.

(** ** app.py: validation of the inputs and helpers of the page *)

(** [re.sub(r'[^a-zA-Z\s-]', '', s)]: the characters of the class
    [a-zA-Z\s-] are kept, the others are removed. *)
Definition is_city_char (c : ascii) : bool :=
  is_lower c || is_upper c || is_space c || (code c =? 45).

Fixpoint keep_city_chars (s : string) : string :=
  match s with
  | EmptyString => EmptyString
  | String c rest =>
      if is_city_char c then String c (keep_city_chars rest)
      else keep_city_chars rest
  end.

Definition sanitize_city_input (city : string) (max_length : Z) : string :=
  if decide (city = ""%string) then ""%string
  else str_prefix max_length (keep_city_chars (strip city)).

(** [s.replace(old, new)] for an [old] of one character. *)
Fixpoint str_replace (old : ascii) (new : string) (s : string) : string :=
  match s with
  | EmptyString => EmptyString
  | String c rest =>
      if decide (c = old) then (new ++ str_replace old new rest)%string
      else String c (str_replace old new rest)
  end.

Definition create_google_maps_link (city : string) : string :=
  ("https://www.google.com/maps/search/?api=1&query="
   ++ str_replace " " "+" city)%string.

(** The escaping that [generate_pdf] applies to each line of the
    itinerary before it hands the line to a [Paragraph]. *)
Definition safe_line (line : string) : string :=
  str_replace ">" "&gt;" (str_replace "<" "&lt;" (str_replace "&" "&amp;" line)).

(** [s.split(sep)] for a separator of one character. *)
Fixpoint str_split (sep : ascii) (s : string) : list string :=
  match s with
  | EmptyString => [EmptyString]
  | String c rest =>
      if decide (c = sep) then EmptyString :: str_split sep rest
      else match str_split sep rest with
           | first :: others => String c first :: others
           | [] => [String c EmptyString]
           end
  end.

(** The interests field of the form, as the submit handler parses it:
    the parts between commas, stripped, without the blank ones; an empty
    field stands for the single interest Everything. *)
Definition interests_list (interests : string) : list string :=
  if decide (interests = ""%string) then ["Everything"%string]
  else map strip (List.filter (λ i, negb (bool_decide (strip i = ""%string)))
                              (str_split "," interests)).

(** The table of [estimate_trip_cost], in the order of the dictionary. *)
Definition costs : list (string * list (string * Z)) :=
  [ ("budget", [("accommodation", 30); ("food", 20); ("activities", 15);
                ("transport", 10)]);
    ("moderate", [("accommodation", 80); ("food", 40); ("activities", 30);
                  ("transport", 25)]);
    ("luxury", [("accommodation", 200); ("food", 100); ("activities", 80);
                ("transport", 50)]) ]%string.

Module Estimate.
Record t := mk {
  daily : Z;
  total : Z;
  breakdown : list (string * Z)
}.
End Estimate.

Definition estimate_trip_cost (city : string) (days : Z)
  : list (string * Estimate.t) :=
  map (λ '(category, values),
         (category,
          {| Estimate.daily := sum values.*2;
             Estimate.total := sum values.*2 * days;
             Estimate.breakdown := values |}))
      costs.

(** ** app.py: start-up of [SelfTrainingLLMSystem] *)

(** The three repairs of [_fix_old_data] on one record: a missing or null
    [rating], [feedback_comments] or [quality_score] becomes 0, the empty
    string, 0. *)
Definition fix_old (itin : Itin.t) : Itin.t :=
  {| Itin.id := Itin.id itin; Itin.timestamp := Itin.timestamp itin;
     Itin.city := Itin.city itin; Itin.destination := Itin.destination itin;
     Itin.trip_days := Itin.trip_days itin; Itin.duration := Itin.duration itin;
     Itin.budget := Itin.budget itin; Itin.budget_level := Itin.budget_level itin;
     Itin.interests := Itin.interests itin;
     Itin.travel_style := Itin.travel_style itin;
     Itin.include_food := Itin.include_food itin;
     Itin.include_transport := Itin.include_transport itin;
     Itin.full_prompt_context := Itin.full_prompt_context itin;
     Itin.full_itinerary := Itin.full_itinerary itin;
     Itin.itinerary_text := Itin.itinerary_text itin;
     Itin.itinerary_length := Itin.itinerary_length itin;
     Itin.word_count := Itin.word_count itin;
     Itin.rated := Itin.rated itin;
     Itin.rating := Some (default 0 (Itin.rating itin));
     Itin.feedback_comments := Some (default ""%string (Itin.feedback_comments itin));
     Itin.quality_score := Some (default (PyInt 0) (Itin.quality_score itin));
     Itin.used_for_training := Itin.used_for_training itin;
     Itin.training_iteration := Itin.training_iteration itin;
     Itin.created_at := Itin.created_at itin |}.

(** [needs_fix]: set by a repaired [rating] only. *)
Definition needs_fix (data : list Itin.t) : bool :=
  existsb (λ itin, bool_decide (Itin.rating itin = None)) data.

(** Which of the three files exist when the system is constructed. *)
Record Existing := mkExisting {
  itineraries_exists : bool;
  training_patterns_exists : bool;
  feedback_exists : bool
}.

Section Startup.

Context (env : Env).

Definition _fix_old_data : M World unit :=
  try_except
    (data ← json_load itineraries_file;
     let fixed := map fix_old data in
     if needs_fix data then
       json_dump (disk_writable env) (forallb Itin.serializable fixed)
                 (put_itineraries fixed) spoil_itineraries
     else pass)
    (λ _, pass).

(** [__init__]; [mkdir] is the outcome of creating the data directory. *)
Definition __init__ (mkdir : Result unit) (existing : Existing) : M World unit :=
  call mkdir;;
  (if itineraries_exists existing then _fix_old_data
   else _save_itineraries env []);;
  (if training_patterns_exists existing then pass
   else _save_training_patterns env (_generate_initial_patterns env));;
  (if feedback_exists existing then pass else _save_feedback env []);;
  _auto_train env.

End Startup.

(** ** src/database/db_manager.py: connections and transactions *)

Module DatabaseConnection.

(** The pool and the transactions, as far as [get_connection] acts on
    them: the connections handed out and not yet put back, and the
    transactions committed and rolled back so far. *)
Record Pool := mk_pool {
  in_use : nat;
  committed : nat;
  rolled_back : nat
}.

(** What the driver answers during one call of [execute_query]. *)
Record Driver (rows : Type) := mk_driver {
  getconn : Result unit;
  set_statement_timeout : Result unit;
  execute : Result unit;
  fetchall : Result rows;
  commit : Result unit;
  rollback : Result unit
}.
Arguments getconn {rows} _.
Arguments set_statement_timeout {rows} _.
Arguments execute {rows} _.
Arguments fetchall {rows} _.
Arguments commit {rows} _.
Arguments rollback {rows} _.

Section Manager.

Context {rows : Type} (driver : Driver rows).

(** [conn = self.pool.getconn()] *)
Definition pool_getconn : M Pool unit :=
  λ pool, match getconn driver with
          | Ok _ => (Ok tt, mk_pool (S (in_use pool)) (committed pool) (rolled_back pool))
          | Raise e => (Raise e, pool)
          end.

(** [self.pool.putconn(conn)] *)
Definition pool_putconn (pool : Pool) : Pool :=
  mk_pool (pred (in_use pool)) (committed pool) (rolled_back pool).

(** [conn.commit()] *)
Definition conn_commit : M Pool unit :=
  λ pool, match commit driver with
          | Ok _ => (Ok tt, mk_pool (in_use pool) (S (committed pool)) (rolled_back pool))
          | Raise e => (Raise e, pool)
          end.

(** [conn.rollback()] *)
Definition conn_rollback : M Pool unit :=
  λ pool, match rollback driver with
          | Ok _ => (Ok tt, mk_pool (in_use pool) (committed pool) (S (rolled_back pool)))
          | Raise e => (Raise e, pool)
          end.

(** [with self.get_connection() as conn: body].  When no connection is
    obtained, [conn] is [None]: the handler re-raises and the [finally]
    clause has nothing to put back. *)
Definition get_connection {A : Type} (body : M Pool A) : M Pool A :=
  λ pool,
    match pool_getconn pool with
    | (Raise e, pool) => (Raise e, pool)
    | (Ok _, pool) =>
        let '(result, pool) :=
          try_except
            (call (set_statement_timeout driver);;
             a ← body;
             conn_commit;;
             mret a)
            (λ e, conn_rollback;; call (Raise e))
            pool in
        (result, pool_putconn pool)
    end.

Definition execute_query (fetch : bool) : M Pool (option rows) :=
  get_connection
    (call (execute driver);;
     if fetch then fetched ← call (fetchall driver); mret (Some fetched)
     else mret None).

End Manager.

End DatabaseConnection.

(** ** src/database/dual_storage_manager.py: trips, ratings, statistics

    The operations of [DualStorageManager] over both of its flat files;
    a record of [data/itineraries.json] holds what [create_itinerary]
    wrote and what [rate_itinerary] added. *)

Module DualStorage.

(** One element of [data/trips.json]. *)
Module Trip.
Record t := mk {
  destination : string;
  interests : list string;
  duration : Z;
  budget_level : string;
  travel_style : list string;
  include_food : bool;
  include_transport : bool;
  created_at : string;
  id : Z
}.
End Trip.

(** One element of [data/itineraries.json]: the keys [create_itinerary]
    writes, and the three that [rate_itinerary] adds. *)
Module Itinerary.
Record t := mk {
  created : DualStorageManager.itinerary;
  rating : option Z;
  feedback_comments : option string;
  rated_at : option string
}.
Definition id (i : t) : Z := DualStorageManager.id (created i).
End Itinerary.

Record Files := mk_files {
  trips_file : option (list Trip.t);
  itineraries_file : option (list Itinerary.t)
}.

(** What [get_statistics] computes from the flat files. *)
Module Statistics.
Record t := mk {
  total_trips : Z;
  total_itineraries : Z;
  total_ratings : Z;
  avg_rating : pynum
}.
End Statistics.

Section Manager.

(** The primary backend, the disk and the clock; [primary_statistics] is
    the dictionary [DatabaseManager.get_statistics] returns. *)
Context {primary_statistics : Type}.
Context (use_postgres : bool)
        (db_create_trip : Result Z)
        (db_create_itinerary : Z → Result Z)
        (db_rate_itinerary : Z → Z → string → Result unit)
        (db_get_statistics : Result primary_statistics)
        (writable : bool) (now : string).

Definition _load_json {A : Type} (file : Files → option (list A))
  : M Files (list A) :=
  try_except (json_load file) (λ _, mret []).

Definition _save_json (put : Files → Files) : M Files unit :=
  try_except (json_dump writable true put (λ files, files)) (λ _, pass).

(** The two files as [_save_json] writes them. *)
Definition put_trips (data : list Trip.t) (files : Files) : Files :=
  mk_files (Some data) (itineraries_file files).

Definition put_itineraries (data : list Itinerary.t) (files : Files) : Files :=
  mk_files (trips_file files) (Some data).

Definition create_trip (destination : string) (interests : list string)
    (duration : Z) (budget_level : string) (travel_style : list string)
    (include_food include_transport : bool) : M Files Z :=
  trip_id ←
    (if use_postgres then
       try_except (trip_id ← call db_create_trip; mret (Some trip_id))
                  (λ _, mret None)
     else mret None);
  trips ← _load_json trips_file;
  let trip_id :=
    match trip_id with
    | Some from_primary => from_primary
    | None => Z.of_nat (length trips) + 1
    end in
  let trip_data :=
    {| Trip.destination := destination;
       Trip.interests := interests;
       Trip.duration := duration;
       Trip.budget_level := budget_level;
       Trip.travel_style := travel_style;
       Trip.include_food := include_food;
       Trip.include_transport := include_transport;
       Trip.created_at := now;
       Trip.id := trip_id |} in
  _save_json (put_trips (trips ++ [trip_data]));;
  mret trip_id.

Definition create_itinerary (trip_id : Z) (itinerary_text : string)
    (word_count : Z) : M Files Z :=
  itin_id ←
    (if use_postgres then
       try_except (itin_id ← call (db_create_itinerary trip_id); mret (Some itin_id))
                  (λ _, mret None)
     else mret None);
  itineraries ← _load_json itineraries_file;
  let itin_id :=
    match itin_id with
    | Some from_primary => from_primary
    | None => Z.of_nat (length itineraries) + 1
    end in
  let itin_data :=
    {| Itinerary.created :=
         {| DualStorageManager.trip_id := trip_id;
            DualStorageManager.itinerary_text := itinerary_text;
            DualStorageManager.word_count := word_count;
            DualStorageManager.character_count := len_str itinerary_text;
            DualStorageManager.created_at := now;
            DualStorageManager.id := itin_id |};
       Itinerary.rating := None;
       Itinerary.feedback_comments := None;
       Itinerary.rated_at := None |} in
  _save_json (put_itineraries (itineraries ++ [itin_data]));;
  mret itin_id.

(** The loop of [rate_itinerary]: the first record whose id matches is
    updated, then [break]. *)
Fixpoint rate_first (itinerary_id rating : Z) (comments : string)
    (itineraries : list Itinerary.t) : list Itinerary.t :=
  match itineraries with
  | [] => []
  | itin :: rest =>
      if decide (Itinerary.id itin = itinerary_id) then
        {| Itinerary.created := Itinerary.created itin;
           Itinerary.rating := Some rating;
           Itinerary.feedback_comments := Some comments;
           Itinerary.rated_at := Some now |} :: rest
      else itin :: rate_first itinerary_id rating comments rest
  end.

Definition rate_itinerary (itinerary_id rating : Z) (comments : string)
  : M Files unit :=
  (if use_postgres then
     try_except (call (db_rate_itinerary itinerary_id rating comments))
                (λ _, pass)
   else pass);;
  itineraries ← _load_json itineraries_file;
  _save_json (put_itineraries (rate_first itinerary_id rating comments itineraries)).

(** [i.get('rating')] as a condition: a rating that is neither missing
    nor 0. *)
Definition has_rating (i : Itinerary.t) : bool :=
  match Itinerary.rating i with
  | Some r => negb (r =? 0)
  | None => false
  end.

Definition get_statistics : M Files (primary_statistics + Statistics.t) :=
  from_primary ←
    (if use_postgres then
       try_except (stats ← call db_get_statistics; mret (Some stats))
                  (λ _, mret None)
     else mret None);
  match from_primary with
  | Some stats => mret (inl stats)
  | None =>
      trips ← _load_json trips_file;
      itineraries ← _load_json itineraries_file;
      let rated := List.filter has_rating itineraries in
      avg_rating ←
        match rated with
        | [] => mret (PyInt 0)
        | _ =>
            quotient ← call (int_truediv
                               (sum (map (λ i, default 0 (Itinerary.rating i)) rated))
                               (Z.of_nat (length rated)));
            mret (PyFloat quotient)
        end;
      mret (inr
        {| Statistics.total_trips := Z.of_nat (length trips);
           Statistics.total_itineraries := Z.of_nat (length itineraries);
           Statistics.total_ratings := Z.of_nat (length rated);
           Statistics.avg_rating := avg_rating |})
  end.

End Manager.

End DualStorage.

(** ** src/core/planner.py *)

Module TravelPlanner.

Inductive error :=
  | ValueError
  | RuntimeError.

Record t := mk {
  city : string;
  interests : list string;
  trip_days : Z;
  budget : string
}.

(** [__init__]; [api_key] is the value of [GROQ_API_KEY], which
    [_initialize_client] requires; the client is then constructed from
    the key, which is taken to return. *)
Definition __init__ (api_key : option string) (city : string)
    (interests : list string) (trip_days : Z) (budget : string) : t + error :=
  let self :=
    {| city := city;
       interests := interests;
       trip_days := Z.max 1 (Z.min trip_days 30);
       budget := budget |} in
  match api_key with
  | Some key => if decide (key = ""%string) then inr ValueError else inl self
  | None => inr ValueError
  end.

(** [create_itinerary]; [completion] is the content of the first choice
    that the client returns for the prompt, [None] when the call raises.
    The count of the days found in the text is only logged. *)
Definition create_itinerary (self : t) (completion : option string)
  : string + error :=
  match completion with
  | Some content =>
      let itinerary := strip content in
      if bool_decide (itinerary = ""%string) || (len_str itinerary <? 100)
      then inr RuntimeError
      else inl itinerary
  | None => inr RuntimeError
  end.

End TravelPlanner.

(** * Vocabulary of the properties *)

(** ** The files after an operation *)

Ltac unfold_M :=
  unfold mbind, M_bind, mret, M_ret, try_except, call, json_load, json_dump,
    pass in *.

(** What a save leaves on disk. *)
Definition saved_itineraries (env : Env) (data : list Itin.t) (w : World) : World :=
  if disk_writable env then
    if forallb Itin.serializable data then put_itineraries data w
    else spoil_itineraries w
  else w.

(** Records that hold JSON values only, as records read from a flat file
    do. *)
Definition json_values (itineraries : list Itin.t) : Prop :=
  forallb Itin.serializable itineraries = true.

Definition saved_feedback (env : Env) (data : list Feedback.t) (w : World) : World :=
  if disk_writable env then put_feedback data w else w.

Definition saved_training_patterns (env : Env) (data : Patterns.t) (w : World)
  : World :=
  if disk_writable env then put_training_patterns data w else w.

(** The records an auto-train pass works on, and whether it goes past its
    two guards. *)
Definition trains (itineraries : list Itin.t) : bool :=
  (3 <=? Z.of_nat (length itineraries))
  && bool_decide (List.filter is_high_quality itineraries ≠ []).

(** The world an auto-train pass leaves. *)
Definition auto_trained (env : Env) (w : World) : World :=
  if use_database env then w
  else
    let itineraries := default [] (itineraries_file w) in
    let patterns :=
      default (_generate_initial_patterns env) (training_patterns_file w) in
    if trains itineraries then
      let result :=
        train (now env) (_generate_training_insight env
                           (List.filter is_high_quality itineraries))
              itineraries patterns in
      saved_itineraries env result.2 (saved_training_patterns env result.1 w)
    else w.

(** A record after an auto-train pass: untouched, or stamped. *)
Definition trained_from (before after : Itin.t) : Prop :=
  after = before ∨ ∃ iteration, after = Itin.set_training before iteration.

(** The position of the record that [record_feedback] updates. *)
Definition first_with_id (itinerary_id : Z) (itineraries : list Itin.t)
    (k : nat) (itin : Itin.t) : Prop :=
  itineraries !! k = Some itin
  ∧ Itin.id itin = Some itinerary_id
  ∧ ∀ j other, (j < k)%nat → itineraries !! j = Some other →
      Itin.id other ≠ Some itinerary_id.

(** [record_feedback], step by step. *)
Definition feedback_entry (env : Env) (itinerary_id rating : Z) (comments : string)
  : Feedback.t :=
  {| Feedback.timestamp := now env;
     Feedback.itinerary_id := itinerary_id;
     Feedback.rating := rating;
     Feedback.comments := sanitize_text_input comments 1000 |}.

Definition feedback_recorded (env : Env) (itinerary_id rating : Z)
    (comments : string) (rated : list Itin.t) (w : World) : World :=
  let w1 := saved_itineraries env rated w in
  let feedback_data :=
    default [] (feedback_file w1) ++ [feedback_entry env itinerary_id rating comments] in
  let w2 := saved_feedback env feedback_data w1 in
  if Z.of_nat (length feedback_data) mod 3 =? 0 then auto_trained env w2 else w2.

(** ** City names *)

(** The characters of a string. *)
Definition chars (s : string) : list ascii := list_ascii_of_string s.

(** Names whose title lies below code point 256, as the strings here do:
    those that hold neither the micro sign (its title is the Greek
    capital mu) nor y with diaeresis (its title is the capital one, at
    code point 376). *)
Definition title_within_range (name : string) : Prop :=
  Forall (λ c, code c ≠ 181 ∧ code c ≠ 255) (chars name).

(** Records whose city names are such names. *)
Definition names_within_range (itineraries : list Itin.t) : Prop :=
  Forall (λ itin, title_within_range (Itin.city_name itin)) itineraries.

(** ** Environments and stores of the examples *)

(** Flat-file mode on a writable disk; [choice] is what the random
    generator draws. *)
Definition flat_file_env (choice : nat) : Env :=
  {| use_database := false;
     db_create_trip := Raise DatabaseError;
     db_create_itinerary := λ _, Raise DatabaseError;
     db_rate_itinerary := λ _ _ _, Raise DatabaseError;
     db_get_recent_itineraries := λ _, Raise DatabaseError;
     db_training_cycles := Raise DatabaseError;
     db_get_statistics := Raise DatabaseError;
     disk_writable := true;
     now := "2025-01-01T00:00:00";
     random_choice := choice |}.

Definition json_only : Env := flat_file_env 3.

(** A record as [store_complete_itinerary] writes it. *)
Definition stored_entry (itin_id : Z) (city : string) (text : string) : Itin.t :=
  {| Itin.id := Some itin_id;
     Itin.timestamp := Some "2025-01-01T00:00:00"%string;
     Itin.city := Some city;
     Itin.destination := Some city;
     Itin.trip_days := Some 3;
     Itin.duration := Some 3;
     Itin.budget := Some "Moderate"%string;
     Itin.budget_level := Some "Moderate"%string;
     Itin.interests := Some ["Everything"%string];
     Itin.travel_style := Some [];
     Itin.include_food := Some true;
     Itin.include_transport := Some true;
     Itin.full_prompt_context := Some ""%string;
     Itin.full_itinerary := Some text;
     Itin.itinerary_text := Some text;
     Itin.itinerary_length := Some (len_str text);
     Itin.word_count := Some (count_words text);
     Itin.rated := Some false;
     Itin.rating := Some 0;
     Itin.feedback_comments := Some ""%string;
     Itin.quality_score := Some (PyInt 0);
     Itin.used_for_training := Some false;
     Itin.training_iteration := Some 0;
     Itin.created_at := None |}.

Definition one_record : World :=
  {| itineraries_file := Some [stored_entry 1 "paris" "Day 1: the Louvre"];
     feedback_file := Some [];
     training_patterns_file := None |}.

(** The record at position [k] of the itineraries file. *)
Definition record_at (w : World) (k : nat) : option Itin.t :=
  match itineraries_file w with
  | Some stored => stored !! k
  | None => None
  end.

(** ** Ids on create *)

(** The id the primary backend produced, if it produced one. *)
Definition primary_id (env : Env) : option Z :=
  if use_database env then
    match db_create_trip env with
    | Ok trip_id =>
        match db_create_itinerary env trip_id with
        | Ok itin_id => Some itin_id
        | Raise _ => None
        end
    | Raise _ => None
    end
  else None.

(** The id the flat file assigns on its own. *)
Definition flat_file_id (w : World) : Z :=
  Z.of_nat (length (default [] (itineraries_file w))) + 1.

(** ** Stores with three itineraries *)

(** Three stored itineraries; the first was rated 5 and the second 3, by
    two feedback submissions. *)
Definition three_stored : World :=
  {| itineraries_file :=
       Some [stored_entry 1 "paris" "Day 1: the Louvre";
             stored_entry 2 "tokyo" "Day 1: Asakusa";
             stored_entry 3 "tokyo" "Day 1: Shibuya"];
     feedback_file := Some [];
     training_patterns_file := None |}.

Definition after_two_feedbacks : World :=
  (record_feedback json_only 2 3 "fine"
     (record_feedback json_only 1 5 "great" three_stored).2).2.

(** ** A store with five itineraries *)

Definition five_stored : World :=
  {| itineraries_file :=
       Some [stored_entry 1 "paris" "Day 1: the Louvre";
             stored_entry 2 "tokyo" "Day 1: Asakusa";
             stored_entry 3 "rome" "Day 1: the Forum";
             stored_entry 4 "lima" "Day 1: Miraflores";
             stored_entry 5 "oslo" "Day 1: the Opera"];
     feedback_file := Some [];
     training_patterns_file := None |}.

(** ** The pattern document over several passes *)

(** The insight list and the city counts of the stored document; a file
    that cannot be read stands for the seed document. *)
Definition world_insights (w : World) : list string :=
  default [] (Patterns.insights <$> training_patterns_file w).

Definition world_cities (w : World) : gmap string Z :=
  default ∅ (Patterns.cities <$> training_patterns_file w).

Definition city_count (w : World) (city : string) : Z :=
  default 0 (world_cities w !! city).

(** Successive calls of [_auto_train], one environment for each. *)
Definition passes (envs : list Env) (w : World) : World :=
  foldl (λ w env, (_auto_train env w).2) w envs.

(** The high-rated records of one destination. *)
Definition high_rated_for (city : string) (itineraries : list Itin.t) : nat :=
  length (List.filter
            (λ itin, is_high_quality itin
                     && bool_decide (title (Itin.city_name itin) = city))
            itineraries).

(** The passes that get to count: those in flat-file mode on a writable
    disk, when at least three records are stored. *)
Definition counts (env : Env) (itineraries : list Itin.t) : bool :=
  negb (use_database env) && disk_writable env
  && (3 <=? Z.of_nat (length itineraries)).

Definition counting_passes (envs : list Env) (itineraries : list Itin.t) : nat :=
  length (List.filter (λ env, counts env itineraries) envs).

(** Twenty passes over three records of which one is rated 5. *)
Definition one_high_rated : World :=
  (record_feedback json_only 1 5 "great" three_stored).2.

Definition twenty_draws : list Env := map flat_file_env (seq 0 20).

(** Two records of Paris, both rated 5. *)
Definition two_of_paris : World :=
  {| itineraries_file :=
       Some [Itin.set_feedback (stored_entry 1 "paris" "Day 1: the Louvre")
               5 "great" (PyFloat 80);
             Itin.set_feedback (stored_entry 2 "paris" "Day 1: Montmartre")
               5 "great" (PyFloat 80)];
     feedback_file := Some [];
     training_patterns_file := None |}.

(** ** Rated records *)

(** The ratings and the word counts that the averages of the statistics
    are taken over. *)
Definition rated_ratings (itineraries : list Itin.t) : list Z :=
  ratings_of (List.filter is_rated itineraries).

Definition word_counts (itineraries : list Itin.t) : list Z :=
  map (λ i, default 0 (Itin.word_count i)) itineraries.

(** Both averages are within the float range: each sum is below the
    largest finite value times the number of its terms.  Ratings of 1 to
    5 and counted words are. *)
Definition averages_in_range (itineraries : list Itin.t) : Prop :=
  (rated_ratings itineraries = []
   ∨ Z.abs (sum (rated_ratings itineraries))
     < float_overflow_bound * Z.of_nat (length (rated_ratings itineraries)))
  ∧ (itineraries = []
     ∨ Z.abs (sum (word_counts itineraries))
       < float_overflow_bound * Z.of_nat (length itineraries)).

(** The rated records that carry a given rating. *)
Definition rated_with (rating : Z) (itineraries : list Itin.t) : nat :=
  length (List.filter (λ itin, is_rated itin && (Itin.rating_or_0 itin =? rating))
                      itineraries).

Definition one_rated_one_not : World :=
  {| itineraries_file :=
       Some [stored_entry 1 "paris" "Day 1: the Louvre";
             Itin.set_feedback (stored_entry 2 "tokyo" "Day 1: Asakusa")
               4 "good" (PyFloat 64)];
     feedback_file := Some [];
     training_patterns_file := None |}.

(** ** Destinations and their order *)

(** The destinations in the order of the scan. *)
Definition destinations (itineraries : list Itin.t) : list string :=
  map (λ itin, title (Itin.city_name itin)) itineraries.

(** How often a destination occurs, and where it is met first. *)
Definition occurrences (city : string) (cities : list string) : Z :=
  Z.of_nat (length (filter (λ c, c = city) cities)).

Fixpoint first_seen (city : string) (cities : list string) : option nat :=
  match cities with
  | [] => None
  | c :: rest => if decide (c = city) then Some 0%nat else S <$> first_seen city rest
  end.

(** The distinct destinations, in the order in which they are met. *)
Definition keep_first (cities : list string) : list string :=
  foldl (λ seen c, if decide (c ∈ seen) then seen else seen ++ [c]) [] cities.

(** The table the counting pass builds. *)
Definition count_table (cities : list string) : list (string * Z) :=
  map (λ c, (c, occurrences c cities)) (keep_first cities).

Definition descending : relation (string * Z) := λ a b, b.2 ≤ a.2.

#[local] Instance descending_transitive : Transitive descending.
Proof. unfold descending. intros a b c. lia. Qed.

Definition tie_of_two : World :=
  {| itineraries_file :=
       Some [stored_entry 1 "tokyo" "Day 1: Asakusa";
             stored_entry 2 "paris" "Day 1: the Louvre";
             stored_entry 3 "oslo" "Day 1: the Opera";
             stored_entry 4 "oslo" "Day 2: the fjord"];
     feedback_file := Some [];
     training_patterns_file := None |}.

(** ** Environments with a primary backend *)

(** Ids can collide when the primary backend assigns one id and the flat
    file assigns the next on its own; [record_feedback] then updates the
    first of the two records only. *)
Definition primary_assigns (itin_id : Z) : Env :=
  {| use_database := true;
     db_create_trip := Ok 1;
     db_create_itinerary := λ _, Ok itin_id;
     db_rate_itinerary := λ _ _ _, Raise DatabaseError;
     db_get_recent_itineraries := λ _, Raise DatabaseError;
     db_training_cycles := Raise DatabaseError;
     db_get_statistics := Raise DatabaseError;
     disk_writable := true;
     now := "2025-01-01T00:00:00";
     random_choice := 0 |}.

Definition primary_down : Env :=
  {| use_database := true;
     db_create_trip := Raise DatabaseError;
     db_create_itinerary := λ _, Raise DatabaseError;
     db_rate_itinerary := λ _ _ _, Raise DatabaseError;
     db_get_recent_itineraries := λ _, Raise DatabaseError;
     db_training_cycles := Raise DatabaseError;
     db_get_statistics := Raise DatabaseError;
     disk_writable := true;
     now := "2025-01-01T00:00:00";
     random_choice := 0 |}.

Definition nothing_stored : World :=
  {| itineraries_file := Some [];
     feedback_file := Some [];
     training_patterns_file := None |}.

Definition stored_twice : World :=
  (store_complete_itinerary primary_down "tokyo" 2 "Budget" [] [] true true
     "" "Day 1: Asakusa"
     (store_complete_itinerary (primary_assigns 2) "paris" 3 "Luxury" [] [] true
        true "" "Day 1: the Louvre" nothing_stored).2).2.

(** A row as [DatabaseManager.get_recent_itineraries] returns it. *)
Definition primary_row (itin_id : Z) (destination text : string) : Itin.t :=
  {| Itin.id := Some itin_id;
     Itin.timestamp := None;
     Itin.city := None;
     Itin.destination := Some destination;
     Itin.trip_days := None;
     Itin.duration := Some 3;
     Itin.budget := None;
     Itin.budget_level := Some "Moderate"%string;
     Itin.interests := None;
     Itin.travel_style := None;
     Itin.include_food := None;
     Itin.include_transport := None;
     Itin.full_prompt_context := None;
     Itin.full_itinerary := None;
     Itin.itinerary_text := Some text;
     Itin.itinerary_length := None;
     Itin.word_count := None;
     Itin.rated := None;
     Itin.rating := None;
     Itin.feedback_comments := None;
     Itin.quality_score := None;
     Itin.used_for_training := None;
     Itin.training_iteration := None;
     Itin.created_at := Some (Datetime "2025-01-01T00:00:00") |}.

Definition primary_up : Env :=
  {| use_database := true;
     db_create_trip := Ok 1;
     db_create_itinerary := λ _, Ok 1;
     db_rate_itinerary := λ _ _ _, Ok tt;
     db_get_recent_itineraries := λ _, Ok [primary_row 1 "paris" "Day 1: the Louvre"];
     db_training_cycles := Ok None;
     db_get_statistics := Raise DatabaseError;
     disk_writable := true;
     now := "2025-01-01T00:00:00";
     random_choice := 0 |}.

(** A text of 25000 characters, stored in both backends. *)
Definition long_text : string :=
  string_of_list_ascii (repeat "a"%char (Z.to_nat 25000)).

Definition primary_with_long_text : Env :=
  {| use_database := true;
     db_create_trip := Ok 1;
     db_create_itinerary := λ _, Ok 1;
     db_rate_itinerary := λ _ _ _, Ok tt;
     db_get_recent_itineraries := λ _, Ok [primary_row 1 "paris" long_text];
     db_training_cycles := Ok None;
     db_get_statistics := Raise DatabaseError;
     disk_writable := true;
     now := "2025-01-01T00:00:00";
     random_choice := 0 |}.

Definition one_long_record : World :=
  {| itineraries_file := Some [stored_entry 1 "paris" long_text];
     feedback_file := Some [];
     training_patterns_file := None |}.

Definition one_long_row : list DatabaseManager.row :=
  [DatabaseManager.mk_row 1 (len_str long_text) None None None].

(** ** Ids the flat file assigns *)

(** The ids 1, 2, ... in the order of the records. *)
Definition sequential_ids (itineraries : list Itin.t) : Prop :=
  map Itin.id itineraries
  = map (λ k, Some (Z.of_nat k)) (seq 1 (length itineraries)).

(** ** The pattern document: prompts and iterations *)

Definition world_prompts (w : World) : list PromptSummary.t :=
  default []
    ((λ patterns, default [] (Patterns.best_performing_prompts patterns))
       <$> training_patterns_file w).

Definition world_iterations (w : World) : Z :=
  default 0
    ((λ patterns, default 0 (Patterns.training_iterations patterns))
       <$> training_patterns_file w).

(** The sum of the counts of a rating distribution. *)
Definition total_count (rating_dist : gmap Z Z) : Z :=
  map_fold (λ _ count total, count + total) 0 rating_dist.

(** ** Strings as lists of characters *)

(** Leading blanks of a list of characters. *)
Fixpoint lstrip_chars (l : list ascii) : list ascii :=
  match l with
  | c :: rest => if is_space c then lstrip_chars rest else l
  | [] => []
  end.

(** What the three replacements make of one character. *)
Definition escaped (c : ascii) : string :=
  if decide (c = "&"%char) then "&amp;"
  else if decide (c = "<"%char) then "&lt;"
  else if decide (c = ">"%char) then "&gt;"
  else String c EmptyString.

(** ** The shape of the best-performing prompts *)

(** No duplicates, at most 10 summaries, all of rating 5. *)
Definition prompts_invariant (prompts : list PromptSummary.t) : Prop :=
  NoDup prompts
  ∧ (length prompts ≤ 10)%nat
  ∧ Forall (λ summary, PromptSummary.rating summary = 5) prompts.

(** ** The flat files of the dual storage manager *)

(** The position of the record that [rate_itinerary] updates. *)
Definition first_rated (itinerary_id : Z)
    (itineraries : list DualStorage.Itinerary.t) (k : nat)
    (itin : DualStorage.Itinerary.t) : Prop :=
  itineraries !! k = Some itin
  ∧ DualStorage.Itinerary.id itin = itinerary_id
  ∧ ∀ j other, (j < k)%nat → itineraries !! j = Some other →
      DualStorage.Itinerary.id other ≠ itinerary_id.

(** The id a record is appended with: the primary's when it produced
    one, the length of the collection plus 1 otherwise. *)
Definition primary_or_next {A} (from_primary : Result Z) (collection : list A) : Z :=
  match from_primary with
  | Ok id => id
  | Raise _ => Z.of_nat (length collection) + 1
  end.

(** The records that [get_statistics] counts as rated. *)
Definition rated_count (itineraries : list DualStorage.Itinerary.t) : Z :=
  Z.of_nat (length (List.filter DualStorage.has_rating itineraries)).

(** Their ratings, and whether the average of them is within the float
    range. *)
Definition counted_ratings (itineraries : list DualStorage.Itinerary.t) : list Z :=
  map (λ i, default 0 (DualStorage.Itinerary.rating i))
      (List.filter DualStorage.has_rating itineraries).

Definition average_in_range (itineraries : list DualStorage.Itinerary.t) : Prop :=
  counted_ratings itineraries = []
  ∨ Z.abs (sum (counted_ratings itineraries))
    < float_overflow_bound * Z.of_nat (length (counted_ratings itineraries)).

(** ** Letters and their case *)

(** The 256 characters. *)
Definition every_character : list ascii := map ascii_of_nat (seq 0 256).

(** Two names that differ by the case of their letters only. *)
Definition same_letters (a b : string) : Prop :=
  map lower_char (chars a) = map lower_char (chars b).

(** Whether two characters with the same lower case are both cased or
    both not, and have the same title case. *)
Definition case_agrees (c d : ascii) : bool :=
  if decide (lower_char c = lower_char d) then
    bool_decide (is_cased c = is_cased d)
    && bool_decide (title_char c = title_char d)
  else true.

(** ** Stores of the further examples *)

(** A record from before ratings were kept: no rating, no comments, no
    score. *)
Definition old_entry (itin_id : Z) (city text : string) : Itin.t :=
  {| Itin.id := Some itin_id;
     Itin.timestamp := Some "2024-06-01T00:00:00"%string;
     Itin.city := Some city;
     Itin.destination := Some city;
     Itin.trip_days := Some 3;
     Itin.duration := Some 3;
     Itin.budget := Some "Moderate"%string;
     Itin.budget_level := Some "Moderate"%string;
     Itin.interests := Some ["Everything"%string];
     Itin.travel_style := Some [];
     Itin.include_food := Some true;
     Itin.include_transport := Some true;
     Itin.full_prompt_context := Some ""%string;
     Itin.full_itinerary := Some text;
     Itin.itinerary_text := Some text;
     Itin.itinerary_length := Some (len_str text);
     Itin.word_count := Some (count_words text);
     Itin.rated := Some false;
     Itin.rating := None;
     Itin.feedback_comments := None;
     Itin.quality_score := None;
     Itin.used_for_training := Some false;
     Itin.training_iteration := Some 0;
     Itin.created_at := None |}.

Definition old_store : World :=
  {| itineraries_file :=
       Some [old_entry 1 "paris" "Day 1: the Louvre";
             stored_entry 2 "tokyo" "Day 1: Asakusa"];
     feedback_file := Some [];
     training_patterns_file := None |}.

(** Two itineraries of one trip in the flat files of the dual storage
    manager; the first one is rated 4. *)
Definition dual_itinerary (itin_id : Z) (text : string) (rating : option Z)
  : DualStorage.Itinerary.t :=
  {| DualStorage.Itinerary.created :=
       {| DualStorageManager.trip_id := 1;
          DualStorageManager.itinerary_text := text;
          DualStorageManager.word_count := count_words text;
          DualStorageManager.character_count := len_str text;
          DualStorageManager.created_at := "2025-01-01T00:00:00";
          DualStorageManager.id := itin_id |};
     DualStorage.Itinerary.rating := rating;
     DualStorage.Itinerary.feedback_comments := None;
     DualStorage.Itinerary.rated_at := None |}.

Definition two_itineraries : DualStorage.Files :=
  {| DualStorage.trips_file := Some [];
     DualStorage.itineraries_file :=
       Some [dual_itinerary 1 "Day 1: the Louvre" (Some 4);
             dual_itinerary 2 "Day 1: Montmartre" None] |}.

(** The primary backend in use: twenty passes in database mode. *)
Definition twenty_with_primary : list Env := repeat primary_up 20.

(** A rating past the float range, given to the record of 25000
    characters; and an unrated record whose stored word count is past the
    float range. *)
Definition rated_past_the_range : World :=
  (record_feedback json_only 1 (2 ^ 1100) "" one_long_record).2.

Definition with_word_count (itin : Itin.t) (count : Z) : Itin.t :=
  {| Itin.id := Itin.id itin;
     Itin.timestamp := Itin.timestamp itin;
     Itin.city := Itin.city itin;
     Itin.destination := Itin.destination itin;
     Itin.trip_days := Itin.trip_days itin;
     Itin.duration := Itin.duration itin;
     Itin.budget := Itin.budget itin;
     Itin.budget_level := Itin.budget_level itin;
     Itin.interests := Itin.interests itin;
     Itin.travel_style := Itin.travel_style itin;
     Itin.include_food := Itin.include_food itin;
     Itin.include_transport := Itin.include_transport itin;
     Itin.full_prompt_context := Itin.full_prompt_context itin;
     Itin.full_itinerary := Itin.full_itinerary itin;
     Itin.itinerary_text := Itin.itinerary_text itin;
     Itin.itinerary_length := Itin.itinerary_length itin;
     Itin.word_count := Some count;
     Itin.rated := Itin.rated itin;
     Itin.rating := Itin.rating itin;
     Itin.feedback_comments := Itin.feedback_comments itin;
     Itin.quality_score := Itin.quality_score itin;
     Itin.used_for_training := Itin.used_for_training itin;
     Itin.training_iteration := Itin.training_iteration itin;
     Itin.created_at := Itin.created_at itin |}.

Definition counted_past_the_range : World :=
  {| itineraries_file :=
       Some [with_word_count (stored_entry 1 "paris" "Day 1: the Louvre")
               (2 ^ 1100)];
     feedback_file := Some [];
     training_patterns_file := None |}.

(** A completion of 120 characters between blanks. *)
Definition long_completion : string :=
  ("  " ++ string_of_list_ascii (repeat "a"%char 120) ++ " ")%string.

(** * Properties *)

(** ** How the operations act on the files *)

Lemma _save_itineraries_eq env data w :
  _save_itineraries env data w = (Ok tt, saved_itineraries env data w).
Proof.
  unfold _save_itineraries, saved_itineraries. unfold_M.
  by destruct (disk_writable env), (forallb Itin.serializable data).
Qed.

Lemma _save_feedback_eq env data w :
  _save_feedback env data w = (Ok tt, saved_feedback env data w).
Proof.
  unfold _save_feedback, saved_feedback. unfold_M.
  by destruct (disk_writable env).
Qed.

Lemma _save_training_patterns_eq env data w :
  _save_training_patterns env data w = (Ok tt, saved_training_patterns env data w).
Proof.
  unfold _save_training_patterns, saved_training_patterns. unfold_M.
  by destruct (disk_writable env).
Qed.

Lemma load_cached_itineraries_eq w :
  load_cached_itineraries w = (Ok (default [] (itineraries_file w)), w).
Proof.
  unfold load_cached_itineraries. unfold_M. by destruct (itineraries_file w).
Qed.

Lemma _load_feedback_eq w :
  _load_feedback w = (Ok (default [] (feedback_file w)), w).
Proof. unfold _load_feedback. unfold_M. by destruct (feedback_file w). Qed.

(** Loading never fails and never writes. *)
Lemma _load_itineraries_total env w :
  ∃ itineraries, _load_itineraries env w = (Ok itineraries, w).
Proof.
  unfold _load_itineraries. unfold_M.
  destruct (use_database env); [destruct (db_get_recent_itineraries env 1000)|];
    rewrite ?load_cached_itineraries_eq; eauto.
Qed.

Lemma _load_itineraries_json env w :
  use_database env = false →
  _load_itineraries env w = (Ok (default [] (itineraries_file w)), w).
Proof.
  intros Hdb. unfold _load_itineraries. unfold_M. rewrite Hdb.
  apply load_cached_itineraries_eq.
Qed.

Lemma _load_training_patterns_json env w :
  use_database env = false →
  _load_training_patterns env w =
    (Ok (default (_generate_initial_patterns env) (training_patterns_file w)), w).
Proof.
  intros Hdb. unfold _load_training_patterns. unfold_M. rewrite Hdb.
  by destruct (training_patterns_file w).
Qed.

Lemma _auto_train_eq env w : _auto_train env w = (Ok tt, auto_trained env w).
Proof.
  unfold _auto_train, auto_trained.
  destruct (use_database env) eqn:Hdb; [by unfold_M|].
  unfold try_except, mbind, M_bind.
  rewrite (_load_itineraries_json _ _ Hdb), (_load_training_patterns_json _ _ Hdb).
  unfold trains.
  destruct (Z.ltb_spec (Z.of_nat (length (default [] (itineraries_file w)))) 3)
    as [Hlt|Hge].
  - replace (3 <=? _) with false by (symmetry; apply Z.leb_gt; lia). done.
  - replace (3 <=? _) with true by (symmetry; apply Z.leb_le; lia).
    simpl andb.
    destruct (List.filter is_high_quality (default [] (itineraries_file w)))
      as [|h hq] eqn:Hhq.
    + by rewrite bool_decide_eq_false_2 by auto.
    + rewrite bool_decide_eq_true_2 by done.
      destruct (train _ _ _ _) as [p its'] eqn:Ht.
      rewrite _save_training_patterns_eq, _save_itineraries_eq. done.
Qed.

Lemma trained_from_mark_used iteration itin :
  trained_from itin (mark_used iteration itin).
Proof.
  unfold mark_used, trained_from.
  destruct (_ && _); [right; eauto | by left].
Qed.

Lemma trained_from_refl itineraries : Forall2 trained_from itineraries itineraries.
Proof. induction itineraries; constructor; [by left | done]. Qed.

Lemma trained_from_map iteration itineraries :
  Forall2 trained_from itineraries (map (mark_used iteration) itineraries).
Proof.
  induction itineraries; simpl; constructor;
    [apply trained_from_mark_used | done].
Qed.

Lemma train_itineraries now new_insight itineraries patterns :
  ∃ iteration,
    (train now new_insight itineraries patterns).2
    = map (mark_used iteration) itineraries.
Proof. unfold train. simpl. eauto. Qed.

Lemma serializable_mark_used iteration itin :
  Itin.serializable (mark_used iteration itin) = Itin.serializable itin.
Proof. unfold mark_used. by destruct (_ && _). Qed.

Lemma json_values_mark_used iteration itineraries :
  forallb Itin.serializable (map (mark_used iteration) itineraries)
  = forallb Itin.serializable itineraries.
Proof.
  induction itineraries as [|itin rest IH]; simpl; [done|].
  by rewrite serializable_mark_used, IH.
Qed.

Lemma json_values_insert itineraries k itin rating comments q :
  itineraries !! k = Some itin →
  json_values itineraries →
  json_values (<[k := Itin.set_feedback itin rating comments q]> itineraries).
Proof.
  unfold json_values. revert k.
  induction itineraries as [|x rest IH]; intros k Hk; [done|].
  destruct k as [|k]; simpl in *.
  - injection Hk as ->. done.
  - intros [Hx Hrest]%andb_true_iff. rewrite Hx. simpl. by apply (IH k).
Qed.

(** A save of JSON values on a writable disk writes them. *)
Lemma saved_itineraries_written env data w :
  disk_writable env = true → json_values data →
  saved_itineraries env data w = put_itineraries data w.
Proof. intros Hdisk Hjson. unfold saved_itineraries. by rewrite Hdisk, Hjson. Qed.

Lemma saved_itineraries_feedback env data w :
  feedback_file (saved_itineraries env data w) = feedback_file w.
Proof. unfold saved_itineraries. by repeat case_match. Qed.

Lemma saved_itineraries_patterns env data w :
  training_patterns_file (saved_itineraries env data w) = training_patterns_file w.
Proof. unfold saved_itineraries. by repeat case_match. Qed.

(** An auto-train pass touches the records only through the stamps, and
    needs a writable disk to touch anything. *)
Lemma auto_trained_itineraries env w :
  json_values (default [] (itineraries_file w)) →
  itineraries_file (auto_trained env w) = itineraries_file w
  ∨ ∃ iteration,
      itineraries_file (auto_trained env w)
      = Some (map (mark_used iteration) (default [] (itineraries_file w))).
Proof.
  intros Hjson. unfold auto_trained.
  destruct (use_database env); [by left|].
  destruct (trains _); [|by left].
  destruct (disk_writable env) eqn:Hdisk;
    [|unfold saved_itineraries, saved_training_patterns; rewrite Hdisk; by left].
  right. destruct (train_itineraries (now env)
    (_generate_training_insight env
       (List.filter is_high_quality (default [] (itineraries_file w))))
    (default [] (itineraries_file w))
    (default (_generate_initial_patterns env) (training_patterns_file w)))
    as [n Hn].
  exists n. rewrite Hn.
  rewrite saved_itineraries_written; [done | done |].
  unfold json_values. by rewrite json_values_mark_used.
Qed.

Lemma auto_trained_feedback env w :
  feedback_file (auto_trained env w) = feedback_file w.
Proof.
  unfold auto_trained, saved_itineraries, saved_training_patterns.
  by repeat (case_match; simpl).
Qed.

Lemma rate_first_match_at itinerary_id rating comments itineraries k itin q :
  first_with_id itinerary_id itineraries k itin →
  _calculate_quality_score rating (len_str (Itin.text itin)) = Ok q →
  rate_first_match itinerary_id rating comments itineraries
  = Ok (<[k := Itin.set_feedback itin rating comments q]> itineraries).
Proof.
  revert k. induction itineraries as [|x rest IH]; intros k (Hk & Hid & Hfirst) Hq.
  - done.
  - destruct k as [|k]; simpl in *.
    + injection Hk as ->. rewrite decide_True by done. by rewrite Hq.
    + rewrite decide_False by (apply (Hfirst 0%nat x); [lia | done]).
      rewrite (IH k); [done | | done].
      split_and!; [done | done |].
      intros j other Hj Hother. apply (Hfirst (S j) other); [lia | done].
Qed.

Lemma rate_first_match_raise itinerary_id rating comments itineraries k itin e :
  first_with_id itinerary_id itineraries k itin →
  _calculate_quality_score rating (len_str (Itin.text itin)) = Raise e →
  rate_first_match itinerary_id rating comments itineraries = Raise e.
Proof.
  revert k. induction itineraries as [|x rest IH]; intros k (Hk & Hid & Hfirst) Hq.
  - done.
  - destruct k as [|k]; simpl in *.
    + injection Hk as ->. rewrite decide_True by done. by rewrite Hq.
    + rewrite decide_False by (apply (Hfirst 0%nat x); [lia | done]).
      rewrite (IH k); [done | | done].
      split_and!; [done | done |].
      intros j other Hj Hother. apply (Hfirst (S j) other); [lia | done].
Qed.

Lemma rate_first_match_absent itinerary_id rating comments itineraries :
  Forall (λ itin, Itin.id itin ≠ Some itinerary_id) itineraries →
  rate_first_match itinerary_id rating comments itineraries = Ok itineraries.
Proof.
  induction 1 as [|x rest Hx _ IH]; simpl; [done|].
  rewrite decide_False by done. by rewrite IH.
Qed.

(** Either no record carries the id, or there is a first one. *)
Lemma first_with_id_dec itinerary_id itineraries :
  Forall (λ itin, Itin.id itin ≠ Some itinerary_id) itineraries
  ∨ ∃ k itin, first_with_id itinerary_id itineraries k itin.
Proof.
  induction itineraries as [|x rest IH]; [by left|].
  destruct (decide (Itin.id x = Some itinerary_id)) as [Hx|Hx].
  - right. exists 0%nat, x. split_and!; [done | done | intros; lia].
  - destruct IH as [IH|(k & itin & Hk & Hid & Hfirst)].
    + left. by constructor.
    + right. exists (S k), itin. split_and!; [done | done |].
      intros [|j] other Hj Hother; simpl in *.
      * by injection Hother as <-.
      * apply (Hfirst j other); [lia | done].
Qed.

(** An addition of an [int] within the float range does not raise. *)
Lemma add_int_ok a b :
  Z.abs a < float_overflow_bound → ∃ total, add_int a b = Ok total.
Proof.
  intros Ha. destruct b as [z|f]; simpl; [eauto|].
  unfold float_of_int.
  destruct (Z.ltb_spec (Z.abs a) float_overflow_bound); [eauto | lia].
Qed.

Lemma _calculate_quality_score_ok rating length :
  Z.abs (rating * 16) < float_overflow_bound →
  ∃ total,
    add_int (rating * 16) (min_int_float 20 (truediv length 1000)) = Ok total
    ∧ _calculate_quality_score rating length = Ok (round total 2).
Proof.
  intros Hr. unfold _calculate_quality_score.
  destruct (add_int_ok (rating * 16) (min_int_float 20 (truediv length 1000)) Hr)
    as [total Ht].
  exists total. by rewrite Ht.
Qed.

(** The primary update is absorbed, whatever it does. *)
Lemma primary_rating_absorbed env itinerary_id rating comments (w : World) :
  (if use_database env then
     try_except (call (db_rate_itinerary env itinerary_id rating comments))
                (λ _, pass)
   else pass) w = (Ok tt, w).
Proof.
  unfold_M. destruct (use_database env); [|done].
  by destruct (db_rate_itinerary env itinerary_id rating comments) as [[]|].
Qed.

Lemma record_feedback_eq env itinerary_id rating comments w itineraries :
  _load_itineraries env w = (Ok itineraries, w) →
  record_feedback env itinerary_id rating comments w =
    match rate_first_match itinerary_id rating
            (sanitize_text_input comments 1000) itineraries with
    | Ok rated =>
        (Ok tt, feedback_recorded env itinerary_id rating comments rated w)
    | Raise e => (Raise e, w)
    end.
Proof.
  intros Hload. unfold record_feedback, feedback_recorded.
  unfold mbind at 1 2, M_bind at 1 2.
  rewrite primary_rating_absorbed.
  rewrite Hload. unfold mbind at 1, M_bind at 1, call at 1.
  destruct (rate_first_match _ _ _ _) as [rated|e]; [|done].
  unfold mbind at 1, M_bind at 1. rewrite _save_itineraries_eq.
  unfold mbind at 1, M_bind at 1. rewrite _load_feedback_eq.
  unfold mbind at 1, M_bind at 1. rewrite _save_feedback_eq.
  unfold feedback_entry.
  destruct (_ =? 0); [apply _auto_train_eq | done].
Qed.

Lemma auto_trained_read_only env w :
  disk_writable env = false → auto_trained env w = w.
Proof.
  intros Hdisk. unfold auto_trained, saved_itineraries, saved_training_patterns.
  rewrite Hdisk. by repeat case_match.
Qed.

Lemma feedback_recorded_itineraries env itinerary_id rating comments rated w :
  disk_writable env = true →
  json_values rated →
  ∃ stored,
    itineraries_file (feedback_recorded env itinerary_id rating comments rated w)
    = Some stored
    ∧ Forall2 trained_from rated stored.
Proof.
  intros Hdisk Hjson. unfold feedback_recorded.
  rewrite saved_itineraries_written by done.
  unfold saved_feedback. rewrite Hdisk. simpl.
  destruct (_ =? 0).
  - match goal with |- context [auto_trained env ?w2] =>
      destruct (auto_trained_itineraries env w2) as [-> | [n ->]] end; simpl.
    + done.
    + eexists; split; [done | apply trained_from_refl].
    + eexists; split; [done | apply trained_from_map].
  - eexists; split; [done | apply trained_from_refl].
Qed.

Lemma feedback_recorded_read_only env itinerary_id rating comments rated w :
  disk_writable env = false →
  feedback_recorded env itinerary_id rating comments rated w = w.
Proof.
  intros Hdisk. unfold feedback_recorded, saved_itineraries, saved_feedback.
  rewrite Hdisk. simpl. destruct (_ =? 0); [by apply auto_trained_read_only | done].
Qed.

(** What [record_feedback] leaves at position [k], given the first match. *)
Lemma record_feedback_first_match env w itinerary_id rating comments
    itineraries k itin :
  _load_itineraries env w = (Ok itineraries, w) →
  json_values itineraries →
  first_with_id itinerary_id itineraries k itin →
  disk_writable env = true →
  Z.abs (rating * 16) < float_overflow_bound →
  ∃ w' stored total after,
    record_feedback env itinerary_id rating comments w = (Ok tt, w')
    ∧ itineraries_file w' = Some stored
    ∧ stored !! k = Some after
    ∧ add_int (rating * 16)
        (min_int_float 20 (truediv (len_str (Itin.text itin)) 1000)) = Ok total
    ∧ trained_from
        (Itin.set_feedback itin rating (sanitize_text_input comments 1000)
           (round total 2))
        after.
Proof.
  intros Hload Hjson Hfirst Hdisk Hrating.
  destruct (_calculate_quality_score_ok rating (len_str (Itin.text itin)) Hrating)
    as (total & Htotal & Hq).
  rewrite (record_feedback_eq _ _ _ _ _ _ Hload).
  rewrite (rate_first_match_at _ _ _ _ _ _ _ Hfirst Hq).
  destruct Hfirst as (Hk & _ & _).
  destruct (feedback_recorded_itineraries env itinerary_id rating comments
              (<[k := Itin.set_feedback itin rating
                        (sanitize_text_input comments 1000) (round total 2)]>
                 itineraries) w Hdisk) as (stored & Hstored & Hrel).
  { by apply json_values_insert. }
  destruct (Forall2_lookup_l _ _ _ k
              (Itin.set_feedback itin rating
                 (sanitize_text_input comments 1000) (round total 2)) Hrel)
    as (after & Hafter & Htrained).
  { apply list_lookup_insert_eq. by eapply lookup_lt_Some. }
  by exists (feedback_recorded env itinerary_id rating comments
            (<[k := Itin.set_feedback itin rating
                      (sanitize_text_input comments 1000) (round total 2)]>
               itineraries) w), stored, total, after.
Qed.

(** ** Ratings reach the record as they are given *)

(** C1, as the code has it: [record_feedback] stores the rating argument
    unchanged on the first record that carries the id; nothing coerces it
    into 1..5, so the stored rating lies in 1..5 exactly when the argument
    does.  (The records are those of the flat file, or any that hold JSON
    values only; the bound keeps [rating * 16] within the float range,
    where the quality score can be computed.) *)
Theorem record_feedback_stores_rating_as_given env w itinerary_id rating comments
    itineraries k itin :
  _load_itineraries env w = (Ok itineraries, w) →
  json_values itineraries →
  first_with_id itinerary_id itineraries k itin →
  disk_writable env = true →
  Z.abs (rating * 16) < float_overflow_bound →
  ∃ w' stored after,
    record_feedback env itinerary_id rating comments w = (Ok tt, w')
    ∧ itineraries_file w' = Some stored
    ∧ stored !! k = Some after
    ∧ Itin.rating after = Some rating.
Proof.
  intros Hload Hjson Hfirst Hdisk Hrating.
  destruct (record_feedback_first_match env w itinerary_id rating comments
              itineraries k itin Hload Hjson Hfirst Hdisk Hrating)
    as (w' & stored & total & after & Hrun & Hfile & Hk & _ & Htrained).
  exists w', stored, after. split_and!; [done | done | done |].
  by destruct Htrained as [-> | [n ->]].
Qed.

Lemma record_feedback_stores_rating_as_given_witness :
  ∃ w' stored after,
    record_feedback json_only 1 4 "great" one_record = (Ok tt, w')
    ∧ itineraries_file w' = Some stored
    ∧ stored !! 0%nat = Some after
    ∧ Itin.rating after = Some 4.
Proof.
  apply (record_feedback_stores_rating_as_given json_only one_record 1 4 "great"
           [stored_entry 1 "paris" "Day 1: the Louvre"] 0
           (stored_entry 1 "paris" "Day 1: the Louvre")).
  - reflexivity.
  - reflexivity.
  - split_and!; [reflexivity | reflexivity | intros; lia].
  - reflexivity.
  - vm_compute. reflexivity.
Defined.

(** C1, as stated, fails: a rating of 0 and a rating of 7 are stored as 0
    and as 7. *)
Lemma record_feedback_does_not_coerce :
  (record_at (record_feedback json_only 1 0 "" one_record).2 0 ≫= Itin.rating)
  = Some 0
  ∧ (record_at (record_feedback json_only 1 7 "" one_record).2 0 ≫= Itin.rating)
    = Some 7.
Proof. split; vm_compute; reflexivity. Qed.

(** ** Quality score of a rated record *)

Lemma small_within_float_range z :
  Z.abs z ≤ 2 ^ 62 → Z.abs z < float_overflow_bound.
Proof.
  intros Hz. assert (2 ^ 62 < float_overflow_bound) by (by vm_compute). lia.
Qed.

(** On the records of the flat file the score is the one of the
    specification: for a rating [r] in 1..5 and a stored record whose text
    has length [len], after [record_feedback] on that record's id the
    record is flagged [rated] and its [quality_score] is
    [round(r * 16 + min(20, len / 1000), 2)].  The record is the one its id
    designates: the first that carries it (ids are unique in the data
    model). *)
Theorem record_feedback_quality_score env w itinerary_id r comments
    itineraries k itin :
  _load_itineraries env w = (Ok itineraries, w) →
  json_values itineraries →
  first_with_id itinerary_id itineraries k itin →
  disk_writable env = true →
  1 ≤ r ≤ 5 →
  ∃ w' stored after total,
    record_feedback env itinerary_id r comments w = (Ok tt, w')
    ∧ itineraries_file w' = Some stored
    ∧ stored !! k = Some after
    ∧ Itin.rated after = Some true
    ∧ add_int (r * 16)
        (min_int_float 20 (truediv (len_str (Itin.text itin)) 1000)) = Ok total
    ∧ Itin.quality_score after = Some (round total 2).
Proof.
  intros Hload Hjson Hfirst Hdisk Hr.
  assert (Z.abs (r * 16) < float_overflow_bound) as Hrating
    by (apply small_within_float_range; lia).
  destruct (record_feedback_first_match env w itinerary_id r comments
              itineraries k itin Hload Hjson Hfirst Hdisk Hrating)
    as (w' & stored & total & after & Hrun & Hfile & Hk & Htotal & Htrained).
  exists w', stored, after, total.
  split_and!; try done; by destruct Htrained as [-> | [n ->]].
Qed.

Lemma record_feedback_quality_score_witness :
  ∃ w' stored after total,
    record_feedback json_only 1 5 "great" one_record = (Ok tt, w')
    ∧ itineraries_file w' = Some stored
    ∧ stored !! 0%nat = Some after
    ∧ Itin.rated after = Some true
    ∧ add_int (5 * 16)
        (min_int_float 20
           (truediv (len_str (Itin.text (stored_entry 1 "paris" "Day 1: the Louvre")))
                    1000)) = Ok total
    ∧ Itin.quality_score after = Some (round total 2).
Proof.
  apply (record_feedback_quality_score json_only one_record 1 5 "great"
           [stored_entry 1 "paris" "Day 1: the Louvre"] 0
           (stored_entry 1 "paris" "Day 1: the Louvre")).
  - reflexivity.
  - reflexivity.
  - split_and!; [reflexivity | reflexivity | intros; lia].
  - reflexivity.
  - lia.
Defined.

(** The score of the witness, computed: 80 + 17/1000, rounded to 80.02. *)
Example quality_score_of_the_witness :
  (record_at (record_feedback json_only 1 5 "great" one_record).2 0
     ≫= Itin.quality_score)
  = Some (PyFloat (truediv 8002 100)).
Proof. vm_compute. reflexivity. Qed.

(** A text of 20000 characters or more earns the capped bonus, the [int]
    20, and the score stays an [int]. *)
Example quality_score_capped :
  _calculate_quality_score 5 25000 = Ok (PyInt 100)
  ∧ _calculate_quality_score 3 1234 = Ok (PyFloat (truediv 4923 100)).
Proof. split; vm_compute; reflexivity. Qed.

(** ** The dual write on create *)

(** C3: [store_complete_itinerary] always goes on to the flat-file write,
    whatever the primary backend did: the save is run on the current
    collection with one record appended, which carries the primary's id
    when there is one and the length of the current collection plus 1
    otherwise, and that id is returned.  On a writable disk the file then
    holds the collection with the new record. *)
Theorem store_complete_itinerary_dual_write env w city trip_days budget
    interests travel_style include_food include_transport
    full_prompt_context full_itinerary :
  ∃ w' entry,
    store_complete_itinerary env city trip_days budget interests travel_style
      include_food include_transport full_prompt_context full_itinerary w
    = (Ok (default (flat_file_id w) (primary_id env)), w')
    ∧ entry =
        itinerary_entry env (default (flat_file_id w) (primary_id env)) city
          trip_days budget interests travel_style include_food
          include_transport full_prompt_context full_itinerary
          (count_words full_itinerary)
    ∧ Itin.id entry = Some (default (flat_file_id w) (primary_id env))
    ∧ _save_itineraries env (default [] (itineraries_file w) ++ [entry]) w
      = (Ok tt, w')
    ∧ (disk_writable env = true →
       json_values (default [] (itineraries_file w)) →
       itineraries_file w' = Some (default [] (itineraries_file w) ++ [entry])).
Proof.
  exists (saved_itineraries env
            (default [] (itineraries_file w) ++
             [itinerary_entry env (default (flat_file_id w) (primary_id env)) city
                trip_days budget interests travel_style include_food
                include_transport full_prompt_context full_itinerary
                (count_words full_itinerary)]) w).
  eexists. split_and!; [| reflexivity | reflexivity | |].
  - unfold store_complete_itinerary, primary_id, flat_file_id.
    unfold mbind, M_bind, try_except, call, json_load, mret, M_ret.
    destruct (use_database env);
      [destruct (db_create_trip env) as [trip_id|];
       [destruct (db_create_itinerary env trip_id)|]|];
      destruct (itineraries_file w); rewrite _save_itineraries_eq; reflexivity.
  - apply _save_itineraries_eq.
  - intros Hdisk Hjson. rewrite saved_itineraries_written; [done | done |].
    unfold json_values in *. rewrite forallb_app, Hjson. done.
Qed.

(** The sibling [DualStorageManager.create_itinerary] follows the same
    policy on its own file. *)
Lemma dual_storage_manager_create_itinerary use_postgres db_create_itinerary
    writable now trip_id itinerary_text word_count files :
  ∃ files' itin_id,
    DualStorageManager.create_itinerary use_postgres db_create_itinerary
      writable now trip_id itinerary_text word_count files
    = (Ok itin_id, files')
    ∧ itin_id =
        default
          (Z.of_nat (length (default [] (DualStorageManager.itineraries_file files))) + 1)
          (if use_postgres then
             match db_create_itinerary trip_id with
             | Ok from_primary => Some from_primary
             | Raise _ => None
             end
           else None)
    ∧ DualStorageManager.itineraries_file files' =
        (if writable
         then Some (default [] (DualStorageManager.itineraries_file files) ++
                    [DualStorageManager.mk_itinerary trip_id itinerary_text
                       word_count (len_str itinerary_text) now itin_id])
         else DualStorageManager.itineraries_file files).
Proof.
  unfold DualStorageManager.create_itinerary, DualStorageManager._load_json,
    DualStorageManager._save_json.
  unfold_M. destruct files as [file].
  destruct use_postgres; [destruct (db_create_itinerary trip_id)|];
    destruct file, writable; simpl; eexists _, _; split_and!; reflexivity.
Qed.

(** ** When the feedback path reaches the pattern document *)

Lemma rating_or_0_mark_used iteration itin :
  Itin.rating_or_0 (mark_used iteration itin) = Itin.rating_or_0 itin.
Proof. unfold mark_used. by destruct (_ && _). Qed.

Lemma city_name_mark_used iteration itin :
  Itin.city_name (mark_used iteration itin) = Itin.city_name itin.
Proof. unfold mark_used. by destruct (_ && _). Qed.

Lemma is_high_quality_mark_used iteration itin :
  is_high_quality (mark_used iteration itin) = is_high_quality itin.
Proof. unfold is_high_quality. by rewrite rating_or_0_mark_used. Qed.

Lemma filter_nonempty_Exists {A} (f : A → bool) (l : list A) :
  List.filter f l ≠ [] → Exists (λ x, f x = true) l.
Proof.
  induction l as [|x l IH]; simpl; [done|].
  destruct (f x) eqn:Hx; [by left | right; auto].
Qed.

Lemma trains_spec itineraries :
  trains itineraries = true →
  (3 ≤ length itineraries)%nat
  ∧ Exists (λ itin, 4 ≤ Itin.rating_or_0 itin) itineraries.
Proof.
  unfold trains. intros [Hlen Hhq]%andb_true_iff.
  apply Z.leb_le in Hlen. apply bool_decide_eq_true in Hhq.
  split; [lia|].
  apply filter_nonempty_Exists in Hhq.
  eapply Exists_impl; [exact Hhq|].
  intros itin Hitin. by apply Z.leb_le.
Qed.

(** An auto-train pass that changes the pattern document ran past both
    guards, on a writable disk, in flat-file mode. *)
Lemma auto_trained_patterns env w :
  json_values (default [] (itineraries_file w)) →
  training_patterns_file (auto_trained env w) = training_patterns_file w
  ∨ (use_database env = false
     ∧ disk_writable env = true
     ∧ trains (default [] (itineraries_file w)) = true
     ∧ ∃ iteration,
         itineraries_file (auto_trained env w)
         = Some (map (mark_used iteration) (default [] (itineraries_file w)))).
Proof.
  intros Hjson. unfold auto_trained.
  destruct (use_database env); [by left|].
  destruct (trains _) eqn:Htrains; [|by left].
  destruct (disk_writable env) eqn:Hdisk;
    [|unfold saved_itineraries, saved_training_patterns; rewrite Hdisk; by left].
  right. split_and!; [done | done | done |].
  destruct (train_itineraries (now env)
    (_generate_training_insight env
       (List.filter is_high_quality (default [] (itineraries_file w))))
    (default [] (itineraries_file w))
    (default (_generate_initial_patterns env) (training_patterns_file w)))
    as [n Hn].
  exists n. rewrite Hn.
  rewrite saved_itineraries_written; [done | done |].
  unfold json_values. by rewrite json_values_mark_used.
Qed.

(** What a save leaves in the itineraries file holds JSON values only. *)
Lemma saved_itineraries_json_values env data w :
  disk_writable env = true →
  json_values (default [] (itineraries_file (saved_itineraries env data w))).
Proof.
  intros Hdisk. unfold saved_itineraries. rewrite Hdisk.
  by destruct (forallb Itin.serializable data) eqn:Hdata.
Qed.

(** C4: [record_feedback] leaves the pattern document as it was unless the
    feedback count after the submission is a positive multiple of 3, at
    least 3 itinerary records exist and one of them has a rating of 4 or
    more (a missing rating counting as 0).  At feedback counts 1, 2, 4 and
    5 the document is never touched. *)
Theorem pattern_document_mutated_only_when env w itinerary_id rating comments :
  (training_patterns_file
     (record_feedback env itinerary_id rating comments w).2
   = training_patterns_file w
   ∨ ∃ feedback itineraries,
       feedback_file (record_feedback env itinerary_id rating comments w).2
       = Some feedback
       ∧ feedback = default [] (feedback_file w)
                    ++ [feedback_entry env itinerary_id rating comments]
       ∧ 0 < Z.of_nat (length feedback)
       ∧ Z.of_nat (length feedback) mod 3 = 0
       ∧ itineraries_file (record_feedback env itinerary_id rating comments w).2
         = Some itineraries
       ∧ (3 ≤ length itineraries)%nat
       ∧ Exists (λ itin, 4 ≤ Itin.rating_or_0 itin) itineraries)
  ∧ (∀ count,
       count ∈ [1; 2; 4; 5] →
       Z.of_nat (length (default [] (feedback_file w))) + 1 = count →
       training_patterns_file
         (record_feedback env itinerary_id rating comments w).2
       = training_patterns_file w).
Proof.
  assert (training_patterns_file
     (record_feedback env itinerary_id rating comments w).2
   = training_patterns_file w
   ∨ ∃ feedback itineraries,
       feedback_file (record_feedback env itinerary_id rating comments w).2
       = Some feedback
       ∧ feedback = default [] (feedback_file w)
                    ++ [feedback_entry env itinerary_id rating comments]
       ∧ 0 < Z.of_nat (length feedback)
       ∧ Z.of_nat (length feedback) mod 3 = 0
       ∧ itineraries_file (record_feedback env itinerary_id rating comments w).2
         = Some itineraries
       ∧ (3 ≤ length itineraries)%nat
       ∧ Exists (λ itin, 4 ≤ Itin.rating_or_0 itin) itineraries) as Honly.
  { destruct (_load_itineraries_total env w) as [loaded Hload].
    rewrite (record_feedback_eq _ _ _ _ _ _ Hload).
    destruct (rate_first_match _ _ _ _) as [rated|e]; [|by left].
    destruct (disk_writable env) eqn:Hdisk;
      [|rewrite feedback_recorded_read_only by done; by left].
    pose proof (saved_itineraries_json_values env rated w Hdisk) as Hjson.
    unfold feedback_recorded. rewrite saved_itineraries_feedback.
    unfold saved_feedback. rewrite Hdisk.
    destruct (Z.eqb_spec
      (Z.of_nat (length (default [] (feedback_file w)
                         ++ [feedback_entry env itinerary_id rating comments])) mod 3)
      0) as [Hmod|Hmod];
      [|left; simpl; apply saved_itineraries_patterns].
    cbn [snd].
    match goal with |- context [auto_trained env ?w2] =>
      destruct (auto_trained_patterns env w2)
        as [Hsame | (_ & _ & Htrains & n & Hfile)] end.
    - exact Hjson.
    - left. rewrite Hsame. simpl. apply saved_itineraries_patterns.
    - right. simpl in Htrains, Hfile.
      destruct (trains_spec _ Htrains) as [Hlen Hhq].
      eexists _, _. split_and!.
      + by rewrite auto_trained_feedback.
      + done.
      + rewrite length_app. simpl. lia.
      + done.
      + exact Hfile.
      + by rewrite length_map.
      + apply Exists_fmap. eapply Exists_impl; [exact Hhq|].
        intros itin Hitin. simpl. by rewrite rating_or_0_mark_used. }
  split; [exact Honly|].
  intros count Hcount Hlen.
  destruct Honly as [Hsame | (feedback & its & _ & -> & _ & Hmod & _)]; [done|].
  rewrite length_app in Hmod. simpl in Hmod.
  replace (Z.of_nat (length (default [] (feedback_file w)) + 1)) with count
    in Hmod by lia.
  set_unfold in Hcount.
  destruct Hcount as [-> | [-> | [-> | [-> | []]]]]; done.
Qed.

(** ** Feedback for an id that no record carries *)

(** C7, as the code has it: with a rating within the float range (the
    ratings 1..5 of the form are), [record_feedback] returns normally
    whatever the primary backend and the disk do.  When no loaded record
    carries the id, the update changes nothing: the list handed to the
    save is the list loaded, and (the loaded records holding JSON values,
    as those of the flat file do) afterwards every stored record is the
    loaded one, or the loaded one stamped by the auto-train pass that this
    submission triggered; without such a pass the stored list is the loaded
    list. *)
Theorem record_feedback_absorbs_errors env w itinerary_id rating comments :
  Z.abs (rating * 16) < float_overflow_bound →
  ∃ w',
    record_feedback env itinerary_id rating comments w = (Ok tt, w')
    ∧ ∀ loaded,
        _load_itineraries env w = (Ok loaded, w) →
        Forall (λ itin, Itin.id itin ≠ Some itinerary_id) loaded →
        rate_first_match itinerary_id rating
          (sanitize_text_input comments 1000) loaded = Ok loaded
        ∧ (disk_writable env = false → w' = w)
        ∧ (disk_writable env = true →
           json_values loaded →
           ∃ stored,
             itineraries_file w' = Some stored
             ∧ Forall2 trained_from loaded stored
             ∧ (Z.of_nat (length (default [] (feedback_file w)) + 1) mod 3 ≠ 0 →
                stored = loaded)).
Proof.
  intros Hrating.
  destruct (_load_itineraries_total env w) as [loaded Hload].
  rewrite (record_feedback_eq _ _ _ _ _ _ Hload).
  destruct (first_with_id_dec itinerary_id loaded)
    as [Habsent | (k & itin & Hfirst)].
  - rewrite rate_first_match_absent by done.
    eexists. split; [done|].
    intros loaded' Hload' _. rewrite Hload in Hload'. injection Hload' as <-.
    split_and!.
    + by apply rate_first_match_absent.
    + intros Hdisk. by apply feedback_recorded_read_only.
    + intros Hdisk Hjson.
      destruct (feedback_recorded_itineraries env itinerary_id rating comments
                  loaded w Hdisk Hjson) as (stored & Hstored & Hrel).
      exists stored. split_and!; [done | done |].
      intros Hmod. revert Hstored.
      unfold feedback_recorded. rewrite saved_itineraries_written by done.
      unfold saved_feedback.
      rewrite Hdisk. simpl. rewrite length_app. simpl.
      destruct (Z.eqb_spec
        (Z.of_nat (length (default [] (feedback_file w)) + 1) mod 3) 0);
        [done|]. simpl. congruence.
  - destruct (_calculate_quality_score_ok rating (len_str (Itin.text itin)) Hrating)
      as (total & _ & Hq).
    rewrite (rate_first_match_at _ _ _ _ _ _ _ Hfirst Hq).
    eexists. split; [done|].
    intros loaded' Hload' Habsent. rewrite Hload in Hload'. injection Hload' as <-.
    destruct Hfirst as (Hk & Hid & _).
    by destruct (Forall_lookup_1 _ _ _ _ Habsent Hk).
Qed.

Lemma record_feedback_absorbs_errors_witness :
  ∃ w',
    record_feedback json_only 99 3 "lost" one_record = (Ok tt, w')
    ∧ ∀ loaded,
        _load_itineraries json_only one_record = (Ok loaded, one_record) →
        Forall (λ itin, Itin.id itin ≠ Some 99) loaded →
        rate_first_match 99 3 (sanitize_text_input "lost" 1000) loaded = Ok loaded
        ∧ (disk_writable json_only = false → w' = one_record)
        ∧ (disk_writable json_only = true →
           json_values loaded →
           ∃ stored,
             itineraries_file w' = Some stored
             ∧ Forall2 trained_from loaded stored
             ∧ (Z.of_nat (length (default [] (feedback_file one_record)) + 1)
                  mod 3 ≠ 0 →
                stored = loaded)).
Proof.
  apply (record_feedback_absorbs_errors json_only one_record 99 3 "lost").
  vm_compute. reflexivity.
Defined.

(** C7, as stated, fails on both counts.  A rating past the float range
    makes the quality score raise [OverflowError] out of
    [record_feedback]; and a submission for an id that no record carries,
    when it is the third one, runs an auto-train pass that stamps the
    record rated 5 earlier. *)
Lemma record_feedback_raises_and_stamps :
  record_feedback json_only 1 (2 ^ 1024) "" one_record
  = (Raise OverflowError, one_record)
  ∧ Forall (λ itin, Itin.id itin ≠ Some 99)
      (default [] (itineraries_file after_two_feedbacks))
  ∧ (record_at after_two_feedbacks 0 ≫= Itin.used_for_training) = Some false
  ∧ (record_feedback json_only 99 3 "" after_two_feedbacks).1 = Ok tt
  ∧ (record_at (record_feedback json_only 99 3 "" after_two_feedbacks).2 0
       ≫= Itin.used_for_training) = Some true.
Proof.
  split_and!; try (vm_compute; reflexivity).
  repeat constructor; vm_compute; discriminate.
Qed.

(** ** The recent itineraries *)

Lemma slice_from_last {A} (limit : nat) (l : list A) :
  (0 < limit)%nat →
  slice_from (- Z.of_nat limit) (rev l) = rev (take limit l).
Proof.
  intros Hlimit. unfold slice_from.
  replace (- Z.of_nat limit <? 0) with true by (symmetry; apply Z.ltb_lt; lia).
  rewrite length_rev.
  replace (Z.to_nat (Z.max (- Z.of_nat limit + Z.of_nat (length l)) 0))
    with (length l - limit)%nat by lia.
  rewrite <- (take_drop limit l) at 2.
  rewrite rev_app_distr, drop_app_length'; [done|].
  rewrite length_rev, length_drop. done.
Qed.

(** On the flat-file path [get_recent_itineraries] keeps the tail of the
    reversed list: the [limit] oldest records, newest of them first. *)
Lemma get_recent_itineraries_flat_file env w (limit : nat) :
  use_database env = false →
  (0 < limit)%nat →
  get_recent_itineraries env (Z.of_nat limit) w
  = (Ok (rev (take limit (default [] (itineraries_file w)))), w).
Proof.
  intros Hdb Hlimit. unfold get_recent_itineraries.
  unfold mbind, M_bind, mret, M_ret. rewrite Hdb.
  rewrite (_load_itineraries_json _ _ Hdb). by rewrite slice_from_last.
Qed.

(** C5 fails on the code: of five stored itineraries (ids 1 to 5, oldest
    first) a limit of 2 returns ids 2 and 1, not the two most recent, 5
    and 4; and a limit of 0 returns all five. *)
Theorem get_recent_itineraries_returns_oldest :
  (match (get_recent_itineraries json_only 2 five_stored).1 with
   | Ok recent => Some (map Itin.id recent)
   | Raise _ => None
   end) = Some [Some 2; Some 1]
  ∧ (match (get_recent_itineraries json_only 0 five_stored).1 with
     | Ok recent => Some (map Itin.id recent)
     | Raise _ => None
     end) = Some [Some 5; Some 4; Some 3; Some 2; Some 1].
Proof. split; vm_compute; reflexivity. Qed.

(** ** Auto-train passes on the pattern document *)

Lemma slice_from_sublist {A} start (l : list A) : slice_from start l `sublist_of` l.
Proof. unfold slice_from. apply sublist_drop. Qed.

Lemma slice_from_last_length {A} (n : nat) (l : list A) :
  (0 < n)%nat → (length (slice_from (- Z.of_nat n) l) ≤ n)%nat.
Proof.
  intros Hn. unfold slice_from. rewrite length_drop.
  destruct (Z.ltb_spec (- Z.of_nat n) 0); lia.
Qed.

Lemma add_insight_spec new_insight l :
  add_insight new_insight l = l
  ∨ ((new_insight ∉ l)
     ∧ add_insight new_insight l = slice_from (-15) (l ++ [new_insight])).
Proof. unfold add_insight. case_decide; [by left | by right]. Qed.

Lemma add_insight_NoDup new_insight l :
  NoDup l → NoDup (add_insight new_insight l).
Proof.
  intros Hl. destruct (add_insight_spec new_insight l) as [-> | [Hnew ->]]; [done|].
  eapply sublist_NoDup; [|apply slice_from_sublist].
  apply NoDup_app. split_and!; [done | | apply NoDup_singleton].
  intros x Hx ->%list_elem_of_singleton. done.
Qed.

Lemma add_insight_length new_insight l :
  (length l ≤ 15)%nat → (length (add_insight new_insight l) ≤ 15)%nat.
Proof.
  intros Hl. destruct (add_insight_spec new_insight l) as [-> | [_ ->]]; [done|].
  apply (slice_from_last_length 15). lia.
Qed.

Lemma loaded_insights env w :
  Patterns.insights
    (default (_generate_initial_patterns env) (training_patterns_file w))
  = world_insights w.
Proof. unfold world_insights. by destruct (training_patterns_file w). Qed.

Lemma loaded_cities env w :
  Patterns.cities
    (default (_generate_initial_patterns env) (training_patterns_file w))
  = world_cities w.
Proof. unfold world_cities. by destruct (training_patterns_file w). Qed.

Lemma saved_twice env itineraries patterns w :
  disk_writable env = true →
  json_values itineraries →
  saved_itineraries env itineraries (saved_training_patterns env patterns w)
  = {| itineraries_file := Some itineraries;
       feedback_file := feedback_file w;
       training_patterns_file := Some patterns |}.
Proof.
  intros Hdisk Hjson. rewrite saved_itineraries_written by done.
  unfold saved_training_patterns. by rewrite Hdisk.
Qed.

Lemma world_insights_saved_itineraries env itineraries w :
  world_insights (saved_itineraries env itineraries w) = world_insights w.
Proof. unfold world_insights. by rewrite saved_itineraries_patterns. Qed.

Lemma world_insights_saved_patterns env patterns w :
  disk_writable env = true →
  world_insights (saved_training_patterns env patterns w)
  = Patterns.insights patterns.
Proof. intros Hdisk. unfold saved_training_patterns. by rewrite Hdisk. Qed.

Lemma world_insights_written itineraries feedback patterns :
  world_insights (mkWorld itineraries feedback (Some patterns))
  = Patterns.insights patterns.
Proof. done. Qed.

Lemma world_cities_written itineraries feedback patterns :
  world_cities (mkWorld itineraries feedback (Some patterns))
  = Patterns.cities patterns.
Proof. done. Qed.

Lemma train_insights now new_insight itineraries patterns :
  Patterns.insights (train now new_insight itineraries patterns).1
  = if decide (new_insight = ""%string) then Patterns.insights patterns
    else add_insight new_insight (Patterns.insights patterns).
Proof. unfold train, Patterns.insights. simpl. by case_decide. Qed.

Lemma train_cities now new_insight itineraries patterns :
  Patterns.cities (train now new_insight itineraries patterns).1
  = count_cities (List.filter is_high_quality itineraries) (Patterns.cities patterns).
Proof. done. Qed.

(** One pass and the insight list: it stays, or one string that was not
    in it is appended and the last 15 are kept. *)
Lemma auto_trained_insights env w :
  world_insights (auto_trained env w) = world_insights w
  ∨ ∃ new_insight,
      (new_insight ∉ world_insights w)
      ∧ world_insights (auto_trained env w)
        = slice_from (-15) (world_insights w ++ [new_insight]).
Proof.
  unfold auto_trained.
  destruct (use_database env); [by left|].
  destruct (trains _); [|by left].
  destruct (disk_writable env) eqn:Hdisk;
    [|unfold saved_itineraries, saved_training_patterns; rewrite Hdisk; by left].
  rewrite world_insights_saved_itineraries, world_insights_saved_patterns by done.
  rewrite train_insights, loaded_insights.
  case_decide; [by left|].
  destruct (add_insight_spec
    (_generate_training_insight env
       (List.filter is_high_quality (default [] (itineraries_file w))))
    (world_insights w)) as [-> | [Hnew ->]]; [by left | right; eauto].
Qed.

Lemma auto_trained_insights_invariant env w :
  NoDup (world_insights w) → (length (world_insights w) ≤ 15)%nat →
  NoDup (world_insights (auto_trained env w))
  ∧ (length (world_insights (auto_trained env w)) ≤ 15)%nat.
Proof.
  intros Hdup Hlen.
  destruct (auto_trained_insights env w) as [-> | (x & Hx & ->)]; [done|].
  split.
  - eapply sublist_NoDup; [|apply slice_from_sublist].
    apply NoDup_app. split_and!; [done | | apply NoDup_singleton].
    intros y Hy ->%list_elem_of_singleton. done.
  - apply (slice_from_last_length 15). lia.
Qed.

(** C6: the insight list keeps its invariant through any number of
    auto-train passes: started without duplicates and with at most 15
    strings, it has no duplicates and at most 15 strings after the passes;
    and one more pass leaves it as it is or appends exactly one string
    that was not yet in it, keeping the most recent 15. *)
Theorem insight_list_invariant envs w :
  NoDup (world_insights w) →
  (length (world_insights w) ≤ 15)%nat →
  NoDup (world_insights (passes envs w))
  ∧ (length (world_insights (passes envs w)) ≤ 15)%nat
  ∧ ∀ env,
      world_insights (_auto_train env (passes envs w)).2
      = world_insights (passes envs w)
      ∨ ∃ new_insight,
          (new_insight ∉ world_insights (passes envs w))
          ∧ world_insights (_auto_train env (passes envs w)).2
            = slice_from (-15) (world_insights (passes envs w) ++ [new_insight]).
Proof.
  revert w. induction envs as [|env envs IH]; intros w Hdup Hlen.
  - split_and!; [done | done |].
    intros env. rewrite _auto_train_eq. apply auto_trained_insights.
  - simpl. rewrite _auto_train_eq. simpl.
    destruct (auto_trained_insights_invariant env w Hdup Hlen) as [Hdup' Hlen'].
    apply (IH _ Hdup' Hlen').
Qed.

Lemma insight_list_invariant_witness :
  NoDup (world_insights (passes twenty_draws one_high_rated))
  ∧ (length (world_insights (passes twenty_draws one_high_rated)) ≤ 15)%nat
  ∧ ∀ env,
      world_insights (_auto_train env (passes twenty_draws one_high_rated)).2
      = world_insights (passes twenty_draws one_high_rated)
      ∨ ∃ new_insight,
          (new_insight ∉ world_insights (passes twenty_draws one_high_rated))
          ∧ world_insights (_auto_train env (passes twenty_draws one_high_rated)).2
            = slice_from (-15)
                (world_insights (passes twenty_draws one_high_rated) ++ [new_insight]).
Proof.
  apply (insight_list_invariant twenty_draws one_high_rated).
  - vm_compute. constructor.
  - vm_compute. lia.
Defined.

(** The twenty passes do work on the list: each string of the catalog is
    drawn and each is kept once. *)
Example insights_after_twenty_passes :
  world_insights (passes twenty_draws one_high_rated) = insight_catalog.
Proof. vm_compute. reflexivity. Qed.

(** ** City counts grow with every pass *)

Lemma count_cities_lookup high_quality cities city :
  default 0 (count_cities high_quality cities !! city)
  = default 0 (cities !! city)
    + Z.of_nat (length (List.filter
                          (λ itin, bool_decide (title (Itin.city_name itin) = city))
                          high_quality)).
Proof.
  unfold count_cities. revert cities.
  induction high_quality as [|itin rest IH]; intros cities; simpl; [lia|].
  rewrite IH. unfold count_city.
  case_bool_decide as Hcity.
  - rewrite Hcity, lookup_insert_eq. simpl. lia.
  - by rewrite lookup_insert_ne.
Qed.

Lemma filter_filter_length {A} (f g : A → bool) (l : list A) :
  length (List.filter g (List.filter f l))
  = length (List.filter (λ x, f x && g x) l).
Proof.
  induction l as [|x l IH]; simpl; [done|].
  destruct (f x); simpl; [destruct (g x); simpl; lia | done].
Qed.

Lemma high_rated_for_mark_used iteration city itineraries :
  high_rated_for city (map (mark_used iteration) itineraries)
  = high_rated_for city itineraries.
Proof.
  unfold high_rated_for.
  induction itineraries as [|itin rest IH]; simpl; [done|].
  rewrite is_high_quality_mark_used, city_name_mark_used.
  destruct (_ && _); simpl; lia.
Qed.

Lemma high_rated_for_none city itineraries :
  List.filter is_high_quality itineraries = [] →
  high_rated_for city itineraries = 0%nat.
Proof.
  intros Hnone. unfold high_rated_for.
  rewrite <- (filter_filter_length is_high_quality), Hnone. done.
Qed.

(** One pass in flat-file mode over at least three records. *)
Lemma auto_trained_cities env w itineraries :
  use_database env = false →
  disk_writable env = true →
  itineraries_file w = Some itineraries →
  json_values itineraries →
  (3 ≤ length itineraries)%nat →
  (∀ city,
     city_count (auto_trained env w) city
     = city_count w city + Z.of_nat (high_rated_for city itineraries))
  ∧ ∃ itineraries',
      itineraries_file (auto_trained env w) = Some itineraries'
      ∧ json_values itineraries'
      ∧ length itineraries' = length itineraries
      ∧ ∀ city, high_rated_for city itineraries' = high_rated_for city itineraries.
Proof.
  intros Hdb Hdisk Hfile Hjson Hlen. unfold auto_trained.
  rewrite Hdb, Hfile. simpl default.
  destruct (train_itineraries (now env)
        (_generate_training_insight env (List.filter is_high_quality itineraries))
        itineraries
        (default (_generate_initial_patterns env) (training_patterns_file w)))
        as [n Hn].
  assert (json_values (map (mark_used n) itineraries)) as Hjson'
    by (unfold json_values; by rewrite json_values_mark_used).
  destruct (trains itineraries) eqn:Htrains.
  - rewrite saved_twice by (by rewrite ?Hn). split.
    + intros city. unfold city_count.
      rewrite world_cities_written, train_cities, loaded_cities.
      rewrite count_cities_lookup, filter_filter_length. done.
    + eexists. split; [done|]. rewrite Hn.
      split_and!; [done | by rewrite length_map |].
      intros city. apply high_rated_for_mark_used.
  - assert (List.filter is_high_quality itineraries = []) as Hnone.
    { unfold trains in Htrains. apply andb_false_iff in Htrains as [Hshort|Hhq].
      - apply Z.leb_gt in Hshort. lia.
      - apply bool_decide_eq_false in Hhq.
        destruct (List.filter is_high_quality itineraries); [done|].
        by destruct Hhq. }
    split.
    + intros city. rewrite (high_rated_for_none _ _ Hnone). lia.
    + exists itineraries. done.
Qed.

(** One pass, whatever the mode, the disk and the number of records. *)
Lemma auto_trained_step env w :
  json_values (default [] (itineraries_file w)) →
  (∀ city,
     city_count (auto_trained env w) city
     = city_count w city
       + (if counts env (default [] (itineraries_file w))
          then Z.of_nat (high_rated_for city (default [] (itineraries_file w)))
          else 0))
  ∧ json_values (default [] (itineraries_file (auto_trained env w)))
  ∧ length (default [] (itineraries_file (auto_trained env w)))
    = length (default [] (itineraries_file w))
  ∧ ∀ city,
      high_rated_for city (default [] (itineraries_file (auto_trained env w)))
      = high_rated_for city (default [] (itineraries_file w)).
Proof.
  intros Hjson. unfold counts.
  destruct (use_database env) eqn:Hdb.
  { unfold auto_trained. rewrite Hdb. simpl. split_and!; [intros; lia | done..]. }
  destruct (disk_writable env) eqn:Hdisk.
  2:{ unfold auto_trained, saved_itineraries, saved_training_patterns.
      rewrite Hdb, Hdisk. simpl.
      destruct (trains _); split_and!; (intros; lia) || done. }
  simpl andb.
  destruct (Z.leb_spec 3 (Z.of_nat (length (default [] (itineraries_file w)))))
    as [Hlen|Hlen].
  - destruct (itineraries_file w) as [itineraries|] eqn:Hfile; [|simpl in Hlen; lia].
    simpl in *.
    destruct (auto_trained_cities env w itineraries Hdb Hdisk Hfile Hjson)
      as (Hcount & its' & Hfile' & Hjson' & Hlen' & Hsame); [lia|].
    rewrite Hfile'. simpl. done.
  - unfold auto_trained, trains. rewrite Hdb.
    replace (3 <=? _) with false by (symmetry; apply Z.leb_gt; lia).
    simpl. split_and!; [intros; lia | done..].
Qed.

(** C10: every auto-train pass that gets to count (flat-file mode, a
    writable disk, at least three records stored) counts every record
    rated 4 or more again, whether or not an earlier pass already used
    it, and the other passes leave the counts as they are: of [n] passes
    over a fixed set of records, [m] of which get to count, the count of
    a destination rises by [m * k], where [k] is the number of its
    high-rated records.  The destinations are the titles of city names
    whose title is a string below code point 256. *)
Theorem high_rated_cities_grow_every_pass envs w city :
  json_values (default [] (itineraries_file w)) →
  names_within_range (default [] (itineraries_file w)) →
  city_count (passes envs w) city
  = city_count w city
    + Z.of_nat (counting_passes envs (default [] (itineraries_file w)))
      * Z.of_nat (high_rated_for city (default [] (itineraries_file w))).
Proof.
  intros Hjson _. revert w Hjson.
  induction envs as [|env envs IH]; intros w Hjson.
  - unfold passes, counting_passes. simpl. lia.
  - change (passes (env :: envs) w) with (passes envs (_auto_train env w).2).
    rewrite _auto_train_eq. simpl snd.
    destruct (auto_trained_step env w Hjson) as (Hcount & Hjson' & Hlen & Hsame).
    rewrite (IH _ Hjson'), Hcount, Hsame.
    unfold counting_passes, counts. rewrite Hlen. simpl List.filter.
    destruct (negb (use_database env) && disk_writable env
              && (3 <=? Z.of_nat (length (default [] (itineraries_file w)))));
      simpl length; lia.
Qed.

Lemma high_rated_cities_grow_every_pass_witness :
  counting_passes twenty_draws (default [] (itineraries_file one_high_rated)) = 20%nat
  ∧ high_rated_for "Paris" (default [] (itineraries_file one_high_rated)) = 1%nat
  ∧ city_count (passes twenty_draws one_high_rated) "Paris"
    = city_count one_high_rated "Paris"
      + Z.of_nat (counting_passes twenty_draws
                    (default [] (itineraries_file one_high_rated)))
        * Z.of_nat (high_rated_for "Paris"
                      (default [] (itineraries_file one_high_rated))).
Proof.
  split; [reflexivity|]. split; [reflexivity|].
  apply (high_rated_cities_grow_every_pass twenty_draws one_high_rated "Paris").
  - reflexivity.
  - apply (bool_decide_unpack _). vm_compute. exact I.
Defined.

(** C10, as the specification words it, fails for the passes that do not
    get to count: with two records of Paris stored, both rated 5, twenty
    passes leave the count of Paris at 0, not at 40; and so do twenty
    passes in database mode over three records of which one is rated
    5. *)
Lemma passes_that_do_not_count :
  high_rated_for "Paris" (default [] (itineraries_file two_of_paris)) = 2%nat
  ∧ city_count two_of_paris "Paris" = 0
  ∧ city_count (passes twenty_draws two_of_paris) "Paris" = 0
  ∧ high_rated_for "Paris" (default [] (itineraries_file one_high_rated)) = 1%nat
  ∧ city_count one_high_rated "Paris" = 0
  ∧ city_count (passes twenty_with_primary one_high_rated) "Paris" = 0.
Proof. split_and!; vm_compute; reflexivity. Qed.

(** One record of Paris rated 5, twenty passes: the count is 20. *)
Example paris_after_twenty_passes :
  city_count one_high_rated "Paris" = 0
  ∧ high_rated_for "Paris" (default [] (itineraries_file one_high_rated)) = 1%nat
  ∧ city_count (passes twenty_draws one_high_rated) "Paris" = 20.
Proof. split_and!; vm_compute; reflexivity. Qed.

(** ** Statistics *)

Lemma get_statistics_flat_file env w :
  use_database env = false →
  get_statistics env w
  = (scan_statistics
       (default [] (itineraries_file w))
       (default [] (feedback_file w))
       (default (_generate_initial_patterns env) (training_patterns_file w)),
     w).
Proof.
  intros Hdb. unfold get_statistics. unfold mbind, M_bind, mret, M_ret, call.
  rewrite Hdb, (_load_itineraries_json _ _ Hdb), _load_feedback_eq,
    (_load_training_patterns_json _ _ Hdb). done.
Qed.

Lemma int_truediv_ok a (n : nat) :
  (0 < n)%nat →
  Z.abs a < float_overflow_bound * Z.of_nat n →
  int_truediv a (Z.of_nat n) = Ok (truediv a (Z.of_nat n)).
Proof.
  intros Hn Ha. unfold int_truediv.
  destruct (Z.eqb_spec (Z.of_nat n) 0); [lia|].
  rewrite (Z.abs_eq (Z.of_nat n)) by lia.
  destruct (Z.ltb_spec (Z.abs a) (float_overflow_bound * Z.of_nat n)); [done | lia].
Qed.

Lemma int_truediv_overflow a (n : nat) :
  (0 < n)%nat →
  ¬ Z.abs a < float_overflow_bound * Z.of_nat n →
  int_truediv a (Z.of_nat n) = Raise OverflowError.
Proof.
  intros Hn Ha. unfold int_truediv.
  destruct (Z.eqb_spec (Z.of_nat n) 0); [lia|].
  rewrite (Z.abs_eq (Z.of_nat n)) by lia.
  destruct (Z.ltb_spec (Z.abs a) (float_overflow_bound * Z.of_nat n)); [lia | done].
Qed.

(** The scan returns when the averages are within the float range, and
    raises [OverflowError] when they are not. *)
Lemma scan_statistics_ok itineraries feedback patterns :
  averages_in_range itineraries →
  ∃ stats, scan_statistics itineraries feedback patterns = Ok stats.
Proof.
  intros [Hratings Hwords]. unfold scan_statistics.
  destruct itineraries as [|itin rest]; [eauto|].
  fold (rated_ratings (itin :: rest)). fold (word_counts (itin :: rest)).
  destruct Hwords as [|Hwords]; [done|].
  rewrite (int_truediv_ok _ (length (itin :: rest))) by (simpl; lia || done).
  destruct (rated_ratings (itin :: rest)) as [|r ratings] eqn:Hrated; [eauto|].
  destruct Hratings as [|Hratings]; [done|].
  rewrite (int_truediv_ok _ (length (r :: ratings))) by (simpl; lia || done).
  eauto.
Qed.

Lemma scan_statistics_overflow itineraries feedback patterns :
  ¬ averages_in_range itineraries →
  scan_statistics itineraries feedback patterns = Raise OverflowError.
Proof.
  intros Hout. unfold scan_statistics.
  destruct itineraries as [|itin rest].
  { destruct Hout. split; by left. }
  fold (rated_ratings (itin :: rest)). fold (word_counts (itin :: rest)).
  destruct (rated_ratings (itin :: rest)) as [|r ratings] eqn:Hrated.
  - rewrite int_truediv_overflow; [done | simpl; lia |].
    intros Hwords. apply Hout. split; [by left | by right].
  - destruct (decide (Z.abs (sum (r :: ratings))
                      < float_overflow_bound * Z.of_nat (length (r :: ratings))))
      as [Hratings|Hratings].
    + rewrite (int_truediv_ok _ (length (r :: ratings))) by (simpl; lia || done).
      rewrite int_truediv_overflow; [done | simpl; lia |].
      intros Hwords. apply Hout. unfold averages_in_range. rewrite Hrated.
      split; by right.
    + by rewrite int_truediv_overflow by (simpl; lia || done).
Qed.

Lemma count_rating_lookup ratings (rating_dist : gmap Z Z) rating :
  foldl count_rating rating_dist ratings !! rating
  = match length (List.filter (λ r, r =? rating) ratings) with
    | O => rating_dist !! rating
    | S n => Some (default 0 (rating_dist !! rating) + Z.of_nat (S n))
    end.
Proof.
  revert rating_dist.
  induction ratings as [|r rest IH]; intros rating_dist; simpl; [done|].
  rewrite IH. unfold count_rating.
  destruct (Z.eqb_spec r rating) as [->|Hne]; simpl.
  - rewrite lookup_insert_eq. simpl.
    destruct (length _); f_equal; lia.
  - by rewrite lookup_insert_ne.
Qed.

Lemma ratings_of_rated rating itineraries :
  length (List.filter (λ r, r =? rating)
            (ratings_of (List.filter is_rated itineraries)))
  = rated_with rating itineraries.
Proof.
  unfold rated_with.
  induction itineraries as [|itin rest IH]; simpl; [done|].
  destruct (is_rated itin) eqn:Hrated; simpl; [|done].
  unfold is_rated, Itin.rating_or_0 in Hrated.
  apply andb_true_iff in Hrated as [_ Hpos]. apply Z.ltb_lt in Hpos.
  unfold Itin.rating_or_0.
  destruct (Itin.rating itin) as [r|]; simpl in *; [|lia].
  destruct (Z.eqb_spec r 0); [lia|]. simpl.
  destruct (r =? rating); simpl; by rewrite IH.
Qed.

Lemma unrated_not_rated itineraries :
  Forall (λ itin, Itin.rating itin = None ∨ Itin.rating itin = Some 0) itineraries →
  List.filter is_rated itineraries = [].
Proof.
  induction 1 as [|itin rest Hitin _ IH]; simpl; [done|].
  unfold is_rated at 1, Itin.rating_or_0.
  destruct Hitin as [-> | ->]; simpl; by rewrite andb_false_r.
Qed.

Lemma scan_average_unrated itineraries feedback patterns stats :
  scan_statistics itineraries feedback patterns = Ok stats →
  Forall (λ itin, Itin.rating itin = None ∨ Itin.rating itin = Some 0) itineraries →
  Stats.average_rating stats = 0%float.
Proof.
  intros Hscan Hunrated. unfold scan_statistics in Hscan.
  destruct itineraries as [|itin rest]; [by injection Hscan as <-|].
  rewrite (unrated_not_rated _ Hunrated) in Hscan. simpl in Hscan.
  destruct (int_truediv _ _); [|done]. by injection Hscan as <-.
Qed.

(** The fields of the statistics that do not depend on the averages. *)
Lemma scan_statistics_fields itineraries feedback patterns stats :
  scan_statistics itineraries feedback patterns = Ok stats →
  Stats.total_itineraries stats = Z.of_nat (length itineraries)
  ∧ Stats.total_database_size stats = Z.of_nat (length itineraries)
  ∧ Stats.rated_itineraries stats
    = Z.of_nat (length (List.filter is_rated itineraries))
  ∧ Stats.rating_distribution stats
    = foldl count_rating ∅ (rated_ratings itineraries)
  ∧ Stats.top_cities stats
    = take 5 (sorted_by_count_desc (foldl count_destination [] itineraries))
  ∧ Stats.total_feedback stats
    = match itineraries with [] => 0 | _ => Z.of_nat (length feedback) end
  ∧ Stats.training_iterations stats
    = match itineraries with
      | [] => 0
      | _ => default 0 (Patterns.training_iterations patterns)
      end.
Proof.
  intros Hscan. unfold scan_statistics in Hscan.
  destruct itineraries as [|itin rest]; [by injection Hscan as <-|].
  destruct (match ratings_of _ with [] => _ | _ => _ end); [|done].
  destruct (int_truediv _ _); [|done].
  by injection Hscan as <-.
Qed.

Lemma scan_rating_distribution itineraries feedback patterns stats rating :
  scan_statistics itineraries feedback patterns = Ok stats →
  Stats.rating_distribution stats !! rating
  = match rated_with rating itineraries with
    | O => None
    | S n => Some (Z.of_nat (S n))
    end.
Proof.
  intros Hscan.
  destruct (scan_statistics_fields _ _ _ _ Hscan) as (_ & _ & _ & -> & _).
  unfold rated_ratings.
  rewrite count_rating_lookup, ratings_of_rated, lookup_empty.
  destruct (rated_with rating itineraries); [done|].
  cbn [default]. f_equal; lia.
Qed.

(** C8: in flat-file mode, on a record set whose two averages are within
    the float range, [get_statistics] returns; then a record set in which
    every rating is 0 or missing has average rating 0.0, and the histogram
    holds exactly the ratings of the rated records, each with the number
    of rated records that carry it.  On every other record set the call
    raises OverflowError and returns no statistics. *)
Theorem statistics_ignore_unrated env w :
  use_database env = false →
  (averages_in_range (default [] (itineraries_file w)) →
   ∃ stats,
     get_statistics env w = (Ok stats, w)
     ∧ (Forall (λ itin, Itin.rating itin = None ∨ Itin.rating itin = Some 0)
          (default [] (itineraries_file w)) →
        Stats.average_rating stats = 0%float)
     ∧ ∀ rating,
         Stats.rating_distribution stats !! rating
         = match rated_with rating (default [] (itineraries_file w)) with
           | O => None
           | S n => Some (Z.of_nat (S n))
           end)
  ∧ (¬ averages_in_range (default [] (itineraries_file w)) →
     get_statistics env w = (Raise OverflowError, w)).
Proof.
  intros Hdb. rewrite (get_statistics_flat_file _ _ Hdb). split.
  - intros Hrange.
    destruct (scan_statistics_ok _ (default [] (feedback_file w))
                (default (_generate_initial_patterns env) (training_patterns_file w))
                Hrange) as [stats Hscan].
    exists stats. rewrite Hscan. split; [done|]. split.
    + by apply (scan_average_unrated _ _ _ _ Hscan).
    + intros rating. by apply (scan_rating_distribution _ _ _ _ _ Hscan).
  - intros Hout. by rewrite scan_statistics_overflow.
Qed.

Lemma statistics_ignore_unrated_witness :
  averages_in_range (default [] (itineraries_file one_rated_one_not))
  ∧ ∃ stats,
      get_statistics json_only one_rated_one_not = (Ok stats, one_rated_one_not)
      ∧ (Forall (λ itin, Itin.rating itin = None ∨ Itin.rating itin = Some 0)
           (default [] (itineraries_file one_rated_one_not)) →
         Stats.average_rating stats = 0%float)
      ∧ ∀ rating,
          Stats.rating_distribution stats !! rating
          = match rated_with rating (default [] (itineraries_file one_rated_one_not)) with
            | O => None
            | S n => Some (Z.of_nat (S n))
            end.
Proof.
  assert (averages_in_range (default [] (itineraries_file one_rated_one_not)))
    as Hrange by (split; right; vm_compute; reflexivity).
  split; [exact Hrange|].
  apply (statistics_ignore_unrated json_only one_rated_one_not); [reflexivity|].
  exact Hrange.
Defined.

(** C8, as the specification words it, fails past the float range: a
    record set in which no record is rated, with a stored word count of
    2^1100, has no average rating of 0.0, for [get_statistics] raises
    OverflowError; and so it does after [record_feedback] has stored a
    rating of 2^1100, so that no histogram is returned for that record
    set. *)
Lemma statistics_raise_past_the_float_range :
  Forall (λ itin, Itin.rating itin = None ∨ Itin.rating itin = Some 0)
    (default [] (itineraries_file counted_past_the_range))
  ∧ get_statistics json_only counted_past_the_range
    = (Raise OverflowError, counted_past_the_range)
  ∧ (record_at rated_past_the_range 0 ≫= Itin.rating) = Some (2 ^ 1100)
  ∧ (get_statistics json_only rated_past_the_range).1 = Raise OverflowError.
Proof.
  split_and!.
  - constructor; [by right | constructor].
  - vm_compute. reflexivity.
  - vm_compute. reflexivity.
  - vm_compute. reflexivity.
Qed.

(** An unrated itinerary alone: average 0.0 and an empty histogram; with
    a rated one beside it, only the rated one is counted. *)
Example statistics_of_unrated :
  (match (get_statistics json_only one_record).1 with
   | Ok stats => Some (Stats.average_rating stats, Stats.rating_distribution stats)
   | Raise _ => None
   end) = Some (0%float, ∅)
  ∧ (match (get_statistics json_only one_rated_one_not).1 with
     | Ok stats =>
         Some (Stats.rated_itineraries stats,
               map_to_list (Stats.rating_distribution stats))
     | Raise _ => None
     end) = Some (1, [(4, 1)]).
Proof. split; vm_compute; reflexivity. Qed.

(** ** The top destinations *)

Section KeepFirst.

Lemma keep_first_snoc cities c :
  keep_first (cities ++ [c])
  = if decide (c ∈ keep_first cities) then keep_first cities
    else keep_first cities ++ [c].
Proof. unfold keep_first. by rewrite foldl_snoc. Qed.

Lemma elem_of_keep_first cities c : c ∈ keep_first cities ↔ c ∈ cities.
Proof.
  induction cities as [|x cities IH] using rev_ind; [done|].
  rewrite keep_first_snoc, elem_of_app, list_elem_of_singleton.
  case_decide as Hx; rewrite ?elem_of_app, ?list_elem_of_singleton; [|tauto].
  split; [tauto|]. intros [Hc | ->]; [tauto|done].
Qed.

Lemma keep_first_NoDup cities : NoDup (keep_first cities).
Proof.
  induction cities as [|x cities IH] using rev_ind; [constructor|].
  rewrite keep_first_snoc. case_decide as Hx; [done|].
  apply NoDup_app. split_and!; [done | | apply NoDup_singleton].
  intros y Hy ->%list_elem_of_singleton. done.
Qed.

Lemma first_seen_app city l k :
  first_seen city (l ++ k)
  = match first_seen city l with
    | Some i => Some i
    | None => (λ i, (length l + i)%nat) <$> first_seen city k
    end.
Proof.
  induction l as [|x l IH]; simpl.
  - by destruct (first_seen city k).
  - case_decide; [done|]. rewrite IH.
    destruct (first_seen city l); [done|]. by destruct (first_seen city k).
Qed.

Lemma first_seen_elem_of city l :
  city ∈ l → ∃ i, first_seen city l = Some i ∧ (i < length l)%nat.
Proof.
  induction l as [|x l IH]; [by intros ?%elem_of_nil|].
  intros Hin. simpl. case_decide as Hx; [exists 0%nat; split; [done | simpl; lia]|].
  destruct IH as (i & -> & Hi).
  { apply elem_of_cons in Hin as [-> | Hin]; done. }
  exists (S i). split; [done | simpl; lia].
Qed.

Lemma first_seen_not_elem_of city l : city ∉ l → first_seen city l = None.
Proof.
  induction l as [|x l IH]; [done|].
  intros Hnot. apply not_elem_of_cons in Hnot as [Hne Hnot].
  simpl. rewrite decide_False by done. by rewrite IH.
Qed.

(** The order of [keep_first] is the order of first encounter. *)
Lemma keep_first_order cities a b :
  [a; b] `sublist_of` keep_first cities →
  ∃ i j, first_seen a cities = Some i ∧ first_seen b cities = Some j ∧ (i < j)%nat.
Proof.
  induction cities as [|x cities IH] using rev_ind.
  - intros Hsub. apply sublist_nil_r in Hsub. done.
  - rewrite keep_first_snoc. intros Hsub.
    assert ([a; b] `sublist_of` keep_first cities →
            ∃ i j, first_seen a (cities ++ [x]) = Some i
                   ∧ first_seen b (cities ++ [x]) = Some j ∧ (i < j)%nat) as Hold.
    { intros Hsub'. destruct (IH Hsub') as (i & j & Ha & Hb & Hij).
      exists i, j. rewrite !first_seen_app, Ha, Hb. done. }
    case_decide as Hx; [by apply Hold|].
    apply sublist_app_r in Hsub as (l1 & l2 & Hsplit & Hl1 & Hl2).
    apply sublist_cons_r in Hl2 as [Hl2 | (l2' & -> & Hl2)];
      apply sublist_nil_r in Hl2 as ->.
    + rewrite app_nil_r in Hsplit. subst l1. by apply Hold.
    + change [a; b] with ([a] ++ [b]) in Hsplit.
      apply app_inj_tail in Hsplit as [<- <-].
      assert (a ∈ cities) as Hacities.
      { apply elem_of_keep_first. by apply singleton_sublist_l. }
      destruct (first_seen_elem_of a cities Hacities) as (i & Hi & Hlt).
      exists i, (length cities + 0)%nat.
      rewrite !first_seen_app, Hi.
      rewrite (first_seen_not_elem_of b cities)
        by (by rewrite <- elem_of_keep_first).
      simpl. rewrite decide_True by done. split_and!; [done | done | lia].
Qed.

End KeepFirst.

Section CountingPass.

Lemma dict_get_table (f : string → Z) keys c :
  dict_get c (map (λ k, (k, f k)) keys)
  = if decide (c ∈ keys) then Some (f c) else None.
Proof.
  induction keys as [|k keys IH]; simpl; [done|].
  destruct (decide (k = c)) as [->|Hne].
  - rewrite decide_True by (by left). done.
  - rewrite IH. destruct (decide (c ∈ keys)) as [Hin|Hnot].
    + rewrite decide_True by (by right). done.
    + rewrite decide_False; [done|].
      intros [->|Hin]%elem_of_cons; done.
Qed.

Lemma dict_set_table_absent (f : string → Z) keys c v :
  c ∉ keys →
  dict_set c v (map (λ k, (k, f k)) keys) = map (λ k, (k, f k)) keys ++ [(c, v)].
Proof.
  induction keys as [|k keys IH]; simpl; [done|].
  intros [Hne Hnot]%not_elem_of_cons.
  rewrite decide_False by done. by rewrite IH.
Qed.

Lemma dict_set_table_present (f : string → Z) keys c v :
  NoDup keys → c ∈ keys →
  dict_set c v (map (λ k, (k, f k)) keys)
  = map (λ k, (k, if decide (k = c) then v else f k)) keys.
Proof.
  induction 1 as [|k keys Hk Hdup IH]; [by intros ?%elem_of_nil|].
  intros Hin. simpl. destruct (decide (k = c)) as [->|Hne].
  - f_equal. apply map_ext_in. intros k Hkin. apply list_elem_of_In in Hkin.
    rewrite decide_False; [done|]. by intros ->.
  - f_equal. apply IH. apply elem_of_cons in Hin as [->|Hin]; done.
Qed.

Lemma occurrences_snoc city cities c :
  occurrences city (cities ++ [c])
  = occurrences city cities + (if decide (c = city) then 1 else 0).
Proof.
  unfold occurrences. rewrite filter_app, length_app.
  rewrite filter_cons, filter_nil. case_decide; simpl; lia.
Qed.

Lemma occurrences_absent city cities : city ∉ cities → occurrences city cities = 0.
Proof.
  intros Hnot. unfold occurrences.
  induction cities as [|c cities IH]; [done|].
  apply not_elem_of_cons in Hnot as [Hne Hnot].
  rewrite filter_cons, decide_False by done. by apply IH.
Qed.

Lemma count_table_snoc cities c :
  dict_set c (default 0 (dict_get c (count_table cities)) + 1) (count_table cities)
  = count_table (cities ++ [c]).
Proof.
  unfold count_table. rewrite dict_get_table, keep_first_snoc.
  destruct (decide (c ∈ keep_first cities)) as [Hin|Hnot].
  - rewrite dict_set_table_present by (done || apply keep_first_NoDup).
    apply map_ext. intros k. rewrite occurrences_snoc.
    destruct (decide (k = c)) as [->|Hne]; simpl.
    + by rewrite decide_True.
    + rewrite decide_False by done. f_equal. lia.
  - rewrite dict_set_table_absent by done.
    rewrite map_app. simpl. f_equal.
    + apply map_ext_in. intros k Hk. apply list_elem_of_In in Hk.
      rewrite occurrences_snoc, decide_False; [f_equal; lia|].
      by intros ->.
    + rewrite occurrences_snoc, decide_True by done.
      rewrite occurrences_absent by (by rewrite <- elem_of_keep_first). done.
Qed.

(** The counting pass of [get_statistics] builds the table of distinct
    destinations, in the order of first encounter, with their frequencies. *)
Lemma counting_pass itineraries :
  foldl count_destination [] itineraries = count_table (destinations itineraries).
Proof.
  induction itineraries as [|itin itineraries IH] using rev_ind; [done|].
  rewrite foldl_snoc, IH. unfold destinations, count_destination.
  rewrite map_app. apply count_table_snoc.
Qed.

End CountingPass.

Section StableSort.

Lemma insert_by_count_perm x l : insert_by_count x l ≡ₚ x :: l.
Proof.
  induction l as [|y l IH]; simpl; [done|].
  destruct (x.2 <? y.2); [|done]. rewrite IH. apply Permutation_swap.
Qed.

Lemma sorted_by_count_desc_perm l : sorted_by_count_desc l ≡ₚ l.
Proof.
  induction l as [|x l IH]; simpl; [done|].
  unfold sorted_by_count_desc in *. simpl.
  by rewrite insert_by_count_perm, IH.
Qed.

Lemma insert_by_count_sorted x l :
  StronglySorted descending l → StronglySorted descending (insert_by_count x l).
Proof.
  induction 1 as [|y l Hl IH Hy]; simpl.
  - repeat constructor.
  - destruct (Z.ltb_spec x.2 y.2) as [Hlt|Hge].
    + constructor; [done|].
      rewrite Forall_forall. intros z Hz.
      rewrite insert_by_count_perm in Hz.
      apply elem_of_cons in Hz as [->|Hz].
      * unfold descending. lia.
      * by apply (proj1 (Forall_forall _ _) Hy).
    + constructor; [by constructor|].
      constructor; [done|].
      eapply Forall_impl; [exact Hy|].
      intros z Hz. unfold descending in *. lia.
Qed.

Lemma sorted_by_count_desc_sorted l :
  StronglySorted descending (sorted_by_count_desc l).
Proof.
  induction l as [|x l IH]; [constructor|].
  by apply insert_by_count_sorted.
Qed.

(** Stability: items of equal count keep their order. *)
Lemma insert_by_count_stable n x l :
  filter (λ p, p.2 = n) (insert_by_count x l) = filter (λ p, p.2 = n) (x :: l).
Proof.
  induction l as [|y l IH]; simpl; [done|].
  destruct (Z.ltb_spec x.2 y.2) as [Hlt|Hge]; [|done].
  rewrite (filter_cons _ y), IH, !filter_cons.
  repeat case_decide; try done; lia.
Qed.

Lemma sorted_by_count_desc_stable n l :
  filter (λ p, p.2 = n) (sorted_by_count_desc l) = filter (λ p, p.2 = n) l.
Proof.
  induction l as [|x l IH]; [done|].
  unfold sorted_by_count_desc in *. simpl.
  rewrite insert_by_count_stable, !filter_cons, IH. done.
Qed.

End StableSort.

Section Ranking.

Lemma lookup_sublist {A} (l : list A) i j x y :
  (i < j)%nat → l !! i = Some x → l !! j = Some y → [x; y] `sublist_of` l.
Proof.
  intros Hij Hi Hj. rewrite <- (take_drop_middle l i x Hi).
  apply sublist_inserts_l, sublist_skip, singleton_sublist_l.
  apply list_elem_of_lookup. exists (j - S i)%nat.
  rewrite lookup_drop. by replace (S i + (j - S i))%nat with j by lia.
Qed.

Lemma sorted_sublist {A} (R : relation A) l x y :
  StronglySorted R l → [x; y] `sublist_of` l → R x y.
Proof.
  induction 1 as [|a l Hl IH Ha]; intros Hsub.
  - apply sublist_nil_r in Hsub. done.
  - apply sublist_cons_r in Hsub as [Hsub | (l' & [= <- <-] & Hsub)]; [by apply IH|].
    apply singleton_sublist_l in Hsub.
    by apply (proj1 (Forall_forall _ _) Ha).
Qed.

Lemma filter_sublist_mono {A} (P : A → Prop) `{!∀ x, Decision (P x)} (l1 l2 : list A) :
  l1 `sublist_of` l2 → filter P l1 `sublist_of` filter P l2.
Proof.
  induction 1 as [|x l1 l2 Hsub IH|x l1 l2 Hsub IH]; [done| |];
    rewrite ?filter_cons; case_decide; try done.
  - by apply sublist_skip.
  - by apply sublist_cons.
Qed.

Lemma occurrences_present city cities : city ∈ cities → 0 < occurrences city cities.
Proof.
  intros Hin. unfold occurrences.
  assert (city ∈ filter (λ c, c = city) cities) as Hf
    by (by apply list_elem_of_filter).
  destruct (filter (λ c, c = city) cities); [by apply elem_of_nil in Hf|].
  simpl. lia.
Qed.

Lemma elem_of_count_table cities city n :
  (city, n) ∈ count_table cities ↔ city ∈ cities ∧ n = occurrences city cities.
Proof.
  unfold count_table. rewrite list_elem_of_fmap. split.
  - intros (c & Heq & Hc). simpl in Heq. injection Heq as -> ->.
    split; [by apply elem_of_keep_first | done].
  - intros [Hc ->]. exists city. split; [done | by apply elem_of_keep_first].
Qed.

Lemma scan_top_cities itineraries feedback patterns stats :
  scan_statistics itineraries feedback patterns = Ok stats →
  Stats.top_cities stats
  = take 5 (sorted_by_count_desc (count_table (destinations itineraries))).
Proof.
  intros Hscan.
  destruct (scan_statistics_fields _ _ _ _ Hscan) as (_ & _ & _ & _ & -> & _).
  by rewrite counting_pass.
Qed.

(** The ranking that [top_cities] is cut from. *)
Lemma ranking_order cities x y :
  [x; y] `sublist_of` sorted_by_count_desc (count_table cities) →
  y.2 ≤ x.2
  ∧ (y.2 = x.2 →
     ∃ a b, first_seen x.1 cities = Some a ∧ first_seen y.1 cities = Some b
            ∧ (a < b)%nat).
Proof.
  intros Hsub. split.
  - apply (sorted_sublist descending _ x y (sorted_by_count_desc_sorted _) Hsub).
  - intros Htie. apply keep_first_order.
    apply (filter_sublist_mono (λ p, p.2 = x.2)) in Hsub.
    rewrite sorted_by_count_desc_stable in Hsub.
    rewrite !filter_cons, filter_nil in Hsub.
    rewrite decide_True in Hsub by done. rewrite decide_True in Hsub by done.
    assert ([x; y] `sublist_of` count_table cities) as Hsub'
      by (etrans; [exact Hsub | apply sublist_filter]).
    apply (fmap_sublist fst) in Hsub'.
    unfold count_table in Hsub'. rewrite <- list_fmap_compose in Hsub'.
    simpl in Hsub'. by rewrite list_fmap_id in Hsub'.
Qed.

End Ranking.

(** C9: in flat-file mode, for city names whose title is a string below
    code point 256, the [top_cities] list that [get_statistics] returns
    has at most 5 entries, each a destination with its frequency over all
    records, in descending order of frequency; two entries of equal
    frequency stand in the order in which the scan first met them; and no
    destination left out is more frequent than one that is listed.  The
    list is returned whenever the averages are within the float range. *)
Theorem top_cities_ranking env w :
  use_database env = false →
  names_within_range (default [] (itineraries_file w)) →
  (averages_in_range (default [] (itineraries_file w)) →
   ∃ stats, get_statistics env w = (Ok stats, w))
  ∧ ∀ stats,
      get_statistics env w = (Ok stats, w) →
      (length (Stats.top_cities stats) ≤ 5)%nat
      ∧ (∀ city n,
           (city, n) ∈ Stats.top_cities stats →
           city ∈ destinations (default [] (itineraries_file w))
           ∧ n = occurrences city (destinations (default [] (itineraries_file w))))
      ∧ (∀ i j x y,
           (i < j)%nat →
           Stats.top_cities stats !! i = Some x →
           Stats.top_cities stats !! j = Some y →
           y.2 ≤ x.2
           ∧ (y.2 = x.2 →
              ∃ a b,
                first_seen x.1 (destinations (default [] (itineraries_file w))) = Some a
                ∧ first_seen y.1 (destinations (default [] (itineraries_file w))) = Some b
                ∧ (a < b)%nat))
      ∧ (∀ city,
           city ∈ destinations (default [] (itineraries_file w)) →
           (city, occurrences city (destinations (default [] (itineraries_file w))))
             ∈ Stats.top_cities stats
           ∨ (length (Stats.top_cities stats) = 5%nat
              ∧ ∀ x, x ∈ Stats.top_cities stats →
                     occurrences city (destinations (default [] (itineraries_file w)))
                     ≤ x.2)).
Proof.
  intros Hdb _. rewrite (get_statistics_flat_file _ _ Hdb). split.
  { intros Hrange.
    destruct (scan_statistics_ok _ (default [] (feedback_file w))
                (default (_generate_initial_patterns env) (training_patterns_file w))
                Hrange) as [stats ->].
    by exists stats. }
  intros stats [= Hscan].
  rewrite (scan_top_cities _ _ _ _ Hscan).
  set (cities := destinations (default [] (itineraries_file w))).
  set (ranking := sorted_by_count_desc (count_table cities)).
  split_and!.
  - rewrite length_take. lia.
  - intros city n Hin.
    assert ((city, n) ∈ ranking) as Hin'
      by (eapply elem_of_sublist; [exact Hin | apply sublist_take]).
    unfold ranking in Hin'. rewrite sorted_by_count_desc_perm in Hin'.
    by apply elem_of_count_table.
  - intros i j x y Hij Hi Hj. apply ranking_order.
    etrans; [exact (lookup_sublist _ i j x y Hij Hi Hj) | apply sublist_take].
  - intros city Hcity.
    assert ((city, occurrences city cities) ∈ ranking) as Hin.
    { unfold ranking. rewrite sorted_by_count_desc_perm.
      by apply elem_of_count_table. }
    rewrite <- (take_drop 5 ranking) in Hin.
    apply elem_of_app in Hin as [Hin|Hin]; [by left|right].
    assert (5 < length ranking)%nat as Hlong.
    { apply list_elem_of_lookup in Hin as [k Hk].
      apply lookup_lt_Some in Hk. rewrite length_drop in Hk. lia. }
    split; [rewrite length_take; lia|].
    intros x Hx.
    assert (StronglySorted descending (take 5 ranking ++ drop 5 ranking)) as Hsorted
      by (rewrite take_drop; apply sorted_by_count_desc_sorted).
    apply (StronglySorted_app_1_elem_of _ _ _ x _ Hsorted Hx Hin).
Qed.

Lemma top_cities_ranking_witness :
  ∃ stats,
    get_statistics json_only tie_of_two = (Ok stats, tie_of_two)
    ∧ Stats.top_cities stats = [("Oslo", 2); ("Tokyo", 1); ("Paris", 1)]%string
    ∧ ∀ i j x y,
        (i < j)%nat →
        Stats.top_cities stats !! i = Some x →
        Stats.top_cities stats !! j = Some y →
        y.2 ≤ x.2
        ∧ (y.2 = x.2 →
           ∃ a b,
             first_seen x.1 (destinations (default [] (itineraries_file tie_of_two)))
             = Some a
             ∧ first_seen y.1 (destinations (default [] (itineraries_file tie_of_two)))
               = Some b
             ∧ (a < b)%nat).
Proof.
  assert (use_database json_only = false) as Hdb by reflexivity.
  assert (names_within_range (default [] (itineraries_file tie_of_two))) as Hnames
    by (apply (bool_decide_unpack _); vm_compute; exact I).
  assert (averages_in_range (default [] (itineraries_file tie_of_two))) as Hrange
    by (split; [by left | right; vm_compute; reflexivity]).
  destruct (top_cities_ranking json_only tie_of_two Hdb Hnames) as [Hreturns Hlist].
  destruct (Hreturns Hrange) as [stats Hstats].
  exists stats. split; [exact Hstats|]. split.
  - revert Hstats. vm_compute. by intros [= <-].
  - apply (Hlist stats Hstats).
Defined.

(** Tokyo was met before Paris, so it is listed before Paris, against the
    alphabet. *)
Example top_cities_tie :
  (match (get_statistics json_only tie_of_two).1 with
   | Ok stats => Stats.top_cities stats
   | Raise _ => []
   end) = [("Oslo", 2); ("Tokyo", 1); ("Paris", 1)]%string.
Proof. vm_compute. reflexivity. Qed.

(** ** Remarks on the hypotheses used above *)

(** With unique ids, as the data model has them, every record is the
    first that carries its id. *)
Lemma unique_ids_first_with_id itineraries k itin itinerary_id :
  NoDup (map Itin.id itineraries) →
  itineraries !! k = Some itin →
  Itin.id itin = Some itinerary_id →
  first_with_id itinerary_id itineraries k itin.
Proof.
  intros Hdup Hk Hid. split_and!; [done | done |].
  intros j other Hj Hother Hsame.
  assert (map Itin.id itineraries !! j = Some (Some itinerary_id)) as Hj'
    by (change (map Itin.id itineraries) with (Itin.id <$> itineraries);
        by rewrite list_lookup_fmap, Hother; simpl; rewrite Hsame).
  assert (map Itin.id itineraries !! k = Some (Some itinerary_id)) as Hk'
    by (change (map Itin.id itineraries) with (Itin.id <$> itineraries);
        by rewrite list_lookup_fmap, Hk; simpl; rewrite Hid).
  pose proof (NoDup_lookup _ _ _ _ Hdup Hj' Hk'). lia.
Qed.

Example ids_can_collide :
  map Itin.id (default [] (itineraries_file stored_twice)) = [Some 2; Some 2]
  ∧ map Itin.rated
      (default [] (itineraries_file
                     (record_feedback primary_down 2 5 "" stored_twice).2))
    = [Some true; Some false].
Proof. split; vm_compute; reflexivity. Qed.

(** The third feedback does reach the pattern document. *)
Example third_feedback_trains :
  training_patterns_file after_two_feedbacks = None
  ∧ (Patterns.training_iterations
       <$> training_patterns_file
             (record_feedback json_only 3 5 "" after_two_feedbacks).2)
    = Some (Some 1).
Proof. split; vm_compute; reflexivity. Qed.

Lemma rate_first_match_serializable itinerary_id rating comments itineraries rated :
  rate_first_match itinerary_id rating comments itineraries = Ok rated →
  forallb Itin.serializable rated = forallb Itin.serializable itineraries.
Proof.
  revert rated. induction itineraries as [|itin rest IH]; intros rated; simpl.
  - by intros [= <-].
  - case_decide.
    + destruct (_calculate_quality_score _ _); [|done]. by intros [= <-].
    + destruct (rate_first_match _ _ _ rest) as [rest'|]; [|done].
      intros [= <-]. simpl. by rewrite (IH rest').
Qed.

(** Rows of the primary backend that carry a [datetime] do not hold JSON
    values only: when [record_feedback] has loaded them, its save breaks
    off and the flat file is left unreadable, whether or not a row
    matched.  Hence the hypothesis [json_values] above. *)
Theorem primary_rows_break_the_flat_file env w itinerary_id rating comments rows :
  use_database env = true →
  db_get_recent_itineraries env 1000 = Ok rows →
  forallb Itin.serializable rows = false →
  disk_writable env = true →
  Z.abs (rating * 16) < float_overflow_bound →
  ∃ w',
    record_feedback env itinerary_id rating comments w = (Ok tt, w')
    ∧ itineraries_file w' = None.
Proof.
  intros Hdb Hrows Hdatetime Hdisk Hrating.
  assert (_load_itineraries env w = (Ok rows, w)) as Hload.
  { unfold _load_itineraries. unfold_M. by rewrite Hdb, Hrows. }
  rewrite (record_feedback_eq _ _ _ _ _ _ Hload).
  assert (∃ rated, rate_first_match itinerary_id rating
                     (sanitize_text_input comments 1000) rows = Ok rated)
    as [rated Hrated].
  { destruct (first_with_id_dec itinerary_id rows)
      as [Habsent | (k & itin & Hfirst)].
    - rewrite rate_first_match_absent by done. eauto.
    - destruct (_calculate_quality_score_ok rating (len_str (Itin.text itin))
                  Hrating) as (total & _ & Hq).
      rewrite (rate_first_match_at _ _ _ _ _ _ _ Hfirst Hq). eauto. }
  rewrite Hrated. eexists. split; [done|].
  apply rate_first_match_serializable in Hrated as Hsame.
  unfold feedback_recorded, saved_itineraries, saved_feedback, auto_trained.
  rewrite Hdisk, Hdb, Hsame, Hdatetime. simpl. by destruct (_ =? 0).
Qed.

Lemma primary_rows_break_the_flat_file_witness :
  ∃ w',
    record_feedback primary_up 1 5 "" one_record = (Ok tt, w')
    ∧ itineraries_file w' = None.
Proof.
  apply (primary_rows_break_the_flat_file primary_up one_record 1 5 ""
           [primary_row 1 "paris" "Day 1: the Louvre"]).
  - reflexivity.
  - reflexivity.
  - reflexivity.
  - reflexivity.
  - vm_compute. reflexivity.
Defined.

(** C2 fails on the code when the primary backend is in use.  For an
    itinerary of 25000 characters rated 5 the claim gives a score of 100,
    as [_calculate_quality_score] does; the [UPDATE] of
    [DatabaseManager.rate_itinerary] assigns 105, having neither the cap
    nor the rounding; and the flat file, saved from the rows of the
    primary backend, is left unreadable, so that no stored record is
    flagged [rated]. *)
Theorem quality_score_with_primary_backend :
  _calculate_quality_score 5 (len_str long_text) = Ok (PyInt 100)
  ∧ (∃ q,
       map DatabaseManager.quality_score
           (DatabaseManager.rate_itinerary 1 5 "" one_long_row) = [Some q]
       ∧ (q == 105)%Q)
  ∧ (record_feedback primary_with_long_text 1 5 "" one_long_record).1 = Ok tt
  ∧ itineraries_file
      (record_feedback primary_with_long_text 1 5 "" one_long_record).2 = None.
Proof.
  split_and!.
  - vm_compute. reflexivity.
  - eexists. split; [reflexivity|]. vm_compute. reflexivity.
  - vm_compute. reflexivity.
  - vm_compute. reflexivity.
Qed.

(** * Further properties of the code *)

(** ** Ids and feedback in flat-file mode *)

Lemma store_complete_itinerary_eq env w city trip_days budget interests
    travel_style include_food include_transport full_prompt_context
    full_itinerary :
  store_complete_itinerary env city trip_days budget interests travel_style
    include_food include_transport full_prompt_context full_itinerary w
  = (Ok (default (flat_file_id w) (primary_id env)),
     saved_itineraries env
       (default [] (itineraries_file w) ++
        [itinerary_entry env (default (flat_file_id w) (primary_id env)) city
           trip_days budget interests travel_style include_food
           include_transport full_prompt_context full_itinerary
           (count_words full_itinerary)]) w).
Proof.
  unfold store_complete_itinerary, primary_id, flat_file_id.
  unfold mbind, M_bind, try_except, call, json_load, mret, M_ret.
  destruct (use_database env);
    [destruct (db_create_trip env) as [trip_id|];
     [destruct (db_create_itinerary env trip_id)|]|];
    destruct (itineraries_file w); rewrite _save_itineraries_eq; reflexivity.
Qed.

Lemma sequential_ids_snoc itineraries itin :
  sequential_ids itineraries →
  Itin.id itin = Some (Z.of_nat (length itineraries) + 1) →
  sequential_ids (itineraries ++ [itin]).
Proof.
  unfold sequential_ids. intros Hseq Hid.
  rewrite map_app, length_app, Hseq. simpl.
  rewrite Nat.add_1_r, seq_S, map_app. simpl.
  rewrite Hid. do 3 f_equal. lia.
Qed.

Lemma sequential_ids_NoDup itineraries :
  sequential_ids itineraries → NoDup (map Itin.id itineraries).
Proof.
  unfold sequential_ids. intros ->.
  assert (Inj (=) (=) (λ k : nat, Some (Z.of_nat k))) as Hinj
    by (intros a b [= Hab]; lia).
  apply (NoDup_fmap_2 _), NoDup_seq.
Qed.

Lemma sequential_ids_fresh itineraries :
  sequential_ids itineraries →
  Forall (λ itin, Itin.id itin ≠ Some (Z.of_nat (length itineraries) + 1))
         itineraries.
Proof.
  unfold sequential_ids. intros Hseq.
  apply Forall_forall. intros itin Hin.
  assert (Itin.id itin ∈ map Itin.id itineraries) as Hid
    by (by apply list_elem_of_fmap_2).
  rewrite Hseq in Hid.
  apply list_elem_of_fmap in Hid as (k & -> & Hk).
  apply elem_of_seq in Hk. intros [= Heq]. lia.
Qed.

(** Without a primary id, the flat file numbers its records itself: over
    a readable file whose ids are 1, 2, ..., n in this order,
    [store_complete_itinerary] returns n + 1 and the file holds the ids
    1, ..., n + 1 afterwards, no two of them equal. *)
Theorem flat_file_ids_stay_sequential env w itineraries city trip_days budget
    interests travel_style include_food include_transport
    full_prompt_context full_itinerary :
  primary_id env = None →
  disk_writable env = true →
  itineraries_file w = Some itineraries →
  json_values itineraries →
  sequential_ids itineraries →
  ∃ w' stored,
    store_complete_itinerary env city trip_days budget interests travel_style
      include_food include_transport full_prompt_context full_itinerary w
    = (Ok (Z.of_nat (length itineraries) + 1), w')
    ∧ itineraries_file w' = Some stored
    ∧ length stored = S (length itineraries)
    ∧ sequential_ids stored
    ∧ NoDup (map Itin.id stored).
Proof.
  intros Hprimary Hdisk Hfile Hjson Hseq.
  rewrite store_complete_itinerary_eq.
  unfold flat_file_id. rewrite Hprimary, Hfile. simpl default.
  rewrite saved_itineraries_written;
    [|done|unfold json_values in *; by rewrite forallb_app, Hjson].
  eexists _, _. split_and!; [reflexivity | reflexivity | | |].
  - rewrite length_app. simpl. lia.
  - by apply sequential_ids_snoc.
  - apply sequential_ids_NoDup. by apply sequential_ids_snoc.
Qed.

Lemma flat_file_ids_stay_sequential_witness :
  ∃ w' stored,
    store_complete_itinerary json_only "rome" 2 "Budget" ["food"] [] true true
      "" "Day 1: the Forum" three_stored
    = (Ok (Z.of_nat 3 + 1), w')
    ∧ itineraries_file w' = Some stored
    ∧ length stored = 4%nat
    ∧ sequential_ids stored
    ∧ NoDup (map Itin.id stored).
Proof.
  apply (flat_file_ids_stay_sequential json_only three_stored
           (default [] (itineraries_file three_stored))).
  - reflexivity.
  - reflexivity.
  - reflexivity.
  - reflexivity.
  - reflexivity.
Defined.

(** ** Feedback in flat-file mode *)

Lemma rate_first_match_ok itinerary_id rating comments itineraries :
  Z.abs (rating * 16) < float_overflow_bound →
  ∃ rated, rate_first_match itinerary_id rating comments itineraries = Ok rated.
Proof.
  intros Hrating.
  destruct (first_with_id_dec itinerary_id itineraries)
    as [Habsent | (k & itin & Hfirst)].
  - exists itineraries. by apply rate_first_match_absent.
  - destruct (_calculate_quality_score_ok rating (len_str (Itin.text itin)) Hrating)
      as (total & _ & Hq).
    eexists. by apply (rate_first_match_at _ _ _ _ _ _ _ Hfirst Hq).
Qed.

Lemma feedback_recorded_feedback env itinerary_id rating comments rated w :
  disk_writable env = true →
  feedback_file (feedback_recorded env itinerary_id rating comments rated w)
  = Some (default [] (feedback_file w)
          ++ [feedback_entry env itinerary_id rating comments]).
Proof.
  intros Hdisk. unfold feedback_recorded.
  rewrite saved_itineraries_feedback.
  unfold saved_feedback. rewrite Hdisk.
  destruct (_ =? 0); [rewrite auto_trained_feedback|]; done.
Qed.

(** Every submission is logged: whatever the backend in use and whether
    or not a record carries the id, [record_feedback] appends one entry
    to the feedback file, with the id and the rating as given and the
    comments sanitized; a feedback file that cannot be read is started
    again from this entry. *)
Theorem record_feedback_appends_feedback env w itinerary_id rating comments :
  disk_writable env = true →
  Z.abs (rating * 16) < float_overflow_bound →
  ∃ w',
    record_feedback env itinerary_id rating comments w = (Ok tt, w')
    ∧ feedback_file w'
      = Some (default [] (feedback_file w)
              ++ [ {| Feedback.timestamp := now env;
                      Feedback.itinerary_id := itinerary_id;
                      Feedback.rating := rating;
                      Feedback.comments := sanitize_text_input comments 1000 |} ]).
Proof.
  intros Hdisk Hrating.
  destruct (_load_itineraries_total env w) as [itineraries Hload].
  rewrite (record_feedback_eq _ _ _ _ _ _ Hload).
  destruct (rate_first_match_ok itinerary_id rating
              (sanitize_text_input comments 1000) itineraries Hrating)
    as [rated ->].
  eexists. split; [reflexivity|].
  by rewrite feedback_recorded_feedback.
Qed.

Lemma record_feedback_appends_feedback_witness :
  ∃ w',
    record_feedback json_only 99 4 "  no such itinerary " three_stored = (Ok tt, w')
    ∧ feedback_file w'
      = Some (default [] (feedback_file three_stored)
              ++ [ {| Feedback.timestamp := now json_only;
                      Feedback.itinerary_id := 99;
                      Feedback.rating := 4;
                      Feedback.comments :=
                        sanitize_text_input "  no such itinerary " 1000 |} ]).
Proof.
  apply (record_feedback_appends_feedback json_only three_stored 99 4
           "  no such itinerary ").
  - reflexivity.
  - vm_compute. reflexivity.
Defined.

(** Store, then rate.  Without a primary id, over a readable file in
    which no record carries the next id yet, the id that
    [store_complete_itinerary] returns designates the record it appended:
    [record_feedback] on that id, in flat-file mode, leaves the rating,
    the comments (sanitized) and [rated] on that record, which still holds
    the city and the text that were stored, and the rating of every other
    record is as before. *)
Theorem feedback_reaches_the_stored_itinerary env env' w itineraries city
    trip_days budget interests travel_style include_food include_transport
    full_prompt_context full_itinerary rating comments :
  primary_id env = None →
  disk_writable env = true →
  use_database env' = false →
  disk_writable env' = true →
  itineraries_file w = Some itineraries →
  json_values itineraries →
  Forall (λ itin, Itin.id itin ≠ Some (Z.of_nat (length itineraries) + 1))
         itineraries →
  Z.abs (rating * 16) < float_overflow_bound →
  ∃ itin_id w1 w2 stored after,
    store_complete_itinerary env city trip_days budget interests travel_style
      include_food include_transport full_prompt_context full_itinerary w
    = (Ok itin_id, w1)
    ∧ record_feedback env' itin_id rating comments w1 = (Ok tt, w2)
    ∧ itineraries_file w2 = Some stored
    ∧ length stored = S (length itineraries)
    ∧ stored !! length itineraries = Some after
    ∧ Itin.id after = Some itin_id
    ∧ Itin.city after = Some city
    ∧ Itin.full_itinerary after = Some full_itinerary
    ∧ Itin.rated after = Some true
    ∧ Itin.rating after = Some rating
    ∧ Itin.feedback_comments after = Some (sanitize_text_input comments 1000)
    ∧ ∀ k itin, itineraries !! k = Some itin →
        ∃ other, stored !! k = Some other
                 ∧ Itin.rating other = Itin.rating itin
                 ∧ Itin.rated other = Itin.rated itin.
Proof.
  intros Hprimary Hdisk Hdb' Hdisk' Hfile Hjson Hfresh Hrating.
  rewrite store_complete_itinerary_eq.
  unfold flat_file_id. rewrite Hprimary, Hfile. simpl default.
  set (itin_id := Z.of_nat (length itineraries) + 1).
  set (entry := itinerary_entry env itin_id city trip_days budget interests
                  travel_style include_food include_transport
                  full_prompt_context full_itinerary (count_words full_itinerary)).
  assert (json_values (itineraries ++ [entry])) as Hjson1
    by (unfold json_values in *; by rewrite forallb_app, Hjson).
  rewrite saved_itineraries_written by done.
  set (w1 := put_itineraries (itineraries ++ [entry]) w).
  assert (_load_itineraries env' w1 = (Ok (itineraries ++ [entry]), w1)) as Hload
    by (by rewrite _load_itineraries_json).
  assert (first_with_id itin_id (itineraries ++ [entry]) (length itineraries) entry)
    as Hfirst.
  { split_and!.
    - by rewrite lookup_app_r, Nat.sub_diag.
    - done.
    - intros j other Hj Hother. rewrite lookup_app_l in Hother by done.
      by eapply (proj1 (Forall_lookup _ _) Hfresh). }
  destruct (_calculate_quality_score_ok rating (len_str (Itin.text entry)) Hrating)
    as (total & _ & Hq).
  set (rated := <[length itineraries :=
                    Itin.set_feedback entry rating
                      (sanitize_text_input comments 1000) (round total 2)]>
                  (itineraries ++ [entry])).
  assert (record_feedback env' itin_id rating comments w1
          = (Ok tt, feedback_recorded env' itin_id rating comments rated w1))
    as Hrun.
  { rewrite (record_feedback_eq _ _ _ _ _ _ Hload).
    by rewrite (rate_first_match_at _ _ _ _ _ _ _ Hfirst Hq). }
  destruct (feedback_recorded_itineraries env' itin_id rating comments rated w1
              Hdisk') as (stored & Hstored & Hrel).
  { apply json_values_insert; [by destruct Hfirst | done]. }
  assert (length rated = S (length itineraries)) as Hlen
    by (unfold rated; rewrite length_insert, length_app; simpl; lia).
  destruct (Forall2_lookup_l _ _ _ (length itineraries)
              (Itin.set_feedback entry rating
                 (sanitize_text_input comments 1000) (round total 2)) Hrel)
    as (after & Hafter & Htrained).
  { apply list_lookup_insert_eq. rewrite length_app. simpl. lia. }
  exists itin_id, w1, (feedback_recorded env' itin_id rating comments rated w1),
    stored, after.
  split_and!; try done.
  - by rewrite <- (Forall2_length _ _ _ Hrel).
  - by destruct Htrained as [-> | [n ->]].
  - by destruct Htrained as [-> | [n ->]].
  - by destruct Htrained as [-> | [n ->]].
  - by destruct Htrained as [-> | [n ->]].
  - by destruct Htrained as [-> | [n ->]].
  - by destruct Htrained as [-> | [n ->]].
  - intros k itin Hk.
    assert (k < length itineraries)%nat as Hlt by (by eapply lookup_lt_Some).
    destruct (Forall2_lookup_l _ _ _ k itin Hrel) as (other & Hother & Hfrom).
    { unfold rated. rewrite list_lookup_insert_ne by lia.
      by rewrite lookup_app_l. }
    exists other. split; [done|].
    by destruct Hfrom as [-> | [n ->]].
Qed.

Lemma feedback_reaches_the_stored_itinerary_witness :
  ∃ itin_id w1 w2 stored after,
    store_complete_itinerary json_only "rome" 2 "Budget" ["food"] [] true true
      "" "Day 1: the Forum" three_stored
    = (Ok itin_id, w1)
    ∧ record_feedback json_only itin_id 5 " superb " w1 = (Ok tt, w2)
    ∧ itineraries_file w2 = Some stored
    ∧ length stored = 4%nat
    ∧ stored !! 3%nat = Some after
    ∧ Itin.id after = Some itin_id
    ∧ Itin.city after = Some "rome"%string
    ∧ Itin.full_itinerary after = Some "Day 1: the Forum"%string
    ∧ Itin.rated after = Some true
    ∧ Itin.rating after = Some 5
    ∧ Itin.feedback_comments after = Some (sanitize_text_input " superb " 1000)
    ∧ ∀ k itin, default [] (itineraries_file three_stored) !! k = Some itin →
        ∃ other, stored !! k = Some other
                 ∧ Itin.rating other = Itin.rating itin
                 ∧ Itin.rated other = Itin.rated itin.
Proof.
  apply (feedback_reaches_the_stored_itinerary json_only json_only three_stored
           (default [] (itineraries_file three_stored))).
  - reflexivity.
  - reflexivity.
  - reflexivity.
  - reflexivity.
  - reflexivity.
  - reflexivity.
  - repeat constructor; vm_compute; congruence.
  - vm_compute. reflexivity.
Defined.

(** ** The best-performing prompts *)

Lemma add_prompt_spec prompts itin :
  add_prompt prompts itin = prompts
  ∨ ∃ summary,
      (summary ∉ prompts)
      ∧ PromptSummary.rating summary = 5
      ∧ add_prompt prompts itin = slice_from (-10) (prompts ++ [summary]).
Proof.
  unfold add_prompt.
  destruct (Z.eqb_spec (Itin.rating_or_0 itin) 5) as [Hfive|]; [|by left].
  case_decide as Hin; [by left|]. right.
  eexists. split_and!; [exact Hin | | reflexivity].
  unfold Itin.rating_or_0 in Hfive. simpl.
  by destruct (Itin.rating itin).
Qed.

Lemma add_prompt_invariant prompts itin :
  prompts_invariant prompts → prompts_invariant (add_prompt prompts itin).
Proof.
  intros (Hdup & Hlen & Hfive).
  destruct (add_prompt_spec prompts itin) as [-> | (x & Hx & Hrating & ->)];
    [done|].
  split_and!.
  - eapply sublist_NoDup; [|apply slice_from_sublist].
    apply NoDup_app. split_and!; [done | | apply NoDup_singleton].
    intros y Hy ->%list_elem_of_singleton. done.
  - apply (slice_from_last_length 10). lia.
  - apply Forall_forall. intros y Hy.
    assert (y ∈ prompts ++ [x]) as Hin
      by (eapply elem_of_sublist; [exact Hy | apply slice_from_sublist]).
    apply elem_of_app in Hin as [Hin | ->%list_elem_of_singleton]; [|done].
    by apply (proj1 (Forall_forall _ _) Hfive).
Qed.

Lemma foldl_add_prompt_invariant prompts high_quality :
  prompts_invariant prompts →
  prompts_invariant (foldl add_prompt prompts high_quality).
Proof.
  revert prompts. induction high_quality as [|itin rest IH]; intros prompts Hinv;
    [done|].
  simpl. by apply IH, add_prompt_invariant.
Qed.

Lemma loaded_prompts env w :
  default []
    (Patterns.best_performing_prompts
       (default (_generate_initial_patterns env) (training_patterns_file w)))
  = world_prompts w.
Proof. unfold world_prompts. by destruct (training_patterns_file w). Qed.

Lemma loaded_iterations env w :
  default 0
    (Patterns.training_iterations
       (default (_generate_initial_patterns env) (training_patterns_file w)))
  = world_iterations w.
Proof. unfold world_iterations. by destruct (training_patterns_file w). Qed.

Lemma auto_trained_prompts env w :
  world_prompts (auto_trained env w) = world_prompts w
  ∨ ∃ high_quality,
      world_prompts (auto_trained env w)
      = foldl add_prompt (world_prompts w) high_quality.
Proof.
  unfold auto_trained.
  destruct (use_database env); [by left|].
  destruct (trains _); [|by left].
  destruct (disk_writable env) eqn:Hdisk;
    [|unfold saved_itineraries, saved_training_patterns; rewrite Hdisk; by left].
  right. eexists.
  unfold world_prompts at 1.
  rewrite saved_itineraries_patterns.
  unfold saved_training_patterns. rewrite Hdisk.
  unfold train. cbn. rewrite loaded_prompts. reflexivity.
Qed.

(** The list of best-performing prompts keeps its shape through any
    sequence of auto-train passes, whatever the environments: started
    without duplicates, with at most 10 summaries, all of rating 5, it has
    no duplicates, at most 10 summaries and only summaries of rating 5
    after the passes. *)
Theorem best_prompts_invariant envs w :
  prompts_invariant (world_prompts w) →
  prompts_invariant (world_prompts (passes envs w)).
Proof.
  revert w. induction envs as [|env envs IH]; intros w Hinv; [done|].
  simpl. rewrite _auto_train_eq. simpl. apply IH.
  destruct (auto_trained_prompts env w) as [-> | [hq ->]]; [done|].
  by apply foldl_add_prompt_invariant.
Qed.

Lemma best_prompts_invariant_witness :
  prompts_invariant (world_prompts (passes twenty_draws one_high_rated)).
Proof.
  apply (best_prompts_invariant twenty_draws one_high_rated).
  split_and!; vm_compute; [constructor | lia | constructor].
Defined.

Example best_prompts_after_twenty_passes :
  world_prompts (passes twenty_draws one_high_rated)
  = [ {| PromptSummary.city := "paris"; PromptSummary.days := 3;
         PromptSummary.budget := "Moderate"; PromptSummary.rating := 5;
         PromptSummary.word_count := 4 |} ].
Proof. vm_compute. reflexivity. Qed.

(** ** Training iterations and stamps *)



(** One pass that goes past its guards. *)
Lemma auto_trained_stamps env w itineraries :
  use_database env = false →
  disk_writable env = true →
  itineraries_file w = Some itineraries →
  json_values itineraries →
  (3 ≤ length itineraries)%nat →
  List.filter is_high_quality itineraries ≠ [] →
  world_iterations (auto_trained env w) = world_iterations w + 1
  ∧ itineraries_file (auto_trained env w)
    = Some (map (mark_used (world_iterations w + 1)) itineraries).
Proof.
  intros Hdb Hdisk Hfile Hjson Hlen Hhq. unfold auto_trained.
  rewrite Hdb, Hfile. simpl default.
  assert (trains itineraries = true) as ->.
  { unfold trains. apply andb_true_iff. split; [apply Z.leb_le; lia|].
    by apply bool_decide_eq_true. }
  assert (json_values (map (mark_used (world_iterations w + 1)) itineraries))
    as Hjson' by (unfold json_values; by rewrite json_values_mark_used).
  unfold train. cbn [fst snd]. rewrite loaded_iterations.
  rewrite saved_twice by done. done.
Qed.



(** ** The numbers of the statistics agree with each other *)

Lemma foldl_add_shift a l : foldl Z.add a l = a + sum l.
Proof.
  unfold sum. revert a. induction l as [|x l IH]; intros a; simpl; [lia|].
  rewrite (IH (a + x)), (IH (0 + x)). lia.
Qed.

Lemma sum_cons x l : sum (x :: l) = x + sum l.
Proof. unfold sum at 1. simpl. apply foldl_add_shift. Qed.

Lemma sum_perm l1 l2 : l1 ≡ₚ l2 → sum l1 = sum l2.
Proof.
  induction 1 as [|x l1 l2 _ IH|x y l|l1 l2 l3 _ IH1 _ IH2];
    rewrite ?sum_cons; lia.
Qed.

Lemma sum_take_le n l : Forall (λ x, 0 ≤ x) l → sum (take n l) ≤ sum l.
Proof.
  intros Hl. revert n. induction Hl as [|x l Hx Hl IH]; intros [|n]; simpl;
    rewrite ?sum_cons; try done.
  - unfold sum at 1. simpl.
    assert (0 ≤ sum l); [|lia].
    clear IH. induction Hl as [|y l Hy _ IH]; [done|]. rewrite sum_cons. lia.
  - specialize (IH n). lia.
Qed.

Lemma total_count_count_rating rating_dist rating :
  total_count (count_rating rating_dist rating) = total_count rating_dist + 1.
Proof.
  unfold total_count, count_rating.
  destruct (rating_dist !! rating) as [count|] eqn:Hlookup; simpl.
  - rewrite <- insert_delete_eq.
    rewrite map_fold_insert_L; [|intros; lia|apply lookup_delete_eq].
    rewrite (map_fold_delete_L _ _ rating count rating_dist); [lia | intros; lia | done].
  - rewrite map_fold_insert_L; [lia | intros; lia | done].
Qed.

Lemma total_count_foldl ratings rating_dist :
  total_count (foldl count_rating rating_dist ratings)
  = total_count rating_dist + Z.of_nat (length ratings).
Proof.
  revert rating_dist. induction ratings as [|r rest IH]; intros rating_dist; simpl;
    [lia|].
  rewrite IH, total_count_count_rating. lia.
Qed.

Lemma length_ratings_of_rated itineraries :
  length (ratings_of (List.filter is_rated itineraries))
  = length (List.filter is_rated itineraries).
Proof.
  unfold ratings_of.
  induction itineraries as [|itin rest IH]; simpl; [done|].
  destruct (is_rated itin) eqn:Hrated; simpl; [|done].
  unfold is_rated, Itin.rating_or_0 in Hrated.
  apply andb_true_iff in Hrated as [_ Hpos]. apply Z.ltb_lt in Hpos.
  destruct (Itin.rating itin) as [r|]; simpl in *; [|lia].
  destruct (Z.eqb_spec r 0); [lia|]. simpl. by rewrite IH.
Qed.

Lemma occurrences_cons city c cities :
  occurrences city (c :: cities)
  = (if decide (c = city) then 1 else 0) + occurrences city cities.
Proof.
  unfold occurrences. rewrite filter_cons. case_decide; simpl length; lia.
Qed.

(** Each record is counted under one destination. *)
Lemma sum_occurrences keys cities :
  NoDup keys → (∀ c, c ∈ cities → c ∈ keys) →
  sum ((λ c, occurrences c cities) <$> keys) = Z.of_nat (length cities).
Proof.
  intros Hkeys. induction cities as [|c cities IH]; intros Hin.
  - clear Hin Hkeys. induction keys as [|k keys IH]; [done|].
    rewrite fmap_cons, sum_cons, IH. unfold occurrences. by rewrite filter_nil.
  - assert (c ∈ keys) as Hc by (apply Hin; left).
    assert (sum ((λ k, occurrences k (c :: cities)) <$> keys)
            = 1 + sum ((λ k, occurrences k cities) <$> keys)) as ->.
    { clear IH Hin. induction Hkeys as [|k keys Hk Hkeys IH].
      - by apply elem_of_nil in Hc.
      - rewrite !fmap_cons, !sum_cons.
        destruct (decide (c = k)) as [->|Hne].
        + rewrite occurrences_cons, decide_True by done.
          rewrite (list_fmap_ext (λ x, occurrences x (k :: cities))
                     (λ x, occurrences x cities) keys); [lia|].
          intros i k' Hk'. rewrite occurrences_cons.
          rewrite decide_False; [lia|].
          intros ->. apply Hk. by eapply list_elem_of_lookup_2.
        + rewrite occurrences_cons, decide_False by done.
          rewrite IH; [lia|].
          by apply elem_of_cons in Hc as [?|?]. }
    rewrite IH; [simpl length; lia|].
    intros k Hk. apply Hin. by right.
Qed.

Lemma sum_count_table cities :
  sum (count_table cities).*2 = Z.of_nat (length cities).
Proof.
  unfold count_table.
  change (map ?f ?l) with (f <$> l). rewrite <- list_fmap_compose.
  apply sum_occurrences; [apply keep_first_NoDup|].
  intros c Hc. by apply elem_of_keep_first.
Qed.

Lemma count_table_nonnegative cities :
  Forall (λ x, 0 ≤ x) (count_table cities).*2.
Proof.
  apply Forall_forall. intros x Hx.
  apply list_elem_of_fmap in Hx as ([c n] & -> & Hx).
  unfold count_table in Hx. apply list_elem_of_fmap in Hx as (c' & [= -> ->] & _).
  unfold occurrences. simpl. lia.
Qed.

(** The numbers of [get_statistics], on the scan of the flat files, agree
    with each other whenever the call returns, which it does exactly when
    the two averages are within the float range (otherwise it raises
    OverflowError): the rated itineraries are at most the itineraries,
    the counts of the rating distribution add up to the rated
    itineraries, and the top destinations are at most five, whose counts
    add up to at most the number of itineraries.  When no itinerary can
    be read, every number is 0, the feedback count and the training
    iterations included, whatever the other two files hold; otherwise
    the feedback count is the length of the feedback file.  The
    destinations are the titles of city names whose title is a string
    below code point 256. *)
Theorem statistics_are_consistent env w :
  use_database env = false →
  names_within_range (default [] (itineraries_file w)) →
  (averages_in_range (default [] (itineraries_file w)) →
   ∃ stats,
     get_statistics env w = (Ok stats, w)
     ∧ Stats.total_itineraries stats
       = Z.of_nat (length (default [] (itineraries_file w)))
     ∧ Stats.total_database_size stats = Stats.total_itineraries stats
     ∧ 0 ≤ Stats.rated_itineraries stats ≤ Stats.total_itineraries stats
     ∧ total_count (Stats.rating_distribution stats) = Stats.rated_itineraries stats
     ∧ (length (Stats.top_cities stats) ≤ 5)%nat
     ∧ sum (Stats.top_cities stats).*2 ≤ Stats.total_itineraries stats
     ∧ (default [] (itineraries_file w) = [] →
        Stats.total_feedback stats = 0 ∧ Stats.training_iterations stats = 0)
     ∧ (default [] (itineraries_file w) ≠ [] →
        Stats.total_feedback stats
        = Z.of_nat (length (default [] (feedback_file w)))))
  ∧ (¬ averages_in_range (default [] (itineraries_file w)) →
     get_statistics env w = (Raise OverflowError, w)).
Proof.
  intros Hdb _. rewrite (get_statistics_flat_file _ _ Hdb).
  split; [|intros Hout; by rewrite scan_statistics_overflow].
  intros Hrange.
  destruct (scan_statistics_ok _ (default [] (feedback_file w))
              (default (_generate_initial_patterns env) (training_patterns_file w))
              Hrange) as [stats Hscan].
  exists stats. rewrite Hscan. split; [done|].
  pose proof (scan_top_cities _ _ _ _ Hscan) as Htop.
  destruct (scan_statistics_fields _ _ _ _ Hscan)
    as (Htotal & Hsize & Hrated & Hdist & _ & Hfeedback & Hiterations).
  set (itineraries := default [] (itineraries_file w)) in *.
  split_and!.
  - done.
  - by rewrite Hsize, Htotal.
  - lia.
  - rewrite Htotal, Hrated.
    pose proof (filter_length is_rated itineraries). lia.
  - rewrite Hdist, Hrated, total_count_foldl. unfold rated_ratings.
    rewrite length_ratings_of_rated. done.
  - rewrite Htop, length_take. lia.
  - rewrite Htop, Htotal, fmap_take.
    etrans; [apply sum_take_le|].
    + apply Forall_forall. intros x Hx.
      rewrite sorted_by_count_desc_perm in Hx.
      by apply (proj1 (Forall_forall _ _)
                  (count_table_nonnegative (destinations itineraries))).
    + rewrite (sum_perm _ (count_table (destinations itineraries)).*2)
        by (apply fmap_Permutation, sorted_by_count_desc_perm).
      rewrite sum_count_table. unfold destinations. by rewrite length_map.
  - intros Hnone. by rewrite Hnone in Hfeedback, Hiterations.
  - intros Hsome. by destruct itineraries.
Qed.

Lemma statistics_are_consistent_witness :
  averages_in_range (default [] (itineraries_file one_rated_one_not))
  ∧ ∃ stats,
      get_statistics json_only one_rated_one_not = (Ok stats, one_rated_one_not)
      ∧ Stats.total_itineraries stats
        = Z.of_nat (length (default [] (itineraries_file one_rated_one_not)))
      ∧ Stats.total_database_size stats = Stats.total_itineraries stats
      ∧ 0 ≤ Stats.rated_itineraries stats ≤ Stats.total_itineraries stats
      ∧ total_count (Stats.rating_distribution stats) = Stats.rated_itineraries stats
      ∧ (length (Stats.top_cities stats) ≤ 5)%nat
      ∧ sum (Stats.top_cities stats).*2 ≤ Stats.total_itineraries stats
      ∧ (default [] (itineraries_file one_rated_one_not) = [] →
         Stats.total_feedback stats = 0 ∧ Stats.training_iterations stats = 0)
      ∧ (default [] (itineraries_file one_rated_one_not) ≠ [] →
         Stats.total_feedback stats
         = Z.of_nat (length (default [] (feedback_file one_rated_one_not)))).
Proof.
  assert (averages_in_range (default [] (itineraries_file one_rated_one_not)))
    as Hrange by (split; right; vm_compute; reflexivity).
  split; [exact Hrange|].
  apply (statistics_are_consistent json_only one_rated_one_not);
    [reflexivity | | exact Hrange].
  apply (bool_decide_unpack _). vm_compute. exact I.
Defined.

(** ** Strings *)

Lemma chars_app s1 s2 : chars (s1 ++ s2) = chars s1 ++ chars s2.
Proof. induction s1 as [|c s1 IH]; simpl; [done|]. by rewrite IH. Qed.

Lemma chars_inj s1 s2 : chars s1 = chars s2 → s1 = s2.
Proof.
  intros Heq. rewrite <- (string_of_list_ascii_of_string s1),
    <- (string_of_list_ascii_of_string s2). unfold chars in Heq. by rewrite Heq.
Qed.

Lemma len_str_chars s : len_str s = Z.of_nat (length (chars s)).
Proof. unfold len_str. f_equal. induction s; simpl; [done|]. by f_equal. Qed.

Lemma chars_substring n s : chars (String.substring 0 n s) = take n (chars s).
Proof.
  revert s. induction n as [|n IH]; intros [|c s]; simpl; try done.
  by rewrite IH.
Qed.

Lemma chars_str_prefix n s : chars (str_prefix n s) = take (Z.to_nat n) (chars s).
Proof. apply chars_substring. Qed.

Lemma chars_rev_app s1 s2 :
  chars (String.rev_app s1 s2) = rev (chars s1) ++ chars s2.
Proof.
  revert s2. induction s1 as [|c s1 IH]; intros s2; simpl; [done|].
  rewrite IH. simpl. by rewrite <- app_assoc.
Qed.

Lemma chars_rev s : chars (String.rev s) = rev (chars s).
Proof. unfold String.rev. rewrite chars_rev_app. simpl. by rewrite app_nil_r. Qed.

Lemma chars_lstrip s : chars (lstrip s) = lstrip_chars (chars s).
Proof. induction s as [|c s IH]; simpl; [done|]. by destruct (is_space c). Qed.

Lemma chars_strip s :
  chars (strip s) = rev (lstrip_chars (rev (lstrip_chars (chars s)))).
Proof. unfold strip. by rewrite chars_rev, chars_lstrip, chars_rev, chars_lstrip. Qed.

Lemma lstrip_chars_spec l :
  ∃ blanks, l = blanks ++ lstrip_chars l
            ∧ Forall (λ c, is_space c = true) blanks
            ∧ (∀ c rest, lstrip_chars l = c :: rest → is_space c = false).
Proof.
  induction l as [|c l (blanks & Hl & Hblanks & Hhead)]; simpl.
  - exists []. split_and!; [done | done | done].
  - destruct (is_space c) eqn:Hc.
    + exists (c :: blanks). split_and!; [simpl; by f_equal | by constructor | done].
    + exists []. split_and!; [done | done |]. by intros ? ? [= <- _].
Qed.

(** [strip] removes blanks at both ends and nothing else; what is left
    neither begins nor ends with a blank. *)
Lemma strip_spec s :
  ∃ before after,
    chars s = before ++ chars (strip s) ++ after
    ∧ Forall (λ c, is_space c = true) before
    ∧ Forall (λ c, is_space c = true) after
    ∧ (∀ c rest, chars (strip s) = c :: rest → is_space c = false)
    ∧ (∀ c rest, chars (strip s) = rest ++ [c] → is_space c = false).
Proof.
  rewrite chars_strip.
  destruct (lstrip_chars_spec (chars s)) as (before & Hs & Hbefore & Hhead).
  destruct (lstrip_chars_spec (rev (lstrip_chars (chars s))))
    as (after & Hr & Hafter & Hlast).
  exists before, (rev after). split_and!.
  - rewrite Hs at 1. f_equal.
    rewrite <- (rev_involutive (lstrip_chars (chars s))) at 1.
    rewrite Hr at 1. by rewrite rev_app_distr.
  - done.
  - by apply Forall_rev.
  - intros c rest Hstrip.
    destruct (lstrip_chars (chars s)) as [|c0 l0] eqn:Hl0.
    { simpl in Hstrip. done. }
    assert (rev (c0 :: l0) = after ++ lstrip_chars (rev (c0 :: l0))) as Hr' by done.
    apply (f_equal (@rev ascii)) in Hr'.
    rewrite rev_involutive, rev_app_distr, Hstrip in Hr'.
    injection Hr' as <- _. by apply (Hhead c0 l0).
  - intros c rest Hstrip.
    apply (f_equal (@rev ascii)) in Hstrip.
    rewrite rev_involutive, rev_app_distr in Hstrip. simpl in Hstrip.
    by apply (Hlast c (rev rest)).
Qed.

(** ** Sanitized inputs *)

(** [sanitize_text_input], for a limit that is not negative: the result
    has at most [max_length] characters, is a prefix of the stripped
    text and does not begin with a blank.  When the stripped text fits
    the limit the result is the stripped text, which does not end with a
    blank either; a text cut at the limit may end with one. *)
Theorem sanitize_text_input_bounds text max_length :
  0 ≤ max_length →
  len_str (sanitize_text_input text max_length) ≤ max_length
  ∧ (∃ rest, strip text = (sanitize_text_input text max_length ++ rest)%string)
  ∧ (∀ c rest, chars (sanitize_text_input text max_length) = c :: rest →
               is_space c = false)
  ∧ (len_str (strip text) ≤ max_length →
     sanitize_text_input text max_length = strip text
     ∧ ∀ c rest, chars (sanitize_text_input text max_length) = rest ++ [c] →
                 is_space c = false).
Proof.
  intros Hmax. unfold sanitize_text_input.
  destruct (strip_spec text) as (before & after & _ & _ & _ & Hfirst & Hlast).
  case_decide as Hempty.
  - subst text. split_and!; [unfold len_str; simpl; lia | by exists ""%string | done |].
    intros _. split; [done|]. by intros c [|] ?.
  - split_and!.
    + rewrite len_str_chars, chars_str_prefix, length_take. lia.
    + exists (string_of_list_ascii (drop (Z.to_nat max_length) (chars (strip text)))).
      apply chars_inj. rewrite chars_app, chars_str_prefix.
      unfold chars at 4. rewrite list_ascii_of_string_of_list_ascii.
      by rewrite take_drop.
    + intros c rest. rewrite chars_str_prefix. intros Htake.
      destruct (chars (strip text)) as [|c0 l0] eqn:Hstrip.
      { by rewrite take_nil in Htake. }
      destruct (Z.to_nat max_length); [done|].
      injection Htake as <- _. by apply (Hfirst c0 l0).
    + intros Hlen.
      assert (str_prefix max_length (strip text) = strip text) as ->.
      { apply chars_inj. rewrite chars_str_prefix. apply take_ge.
        rewrite len_str_chars in Hlen. lia. }
      done.
Qed.

Lemma sanitize_text_input_bounds_witness :
  len_str (sanitize_text_input "  well done  " 1000) ≤ 1000
  ∧ (∃ rest, strip "  well done  "
             = (sanitize_text_input "  well done  " 1000 ++ rest)%string)
  ∧ (∀ c rest, chars (sanitize_text_input "  well done  " 1000) = c :: rest →
               is_space c = false)
  ∧ (len_str (strip "  well done  ") ≤ 1000 →
     sanitize_text_input "  well done  " 1000 = strip "  well done  "
     ∧ ∀ c rest, chars (sanitize_text_input "  well done  " 1000) = rest ++ [c] →
                 is_space c = false).
Proof. apply (sanitize_text_input_bounds "  well done  " 1000). lia. Defined.

(** A text cut at the limit can end with a blank. *)
Example sanitize_text_input_examples :
  sanitize_text_input "  well done  " 1000 = "well done"%string
  ∧ sanitize_text_input "well done" 5 = "well "%string.
Proof. split; vm_compute; reflexivity. Qed.

Lemma chars_keep_city_chars s :
  chars (keep_city_chars s) = List.filter is_city_char (chars s).
Proof.
  induction s as [|c s IH]; simpl; [done|].
  destruct (is_city_char c); simpl; by rewrite ?IH.
Qed.

Lemma strip_sublist s : chars (strip s) `sublist_of` chars s.
Proof.
  destruct (strip_spec s) as (before & after & Hs & _).
  rewrite Hs. apply sublist_inserts_l, sublist_inserts_r. done.
Qed.

Lemma list_filter_sublist {A} (f : A → bool) (l : list A) :
  List.filter f l `sublist_of` l.
Proof.
  induction l as [|x l IH]; simpl; [done|].
  destruct (f x); [by apply sublist_skip | by apply sublist_cons].
Qed.

Lemma list_filter_Forall {A} (f : A → bool) (l : list A) :
  Forall (λ x, f x = true) (List.filter f l).
Proof.
  induction l as [|x l IH]; simpl; [done|].
  destruct (f x) eqn:Hx; [by constructor | done].
Qed.

Lemma sanitize_city_input_allowed city max_length :
  Forall (λ c, is_city_char c = true)
         (chars (sanitize_city_input city max_length)).
Proof.
  unfold sanitize_city_input. case_decide; [done|].
  rewrite chars_str_prefix, chars_keep_city_chars.
  apply Forall_take, list_filter_Forall.
Qed.

(** [sanitize_city_input], for a limit that is not negative: the result
    has at most [max_length] characters, each of them a letter of a-z or
    A-Z, a blank or a hyphen, and they are characters of the input, in
    their order.  (The input is stripped before the other characters are
    removed, so the result can still begin or end with a blank.) *)
Theorem sanitize_city_input_chars city max_length :
  0 ≤ max_length →
  len_str (sanitize_city_input city max_length) ≤ max_length
  ∧ Forall (λ c, is_city_char c = true)
           (chars (sanitize_city_input city max_length))
  ∧ chars (sanitize_city_input city max_length) `sublist_of` chars city.
Proof.
  intros Hmax. split_and!; [| apply sanitize_city_input_allowed |].
  - unfold sanitize_city_input. case_decide as Hempty.
    + unfold len_str. simpl. lia.
    + rewrite len_str_chars, chars_str_prefix, length_take. lia.
  - unfold sanitize_city_input. case_decide as Hempty; [apply sublist_nil_l|].
    rewrite chars_str_prefix, chars_keep_city_chars.
    etrans; [apply sublist_take|].
    etrans; [apply list_filter_sublist | apply strip_sublist].
Qed.

Lemma sanitize_city_input_chars_witness :
  len_str (sanitize_city_input "  St-Denis 93! " 50) ≤ 50
  ∧ Forall (λ c, is_city_char c = true)
           (chars (sanitize_city_input "  St-Denis 93! " 50))
  ∧ chars (sanitize_city_input "  St-Denis 93! " 50)
    `sublist_of` chars "  St-Denis 93! ".
Proof. apply (sanitize_city_input_chars "  St-Denis 93! " 50). lia. Defined.

Example sanitize_city_input_examples :
  sanitize_city_input "  St-Denis 93! " 50 = "St-Denis "%string
  ∧ sanitize_city_input "1 Paris" 50 = " Paris"%string
  ∧ sanitize_city_input "2024" 50 = ""%string.
Proof. split_and!; vm_compute; reflexivity. Qed.

(** ** The map link *)

Lemma chars_str_replace old new s :
  chars (str_replace old new s)
  = flat_map (λ c, if decide (c = old) then chars new else [c]) (chars s).
Proof.
  induction s as [|c s IH]; simpl; [done|].
  case_decide; simpl; [rewrite chars_app|]; by rewrite IH.
Qed.

Lemma str_replace_char_inj old new s1 s2 :
  new ∉ chars s1 → new ∉ chars s2 →
  str_replace old (String new EmptyString) s1
  = str_replace old (String new EmptyString) s2 →
  s1 = s2.
Proof.
  revert s2. induction s1 as [|c1 s1 IH]; intros [|c2 s2] Hs1 Hs2 Heq; simpl in *;
    try done.
  - by case_decide.
  - by case_decide.
  - apply not_elem_of_cons in Hs1 as [Hc1 Hs1].
    apply not_elem_of_cons in Hs2 as [Hc2 Hs2].
    change (String new "" +:+ ?x)%string with (String new x) in Heq.
    repeat case_decide; simplify_eq/=; try done; f_equal; by apply IH.
Qed.

(** The map link holds no space: each one is replaced by a plus sign,
    and no other character is changed or encoded.  On sanitized city
    names, which hold no plus sign, the link determines the name; in
    general it does not. *)
Theorem maps_link_of_a_sanitized_city city a b max_length :
  (" "%char ∉ chars (create_google_maps_link city))
  ∧ (create_google_maps_link (sanitize_city_input a max_length)
     = create_google_maps_link (sanitize_city_input b max_length) →
     sanitize_city_input a max_length = sanitize_city_input b max_length).
Proof.
  split.
  - unfold create_google_maps_link. rewrite chars_app, chars_str_replace.
    intros [Hin|Hin]%elem_of_app.
    + vm_compute in Hin.
      repeat (apply elem_of_cons in Hin as [Hin|Hin]; [done|]).
      by apply elem_of_nil in Hin.
    + apply list_elem_of_In, in_flat_map in Hin as (c & _ & Hin).
      case_decide as Hc; apply list_elem_of_In in Hin.
      * by apply list_elem_of_singleton in Hin.
      * apply list_elem_of_singleton in Hin. by subst.
  - unfold create_google_maps_link. intros Heq%String.app_inj.
    assert (∀ name, "+"%char ∉ chars (sanitize_city_input name max_length))
      as Hplus.
    { intros name Hin.
      by apply (proj1 (Forall_forall _ _)
                  (sanitize_city_input_allowed name max_length)) in Hin. }
    by apply (str_replace_char_inj " " "+").
Qed.

Example maps_link_examples :
  create_google_maps_link "New  York"
  = "https://www.google.com/maps/search/?api=1&query=New++York"%string
  ∧ create_google_maps_link "a b" = create_google_maps_link "a+b".
Proof. split; vm_compute; reflexivity. Qed.

(** ** Escaping for the PDF *)

Lemma str_replace_app old new s1 s2 :
  str_replace old new (s1 ++ s2)
  = (str_replace old new s1 ++ str_replace old new s2)%string.
Proof.
  induction s1 as [|c s1 IH]; simpl; [done|].
  case_decide; rewrite IH; [|done].
  apply chars_inj. by rewrite !chars_app, app_assoc.
Qed.

Lemma safe_line_cons c line :
  safe_line (String c line) = (escaped c ++ safe_line line)%string.
Proof.
  unfold safe_line, escaped. simpl.
  destruct (decide (c = "&"%char)) as [->|Hamp].
  - by rewrite !str_replace_app.
  - simpl. destruct (decide (c = "<"%char)) as [->|Hlt].
    + by rewrite !str_replace_app.
    + simpl. by destruct (decide (c = ">"%char)) as [->|Hgt].
Qed.

Lemma escaped_head c :
  ∃ tail, escaped c = String (if decide (c = "<"%char) then "&"%char
                              else if decide (c = ">"%char) then "&"%char
                              else c) tail.
Proof. unfold escaped. repeat case_decide; subst; eauto. Qed.

Lemma safe_line_inj line1 line2 : safe_line line1 = safe_line line2 → line1 = line2.
Proof.
  revert line2. induction line1 as [|c1 line1 IH]; intros [|c2 line2] Heq.
  - done.
  - rewrite safe_line_cons in Heq. destruct (escaped_head c2) as [t Ht].
    rewrite Ht in Heq. done.
  - rewrite safe_line_cons in Heq. destruct (escaped_head c1) as [t Ht].
    rewrite Ht in Heq. done.
  - rewrite !safe_line_cons in Heq. unfold escaped in Heq.
    repeat case_decide; subst; simplify_eq/=; try done;
      f_equal; by apply IH.
Qed.

Lemma safe_line_no_markup line :
  ("<"%char ∉ chars (safe_line line)) ∧ (">"%char ∉ chars (safe_line line)).
Proof.
  induction line as [|c line [IHlt IHgt]]; [split; by intros ?%elem_of_nil|].
  rewrite safe_line_cons, chars_app. unfold escaped.
  split; intros Hin; apply elem_of_app in Hin as [Hin|Hin]; try done;
    repeat case_decide; subst; simpl in Hin;
    repeat (apply elem_of_cons in Hin as [Hin|Hin]; [by simplify_eq|]);
    by apply elem_of_nil in Hin.
Qed.

(** ** Interests, costs and the planner *)

(** The escaping of a line for the PDF leaves no angle bracket in it,
    and loses nothing: two lines that are escaped to the same text are
    the same line. *)
Theorem safe_line_escapes line other_line :
  ("<"%char ∉ chars (safe_line line))
  ∧ (">"%char ∉ chars (safe_line line))
  ∧ (safe_line line = safe_line other_line → line = other_line).
Proof.
  destruct (safe_line_no_markup line) as [Hlt Hgt].
  split_and!; [done | done | apply safe_line_inj].
Qed.

Example safe_line_example :
  safe_line "Tom & Jerry <b>" = "Tom &amp; Jerry &lt;b&gt;"%string.
Proof. vm_compute. reflexivity. Qed.

Lemma str_split_nonempty sep s : str_split sep s ≠ [].
Proof. induction s as [|c s IH]; simpl; [done|]. case_decide; [done|]. by destruct (str_split sep s). Qed.

Lemma str_split_no_separator sep s :
  Forall (λ part, sep ∉ chars part) (str_split sep s).
Proof.
  induction s as [|c s IH]; simpl.
  - constructor; [|done]. by intros ?%elem_of_nil.
  - case_decide as Hc.
    + constructor; [|done]. by intros ?%elem_of_nil.
    + destruct (str_split sep s) as [|first others] eqn:Hsplit.
      * constructor; [|done]. simpl.
        intros [->|?%elem_of_nil]%elem_of_cons; done.
      * apply Forall_cons in IH as [Hfirst Hothers].
        constructor; [|done]. simpl.
        intros [->|Hin]%elem_of_cons; done.
Qed.

Lemma strip_no_separator sep s : sep ∉ chars s → sep ∉ chars (strip s).
Proof.
  intros Hs Hin. apply Hs. eapply elem_of_sublist; [exact Hin | apply strip_sublist].
Qed.

(** The parsed interests: no entry is empty, begins or ends with a blank,
    or holds a comma; an empty field gives the single entry Everything.
    (A field of blanks and commas only gives no entry at all.) *)
Theorem interests_list_entries interests :
  Forall (λ interest,
            interest ≠ ""%string
            ∧ (","%char ∉ chars interest)
            ∧ (∀ c rest, chars interest = c :: rest → is_space c = false)
            ∧ (∀ c rest, chars interest = rest ++ [c] → is_space c = false))
         (interests_list interests)
  ∧ (interests = ""%string → interests_list interests = ["Everything"%string]).
Proof.
  unfold interests_list. split; [|intros ->; done].
  case_decide as Hempty.
  - constructor; [|done]. split_and!.
    + done.
    + vm_compute. intros Hin.
      repeat (apply elem_of_cons in Hin as [Hin|Hin]; [done|]).
      by apply elem_of_nil in Hin.
    + intros c rest [= <- _]. done.
    + intros c rest Hrest.
      assert (rev (chars "Everything") = rev (rest ++ [c])) as Hrev by (by f_equal).
      rewrite rev_app_distr in Hrev. by injection Hrev as <- _.
  - apply Forall_fmap, Forall_forall. intros part Hin.
    apply list_elem_of_In, filter_In in Hin as [Hin Hkeep].
    apply list_elem_of_In in Hin.
    apply negb_true_iff, bool_decide_eq_false in Hkeep.
    destruct (strip_spec part) as (before & after & _ & _ & _ & Hfirst & Hlast).
    simpl. split_and!; [done | | done | done].
    apply strip_no_separator.
    by apply (proj1 (Forall_forall _ _) (str_split_no_separator "," interests)).
Qed.

Example interests_list_examples :
  interests_list " museums, street food ,,jazz " = ["museums"; "street food"; "jazz"]%string
  ∧ interests_list " , " = [].
Proof. split; vm_compute; reflexivity. Qed.

(** The cost estimate takes no account of the destination; for each
    budget category the total is the daily amount times the number of
    days, with daily amounts of 75, 175 and 430. *)
Theorem estimate_trip_cost_scales city other_city days :
  estimate_trip_cost city days = estimate_trip_cost other_city days
  ∧ map (λ entry, (entry.1, Estimate.daily entry.2, Estimate.total entry.2))
        (estimate_trip_cost city days)
    = [ ("budget"%string, 75, 75 * days);
        ("moderate"%string, 175, 175 * days);
        ("luxury"%string, 430, 430 * days) ]
  ∧ Forall (λ entry, Estimate.daily entry.2 = sum (Estimate.breakdown entry.2).*2)
           (estimate_trip_cost city days).
Proof. split_and!; [reflexivity | reflexivity | repeat constructor]. Qed.

(** A planner is constructed exactly when the API key is set and not
    empty, and otherwise the construction raises ValueError; it plans for
    1 to 30 days: the number asked for when that lies in the range, 1
    below it and 30 above it.  [create_itinerary] returns exactly when
    the client answers and the stripped completion has at least 100
    characters; what it returns is that stripped completion, which
    neither begins nor ends with a blank; in every other case it raises
    RuntimeError. *)
Theorem planner_returns_only_long_itineraries api_key city interests trip_days
    budget completion :
  match TravelPlanner.__init__ api_key city interests trip_days budget with
  | inl self =>
      (∃ key, api_key = Some key ∧ key ≠ ""%string)
      ∧ TravelPlanner.city self = city
      ∧ TravelPlanner.budget self = budget
      ∧ 1 ≤ TravelPlanner.trip_days self ≤ 30
      ∧ (1 ≤ trip_days ≤ 30 → TravelPlanner.trip_days self = trip_days)
      ∧ (trip_days < 1 → TravelPlanner.trip_days self = 1)
      ∧ (30 < trip_days → TravelPlanner.trip_days self = 30)
  | inr e => e = TravelPlanner.ValueError
             ∧ (api_key = None ∨ api_key = Some ""%string)
  end
  ∧ ∀ self,
      match TravelPlanner.create_itinerary self completion with
      | inl itinerary =>
          (∃ content, completion = Some content ∧ itinerary = strip content)
          ∧ 100 ≤ len_str itinerary
          ∧ (∀ c rest, chars itinerary = c :: rest → is_space c = false)
          ∧ (∀ c rest, chars itinerary = rest ++ [c] → is_space c = false)
      | inr e =>
          e = TravelPlanner.RuntimeError
          ∧ (completion = None
             ∨ ∃ content, completion = Some content ∧ len_str (strip content) < 100)
      end.
Proof.
  unfold TravelPlanner.__init__, TravelPlanner.create_itinerary. split.
  - destruct api_key as [key|]; [|by split; [|left]].
    case_decide as Hkey; [subst key; by split; [|right]|].
    cbn [TravelPlanner.trip_days TravelPlanner.city TravelPlanner.budget].
    split_and!; [by exists key | done | done | lia..].
  - intros self. destruct completion as [content|]; [|by split; [|left]].
    destruct (bool_decide _ || _) eqn:Hshort.
    + split; [done|]. right. exists content. split; [done|].
      apply orb_true_iff in Hshort as [Hempty%bool_decide_eq_true | Hlen%Z.ltb_lt];
        [|done].
      rewrite Hempty. unfold len_str. simpl. lia.
    + apply orb_false_iff in Hshort as [_ Hlen%Z.ltb_ge].
      destruct (strip_spec content) as (before & after & _ & _ & _ & Hfirst & Hlast).
      split_and!; [by exists content | done | done | done].
Qed.

(** Seven days are planned as seven and forty-five as thirty; without a
    key there is no planner; a completion of 120 characters between
    blanks is returned without the blanks, and one of two words is
    refused. *)
Example planner_examples :
  (TravelPlanner.trip_days
     <$> match TravelPlanner.__init__ (Some "gsk_key") "paris" ["food"] 7 "Budget"
         with inl self => Some self | inr _ => None end)%string
  = Some 7
  ∧ (TravelPlanner.trip_days
       <$> match TravelPlanner.__init__ (Some "gsk_key") "paris" ["food"] 45 "Budget"
           with inl self => Some self | inr _ => None end)%string
    = Some 30
  ∧ TravelPlanner.__init__ None "paris" ["food"%string] 7 "Budget"
    = inr TravelPlanner.ValueError
  ∧ TravelPlanner.create_itinerary (TravelPlanner.mk "paris" ["food"%string] 7 "Budget")
      (Some long_completion)
    = inl (string_of_list_ascii (repeat "a"%char 120))
  ∧ TravelPlanner.create_itinerary (TravelPlanner.mk "paris" ["food"%string] 7 "Budget")
      (Some " Day 1 "%string)
    = inr TravelPlanner.RuntimeError
  ∧ TravelPlanner.create_itinerary (TravelPlanner.mk "paris" ["food"%string] 7 "Budget")
      None
    = inr TravelPlanner.RuntimeError.
Proof. split_and!; vm_compute; reflexivity. Qed.

(** ** Start-up *)

Lemma serializable_fix_old itin :
  Itin.serializable (fix_old itin) = Itin.serializable itin.
Proof. done. Qed.

Lemma json_values_fix_old data :
  forallb Itin.serializable (map fix_old data) = forallb Itin.serializable data.
Proof. induction data as [|itin rest IH]; simpl; [done|]. by rewrite IH. Qed.

Lemma needs_fix_false data :
  needs_fix data = false ↔ Forall (λ itin, Itin.rating itin ≠ None) data.
Proof.
  unfold needs_fix. induction data as [|itin rest IH]; simpl.
  - split; [by constructor | done].
  - rewrite orb_false_iff, IH, Forall_cons, bool_decide_eq_false. done.
Qed.

Lemma _fix_old_data_eq env w :
  _fix_old_data env w
  = (Ok tt,
     match itineraries_file w with
     | Some data =>
         if needs_fix data then saved_itineraries env (map fix_old data) w else w
     | None => w
     end).
Proof.
  unfold _fix_old_data, saved_itineraries. unfold_M.
  destruct (itineraries_file w) as [data|]; [|done].
  destruct (needs_fix data); [|done].
  by destruct (disk_writable env), (forallb Itin.serializable (map fix_old data)).
Qed.

(** [_fix_old_data] never raises, whatever the file and the disk are
    like: a file that cannot be read, and a disk that cannot be written,
    leave everything as it is, for the failure is caught; so does a file
    in which every record has a rating.  Over a readable file of JSON
    records with a rating missing, on a writable disk, every stored
    record carries a rating afterwards: a missing rating has become 0,
    and the other ratings, the ids and the order of the records are as
    before; missing comments and scores are repaired along with them.  A
    record that is not a JSON value breaks the write off, and the
    unreadable file is what is left. *)
Theorem fix_old_data_repairs_ratings env w :
  ∃ w',
    _fix_old_data env w = (Ok tt, w')
    ∧ (itineraries_file w = None → w' = w)
    ∧ (disk_writable env = false → w' = w)
    ∧ (Forall (λ itin, Itin.rating itin ≠ None) (default [] (itineraries_file w)) →
       w' = w)
    ∧ ∀ data,
        itineraries_file w = Some data →
        disk_writable env = true →
        Exists (λ itin, Itin.rating itin = None) data →
        (json_values data →
         ∃ stored,
           w' = put_itineraries stored w
           ∧ map Itin.id stored = map Itin.id data
           ∧ map Itin.rating stored
             = map (λ itin, Some (default 0 (Itin.rating itin))) data
           ∧ Forall (λ itin, Itin.feedback_comments itin ≠ None
                             ∧ Itin.quality_score itin ≠ None) stored)
        ∧ (¬ json_values data → w' = spoil_itineraries w).
Proof.
  rewrite _fix_old_data_eq. eexists. split; [reflexivity|].
  split_and!.
  - by intros ->.
  - intros Hdisk. unfold saved_itineraries. rewrite Hdisk. by repeat case_match.
  - intros Hall. destruct (itineraries_file w) as [data|]; [|done].
    simpl in Hall. apply needs_fix_false in Hall. by rewrite Hall.
  - intros data -> Hdisk Hmissing.
    assert (needs_fix data = true) as ->.
    { destruct (needs_fix data) eqn:Hfix; [done|].
      apply needs_fix_false in Hfix.
      apply Exists_exists in Hmissing as (itin & Hin & Hnone).
      by apply (proj1 (Forall_forall _ _) Hfix) in Hin. }
    unfold saved_itineraries. rewrite Hdisk, json_values_fix_old. split.
    + intros Hjson. rewrite Hjson. exists (map fix_old data).
      split_and!; [done | | |].
      * rewrite <- !list_fmap_compose. done.
      * rewrite <- !list_fmap_compose. done.
      * apply Forall_fmap, Forall_forall. by intros itin _.
    + intros Hjson. unfold json_values in Hjson.
      by destruct (forallb Itin.serializable data).
Qed.

(** A record without a rating beside one with a rating: the first is
    repaired, the second is as before; and a file that cannot be read is
    no failure. *)
Example old_store_repaired :
  (_fix_old_data json_only old_store).1 = Ok tt
  ∧ map Itin.rating
      (default [] (itineraries_file (_fix_old_data json_only old_store).2))
    = [Some 0; Some 0]
  ∧ map Itin.feedback_comments
      (default [] (itineraries_file (_fix_old_data json_only old_store).2))
    = [Some ""; Some ""]%string
  ∧ _fix_old_data json_only (mkWorld None None None)
    = (Ok tt, mkWorld None None None).
Proof. split_and!; vm_compute; reflexivity. Qed.

Lemma __init___eq env existing w :
  __init__ env (Ok tt) existing w
  = (Ok tt,
     let w1 := if itineraries_exists existing then (_fix_old_data env w).2
               else saved_itineraries env [] w in
     let w2 := if training_patterns_exists existing then w1
               else saved_training_patterns env (_generate_initial_patterns env) w1 in
     let w3 := if feedback_exists existing then w2
               else saved_feedback env [] w2 in
     auto_trained env w3).
Proof.
  unfold __init__. unfold mbind, M_bind, call, pass, mret, M_ret.
  destruct (itineraries_exists existing);
    [rewrite _fix_old_data_eq | rewrite _save_itineraries_eq]; cbn [snd];
    (destruct (training_patterns_exists existing);
       [|rewrite _save_training_patterns_eq]);
    (destruct (feedback_exists existing); [|rewrite _save_feedback_eq]);
    apply _auto_train_eq.
Qed.

(** Constructing the system where no file exists yet, on a writable disk:
    the three files are created, with no itinerary, the seed pattern
    document and no feedback, and the start-up pass finds nothing to
    train on. *)
Theorem construction_on_a_fresh_directory env w :
  disk_writable env = true →
  itineraries_file w = None →
  __init__ env (Ok tt) (mkExisting false false false) w
  = (Ok tt,
     {| itineraries_file := Some [];
        feedback_file := Some [];
        training_patterns_file := Some (_generate_initial_patterns env) |}).
Proof.
  intros Hdisk Hnone. rewrite __init___eq. cbn [itineraries_exists
    training_patterns_exists feedback_exists].
  unfold saved_itineraries, saved_training_patterns, saved_feedback.
  rewrite Hdisk. simpl.
  unfold auto_trained. by destruct (use_database env).
Qed.

Lemma construction_on_a_fresh_directory_witness :
  __init__ json_only (Ok tt) (mkExisting false false false)
    (mkWorld None None None)
  = (Ok tt,
     {| itineraries_file := Some [];
        feedback_file := Some [];
        training_patterns_file := Some (_generate_initial_patterns json_only) |}).
Proof.
  apply (construction_on_a_fresh_directory json_only (mkWorld None None None));
    reflexivity.
Defined.

Lemma high_rated_for_fix_old city itineraries :
  high_rated_for city (map fix_old itineraries) = high_rated_for city itineraries.
Proof.
  unfold high_rated_for.
  induction itineraries as [|itin rest IH]; simpl; [done|].
  replace (is_high_quality (fix_old itin)) with (is_high_quality itin)
    by (unfold is_high_quality, Itin.rating_or_0; simpl;
        by destruct (Itin.rating itin)).
  change (Itin.city_name (fix_old itin)) with (Itin.city_name itin).
  destruct (_ && _); simpl; lia.
Qed.

Lemma filter_is_high_quality_fix_old itineraries :
  List.filter is_high_quality (map fix_old itineraries) = []
  ↔ List.filter is_high_quality itineraries = [].
Proof.
  induction itineraries as [|itin rest IH]; simpl; [done|].
  replace (is_high_quality (fix_old itin)) with (is_high_quality itin)
    by (unfold is_high_quality, Itin.rating_or_0; simpl;
        by destruct (Itin.rating itin)).
  destruct (is_high_quality itin); [split; intros; discriminate | done].
Qed.

(** Every construction is a training pass.  In flat-file mode, on a
    writable disk, when the itineraries file and the pattern file exist
    and the former holds at least three records of which one is rated 4
    or more, constructing the system adds one to [training_iterations]
    and counts every high-rated record under its destination once more.
    The destinations are the titles of city names whose title is a
    string below code point 256. *)
Theorem every_construction_is_a_training_pass env w itineraries with_feedback :
  use_database env = false →
  disk_writable env = true →
  itineraries_file w = Some itineraries →
  json_values itineraries →
  names_within_range itineraries →
  (3 ≤ length itineraries)%nat →
  List.filter is_high_quality itineraries ≠ [] →
  ∃ w',
    __init__ env (Ok tt) (mkExisting true true with_feedback) w = (Ok tt, w')
    ∧ world_iterations w' = world_iterations w + 1
    ∧ ∀ city,
        city_count w' city
        = city_count w city + Z.of_nat (high_rated_for city itineraries).
Proof.
  intros Hdb Hdisk Hfile Hjson _ Hlen Hhq.
  rewrite __init___eq. eexists. split; [reflexivity|].
  cbn [itineraries_exists training_patterns_exists feedback_exists].
  rewrite _fix_old_data_eq, Hfile. cbn [snd].
  assert (∃ w1 its1,
    (if needs_fix itineraries
     then saved_itineraries env (map fix_old itineraries) w else w) = w1
    ∧ itineraries_file w1 = Some its1
    ∧ training_patterns_file w1 = training_patterns_file w
    ∧ json_values its1
    ∧ length its1 = length itineraries
    ∧ List.filter is_high_quality its1 ≠ []
    ∧ ∀ city, high_rated_for city its1 = high_rated_for city itineraries)
    as (w1 & its1 & -> & Hfile1 & Hpat1 & Hjson1 & Hlen1 & Hhq1 & Hsame).
  { destruct (needs_fix itineraries).
    - rewrite saved_itineraries_written;
        [|done|unfold json_values; by rewrite json_values_fix_old].
      eexists _, _. split_and!; [reflexivity | reflexivity | done | | | |].
      + unfold json_values. by rewrite json_values_fix_old.
      + by rewrite length_map.
      + by rewrite filter_is_high_quality_fix_old.
      + intros city. apply high_rated_for_fix_old.
    - by exists w, itineraries. }
  assert (world_iterations w1 = world_iterations w
          ∧ ∀ city, city_count w1 city = city_count w city) as [Hiter1 Hcount1].
  { unfold world_iterations, city_count, world_cities. by rewrite Hpat1. }
  set (w3 := if with_feedback then w1 else saved_feedback env [] w1).
  assert (itineraries_file w3 = Some its1
          ∧ world_iterations w3 = world_iterations w1
          ∧ ∀ city, city_count w3 city = city_count w1 city)
    as (Hfile3 & Hiter3 & Hcount3).
  { unfold w3. destruct with_feedback; [done|].
    unfold saved_feedback. by rewrite Hdisk. }
  destruct (auto_trained_stamps env _ its1 Hdb Hdisk Hfile3 Hjson1) as [-> _];
    [lia | done |].
  destruct (auto_trained_cities env _ its1 Hdb Hdisk Hfile3 Hjson1) as [Hcount _];
    [lia|].
  split; [lia|].
  intros city. rewrite Hcount, Hcount3, Hcount1, Hsame. done.
Qed.

Lemma every_construction_is_a_training_pass_witness :
  ∃ w',
    __init__ json_only (Ok tt) (mkExisting true true true) one_high_rated
    = (Ok tt, w')
    ∧ world_iterations w' = world_iterations one_high_rated + 1
    ∧ ∀ city,
        city_count w' city
        = city_count one_high_rated city
          + Z.of_nat (high_rated_for city
                        (default [] (itineraries_file one_high_rated))).
Proof.
  apply (every_construction_is_a_training_pass json_only one_high_rated
           (default [] (itineraries_file one_high_rated)) true).
  - reflexivity.
  - reflexivity.
  - reflexivity.
  - reflexivity.
  - apply (bool_decide_unpack _). vm_compute. exact I.
  - vm_compute. lia.
  - vm_compute. congruence.
Defined.

(** ** Connections and transactions *)

(** [execute_query] and the pool: on every path the connection that was
    obtained is put back.  The call returns normally exactly when a
    connection is obtained and the statement timeout, the statement, the
    fetch (when asked for) and the commit all succeed; it then returns
    the fetched rows when [fetch] is set and None otherwise, one
    transaction more is committed and none is rolled back.  When it
    raises, nothing is committed, and a connection that was obtained is
    rolled back (if the rollback itself succeeds); when no connection is
    obtained, the failure of the pool is what is raised and the pool is
    as before. *)
Theorem execute_query_keeps_the_pool {rows} (driver : DatabaseConnection.Driver rows)
    fetch pool :
  let outcome := DatabaseConnection.execute_query driver fetch pool in
  DatabaseConnection.in_use outcome.2 = DatabaseConnection.in_use pool
  ∧ ((∃ result, outcome.1 = Ok result)
     ↔ DatabaseConnection.getconn driver = Ok tt
       ∧ DatabaseConnection.set_statement_timeout driver = Ok tt
       ∧ DatabaseConnection.execute driver = Ok tt
       ∧ (fetch = true → ∃ fetched, DatabaseConnection.fetchall driver = Ok fetched)
       ∧ DatabaseConnection.commit driver = Ok tt)
  ∧ match outcome.1 with
    | Ok result =>
        DatabaseConnection.committed outcome.2
        = S (DatabaseConnection.committed pool)
        ∧ DatabaseConnection.rolled_back outcome.2
          = DatabaseConnection.rolled_back pool
        ∧ (if fetch
           then ∃ fetched, DatabaseConnection.fetchall driver = Ok fetched
                           ∧ result = Some fetched
           else result = None)
    | Raise e =>
        DatabaseConnection.committed outcome.2 = DatabaseConnection.committed pool
        ∧ (DatabaseConnection.getconn driver = Ok tt →
           DatabaseConnection.rollback driver = Ok tt →
           DatabaseConnection.rolled_back outcome.2
           = S (DatabaseConnection.rolled_back pool))
        ∧ (∀ e', DatabaseConnection.getconn driver = Raise e' →
                 e = e' ∧ outcome.2 = pool)
    end.
Proof.
  cbv zeta.
  unfold DatabaseConnection.execute_query, DatabaseConnection.get_connection,
    DatabaseConnection.pool_getconn, DatabaseConnection.conn_commit,
    DatabaseConnection.conn_rollback, DatabaseConnection.pool_putconn.
  unfold_M. destruct driver as [g s x f c r]. destruct pool as [n a b]. simpl.
  destruct g as [[]|].
  2:{ split; [done|]. split; [|split_and!; [done | done | by intros e' [= ->]]].
      split; [by intros [result ?] | by intros [? _]]. }
  destruct s as [[]|], x as [[]|], fetch, f as [fetched|], c as [[]|],
    r as [[]|]; simpl;
    (split; [done|]; split;
     [split; [intros [result Hresult]; try done; split_and!; eauto
              | intros (? & ? & ? & Hfetch & ?); try done; eauto;
                try (by destruct (Hfetch eq_refl))]
     | split_and!; eauto; try done]).
Qed.

(** ** The flat files of the dual storage manager *)

Section DualStorageProperties.

Import DualStorage.

Context {primary_statistics : Type}.
Context (use_postgres : bool)
        (db_create_trip : Result Z)
        (db_create_itinerary : Z → Result Z)
        (db_rate_itinerary : Z → Z → string → Result unit)
        (db_get_statistics : Result primary_statistics)
        (now : string).

Lemma rate_first_at itinerary_id rating comments itineraries k itin :
  first_rated itinerary_id itineraries k itin →
  rate_first now itinerary_id rating comments itineraries
  = <[k := {| Itinerary.created := Itinerary.created itin;
              Itinerary.rating := Some rating;
              Itinerary.feedback_comments := Some comments;
              Itinerary.rated_at := Some now |}]> itineraries.
Proof.
  revert k. induction itineraries as [|x rest IH]; intros k (Hk & Hid & Hfirst).
  - done.
  - destruct k as [|k]; simpl in *.
    + injection Hk as ->. by rewrite decide_True.
    + rewrite decide_False by (apply (Hfirst 0%nat x); [lia | done]).
      rewrite (IH k); [done|].
      split_and!; [done | done |].
      intros j other Hj Hother. apply (Hfirst (S j) other); [lia | done].
Qed.

Lemma rate_first_absent itinerary_id rating comments itineraries :
  Forall (λ itin, Itinerary.id itin ≠ itinerary_id) itineraries →
  rate_first now itinerary_id rating comments itineraries = itineraries.
Proof.
  induction 1 as [|x rest Hx _ IH]; simpl; [done|].
  rewrite decide_False by done. by rewrite IH.
Qed.

Lemma rate_itinerary_eq itinerary_id rating comments files :
  rate_itinerary use_postgres db_rate_itinerary true now
    itinerary_id rating comments files
  = (Ok tt,
     mk_files (trips_file files)
       (Some (rate_first now itinerary_id rating comments
                (default [] (itineraries_file files))))).
Proof.
  unfold rate_itinerary, _load_json, _save_json, put_itineraries. unfold_M.
  destruct files as [trips itineraries].
  destruct use_postgres;
    [destruct (db_rate_itinerary itinerary_id rating comments) as [[]|]|];
    by destruct itineraries.
Qed.

(** [rate_itinerary] on the flat file: the first record that carries the
    id receives the rating, the comments and the time, every other record
    is left as it is; with no such record the file is written back
    unchanged.  The primary backend plays no part in this. *)
Theorem rate_itinerary_updates_the_first_match itinerary_id rating comments
    files itineraries :
  itineraries_file files = Some itineraries →
  ∃ files' stored,
    rate_itinerary use_postgres db_rate_itinerary true now
      itinerary_id rating comments files = (Ok tt, files')
    ∧ trips_file files' = trips_file files
    ∧ itineraries_file files' = Some stored
    ∧ map Itinerary.created stored = map Itinerary.created itineraries
    ∧ (∀ k itin, first_rated itinerary_id itineraries k itin →
         stored !! k
         = Some {| Itinerary.created := Itinerary.created itin;
                   Itinerary.rating := Some rating;
                   Itinerary.feedback_comments := Some comments;
                   Itinerary.rated_at := Some now |}
         ∧ ∀ j, j ≠ k → stored !! j = itineraries !! j)
    ∧ (Forall (λ itin, Itinerary.id itin ≠ itinerary_id) itineraries →
       stored = itineraries).
Proof.
  intros Hfile. rewrite rate_itinerary_eq, Hfile. simpl default.
  eexists _, _. split_and!; [reflexivity | reflexivity | reflexivity | | |].
  - clear Hfile. induction itineraries as [|x rest IH]; [done|].
    cbn [rate_first]. case_decide; [done|]. simpl. by rewrite IH.
  - intros k itin Hfirst. rewrite (rate_first_at _ _ _ _ _ _ Hfirst).
    destruct Hfirst as (Hk & _). split.
    + apply list_lookup_insert_eq. by eapply lookup_lt_Some.
    + intros j Hj. by apply list_lookup_insert_ne.
  - apply rate_first_absent.
Qed.

Lemma rated_count_insert itineraries k itin after :
  itineraries !! k = Some itin →
  rated_count (<[k := after]> itineraries)
  = rated_count itineraries
    - (if has_rating itin then 1 else 0) + (if has_rating after then 1 else 0).
Proof.
  unfold rated_count. revert k.
  induction itineraries as [|x rest IH]; intros k Hk; [done|].
  destruct k as [|k]; simpl in *.
  - injection Hk as ->. destruct (has_rating itin), (has_rating after); simpl; lia.
  - specialize (IH k Hk). destruct (has_rating x); simpl; lia.
Qed.

Lemma get_statistics_flat files :
  average_in_range (default [] (itineraries_file files)) →
  ∃ average,
    get_statistics (primary_statistics := primary_statistics) false
      db_get_statistics files
    = (Ok (inr
         {| Statistics.total_trips :=
              Z.of_nat (length (default [] (trips_file files)));
            Statistics.total_itineraries :=
              Z.of_nat (length (default [] (itineraries_file files)));
            Statistics.total_ratings :=
              rated_count (default [] (itineraries_file files));
            Statistics.avg_rating := average |}),
       files)
    ∧ (rated_count (default [] (itineraries_file files)) = 0 → average = PyInt 0).
Proof.
  intros Hrange.
  assert (get_statistics (primary_statistics := primary_statistics) false
            db_get_statistics files
          = (match
               (match List.filter has_rating (default [] (itineraries_file files)) with
                | [] => Ok (PyInt 0)
                | _ =>
                    match int_truediv
                            (sum (counted_ratings (default [] (itineraries_file files))))
                            (Z.of_nat (length (counted_ratings
                                                 (default [] (itineraries_file files)))))
                    with
                    | Ok quotient => Ok (PyFloat quotient)
                    | Raise e => Raise e
                    end
                end) with
             | Ok average =>
                 Ok (inr
                   {| Statistics.total_trips :=
                        Z.of_nat (length (default [] (trips_file files)));
                      Statistics.total_itineraries :=
                        Z.of_nat (length (default [] (itineraries_file files)));
                      Statistics.total_ratings :=
                        rated_count (default [] (itineraries_file files));
                      Statistics.avg_rating := average |})
             | Raise e => Raise e
             end, files)) as ->.
  { unfold get_statistics, _load_json, counted_ratings, rated_count. unfold_M.
    rewrite length_map.
    destruct files as [[trips|] [itineraries|]];
      cbn [trips_file itineraries_file]; cbv [default from_option id];
      try reflexivity;
      (destruct (List.filter has_rating itineraries); [reflexivity|]);
      by destruct (int_truediv _ _). }
  unfold rated_count.
  destruct Hrange as [Hnone|Hrange].
  - unfold counted_ratings in Hnone. apply map_eq_nil in Hnone. rewrite Hnone.
    by eexists.
  - destruct (List.filter has_rating (default [] (itineraries_file files)))
      as [|itin rated] eqn:Hrated.
    + by eexists.
    + rewrite int_truediv_ok; [|unfold counted_ratings; rewrite Hrated; simpl; lia|done].
      eexists. split; [done|]. simpl. lia.
Qed.

Lemma get_statistics_flat_overflow files :
  ¬ average_in_range (default [] (itineraries_file files)) →
  get_statistics (primary_statistics := primary_statistics) false
    db_get_statistics files
  = (Raise OverflowError, files).
Proof.
  intros Hout. unfold average_in_range in Hout.
  assert (counted_ratings (default [] (itineraries_file files)) ≠ []) as Hsome by tauto.
  assert (¬ Z.abs (sum (counted_ratings (default [] (itineraries_file files))))
            < float_overflow_bound
              * Z.of_nat (length (counted_ratings (default [] (itineraries_file files)))))
    as Hpast by tauto.
  assert (0 < length (counted_ratings (default [] (itineraries_file files))))%nat
    as Hlen
    by (destruct (counted_ratings (default [] (itineraries_file files)));
        [done | simpl; lia]).
  pose proof (int_truediv_overflow _ _ Hlen Hpast) as Hraise.
  clear Hlen Hpast.
  unfold counted_ratings in Hsome, Hraise. rewrite length_map in Hraise.
  unfold get_statistics, _load_json. unfold_M.
  destruct files as [[trips|] [itineraries|]];
    cbn [trips_file itineraries_file] in *; cbv [default from_option id] in *;
    try done;
    (destruct (List.filter has_rating itineraries); [done|]);
    by rewrite Hraise.
Qed.

(** Rating and statistics of the flat files together: after
    [rate_itinerary] on the id of a stored record, [get_statistics]
    returns when the average of the ratings it counts is within the
    float range, and raises OverflowError when it is not.  When it
    returns, [total_ratings] counts that record exactly when the rating is
    not 0: a rating of 0 is stored, and the record is then no longer
    counted as rated; and the average is the integer 0 when nothing is
    counted. *)
Theorem statistics_after_a_rating itinerary_id rating comments files
    itineraries k itin :
  itineraries_file files = Some itineraries →
  first_rated itinerary_id itineraries k itin →
  ∃ files',
    rate_itinerary false db_rate_itinerary true now
      itinerary_id rating comments files = (Ok tt, files')
    ∧ (average_in_range (default [] (itineraries_file files')) →
       ∃ stats,
         get_statistics (primary_statistics := primary_statistics) false
           db_get_statistics files' = (Ok (inr stats), files')
         ∧ Statistics.total_itineraries stats = Z.of_nat (length itineraries)
         ∧ Statistics.total_ratings stats
           = rated_count itineraries
             - (if has_rating itin then 1 else 0)
             + (if rating =? 0 then 0 else 1)
         ∧ (Statistics.total_ratings stats = 0 →
            Statistics.avg_rating stats = PyInt 0))
    ∧ (¬ average_in_range (default [] (itineraries_file files')) →
       get_statistics (primary_statistics := primary_statistics) false
         db_get_statistics files' = (Raise OverflowError, files')).
Proof.
  intros Hfile Hfirst.
  exists (mk_files (trips_file files)
            (Some (rate_first now itinerary_id rating comments itineraries))).
  split.
  { unfold rate_itinerary, _load_json, _save_json, put_itineraries. unfold_M.
    destruct files as [trips its]. simpl in Hfile. subst its. reflexivity. }
  split; [|apply get_statistics_flat_overflow].
  intros Hrange.
  destruct (get_statistics_flat _ Hrange) as (average & -> & Hzero).
  eexists. split; [reflexivity|].
  cbn [Statistics.total_itineraries Statistics.total_ratings
       Statistics.avg_rating itineraries_file] in *.
  cbv [default from_option id] in *.
  rewrite (rate_first_at _ _ _ _ _ _ Hfirst) in *.
  destruct Hfirst as (Hk & _).
  split_and!.
  - by rewrite length_insert.
  - rewrite (rated_count_insert _ _ _ _ Hk). unfold has_rating at 2. simpl.
    by destruct (rating =? 0).
  - done.
Qed.

Lemma create_trip_eq destination interests duration budget_level travel_style
    include_food include_transport files :
  create_trip use_postgres db_create_trip true now destination interests
    duration budget_level travel_style include_food include_transport files
  = (Ok (primary_or_next (if use_postgres then db_create_trip else Raise DatabaseError)
           (default [] (trips_file files))),
     mk_files
       (Some (default [] (trips_file files)
              ++ [ {| Trip.destination := destination;
                      Trip.interests := interests;
                      Trip.duration := duration;
                      Trip.budget_level := budget_level;
                      Trip.travel_style := travel_style;
                      Trip.include_food := include_food;
                      Trip.include_transport := include_transport;
                      Trip.created_at := now;
                      Trip.id :=
                        primary_or_next
                          (if use_postgres then db_create_trip
                           else Raise DatabaseError)
                          (default [] (trips_file files)) |} ]))
       (itineraries_file files)).
Proof.
  unfold create_trip, _load_json, _save_json, put_trips, primary_or_next. unfold_M.
  destruct files as [trips its].
  destruct use_postgres; [destruct db_create_trip|]; by destruct trips.
Qed.

Lemma create_itinerary_eq trip_id itinerary_text word_count files :
  create_itinerary use_postgres db_create_itinerary true now trip_id
    itinerary_text word_count files
  = (Ok (primary_or_next
           (if use_postgres then db_create_itinerary trip_id
            else Raise DatabaseError)
           (default [] (itineraries_file files))),
     mk_files (trips_file files)
       (Some (default [] (itineraries_file files)
              ++ [ {| Itinerary.created :=
                        {| DualStorageManager.trip_id := trip_id;
                           DualStorageManager.itinerary_text := itinerary_text;
                           DualStorageManager.word_count := word_count;
                           DualStorageManager.character_count :=
                             len_str itinerary_text;
                           DualStorageManager.created_at := now;
                           DualStorageManager.id :=
                             primary_or_next
                               (if use_postgres then db_create_itinerary trip_id
                                else Raise DatabaseError)
                               (default [] (itineraries_file files)) |};
                      Itinerary.rating := None;
                      Itinerary.feedback_comments := None;
                      Itinerary.rated_at := None |} ]))).
Proof.
  unfold create_itinerary, _load_json, _save_json, put_itineraries,
    primary_or_next.
  unfold_M. destruct files as [trips its].
  destruct use_postgres; [destruct (db_create_itinerary trip_id)|]; by destruct its.
Qed.

(** A trip and its itinerary: whatever the primary backend does, the
    record that [create_trip] appends carries the id it returns, and the
    record that [create_itinerary] appends for that id refers to it; the
    itinerary starts without a rating.  Without a primary backend, both
    ids are the length of the file plus 1. *)
Theorem an_itinerary_refers_to_its_trip destination interests duration
    budget_level travel_style include_food include_transport
    itinerary_text word_count files :
  ∃ trip_id itin_id files1 files2 trip itin,
    create_trip use_postgres db_create_trip true now destination interests
      duration budget_level travel_style include_food include_transport files
    = (Ok trip_id, files1)
    ∧ create_itinerary use_postgres db_create_itinerary true now trip_id
        itinerary_text word_count files1
      = (Ok itin_id, files2)
    ∧ trips_file files2 = Some (default [] (trips_file files) ++ [trip])
    ∧ itineraries_file files2
      = Some (default [] (itineraries_file files) ++ [itin])
    ∧ Trip.id trip = trip_id
    ∧ Trip.destination trip = destination
    ∧ Itinerary.id itin = itin_id
    ∧ DualStorageManager.trip_id (Itinerary.created itin) = trip_id
    ∧ DualStorageManager.itinerary_text (Itinerary.created itin) = itinerary_text
    ∧ Itinerary.rating itin = None
    ∧ (use_postgres = false →
       trip_id = Z.of_nat (length (default [] (trips_file files))) + 1
       ∧ itin_id = Z.of_nat (length (default [] (itineraries_file files))) + 1).
Proof.
  eexists _, _, _, _, _, _.
  split; [apply create_trip_eq|].
  split; [apply create_itinerary_eq|].
  split_and!; try reflexivity.
  intros ->. done.
Qed.

End DualStorageProperties.

Lemma rate_itinerary_updates_the_first_match_witness :
  ∃ files' stored,
    DualStorage.rate_itinerary false (λ _ _ _, Raise DatabaseError) true
      "2025-02-01T00:00:00" 2 5 "lovely" two_itineraries = (Ok tt, files')
    ∧ DualStorage.trips_file files' = DualStorage.trips_file two_itineraries
    ∧ DualStorage.itineraries_file files' = Some stored
    ∧ map DualStorage.Itinerary.created stored
      = map DualStorage.Itinerary.created
          (default [] (DualStorage.itineraries_file two_itineraries))
    ∧ (∀ k itin,
         first_rated 2 (default [] (DualStorage.itineraries_file two_itineraries))
           k itin →
         stored !! k
         = Some {| DualStorage.Itinerary.created :=
                     DualStorage.Itinerary.created itin;
                   DualStorage.Itinerary.rating := Some 5;
                   DualStorage.Itinerary.feedback_comments := Some "lovely"%string;
                   DualStorage.Itinerary.rated_at :=
                     Some "2025-02-01T00:00:00"%string |}
         ∧ ∀ j, j ≠ k →
             stored !! j
             = default [] (DualStorage.itineraries_file two_itineraries) !! j)
    ∧ (Forall (λ itin, DualStorage.Itinerary.id itin ≠ 2)
              (default [] (DualStorage.itineraries_file two_itineraries)) →
       stored = default [] (DualStorage.itineraries_file two_itineraries)).
Proof.
  apply (rate_itinerary_updates_the_first_match false
           (λ _ _ _, Raise DatabaseError) "2025-02-01T00:00:00" 2 5 "lovely"
           two_itineraries
           (default [] (DualStorage.itineraries_file two_itineraries))).
  reflexivity.
Defined.

Lemma statistics_after_a_rating_witness :
  ∃ files' stats,
    DualStorage.rate_itinerary false (λ _ _ _, Raise DatabaseError) true
      "2025-02-01T00:00:00" 1 0 "" two_itineraries = (Ok tt, files')
    ∧ DualStorage.get_statistics (primary_statistics := unit) false
        (Raise DatabaseError) files' = (Ok (inr stats), files')
    ∧ DualStorage.Statistics.total_itineraries stats
      = Z.of_nat (length (default [] (DualStorage.itineraries_file two_itineraries)))
    ∧ DualStorage.Statistics.total_ratings stats
      = rated_count (default [] (DualStorage.itineraries_file two_itineraries))
        - (if DualStorage.has_rating (dual_itinerary 1 "Day 1: the Louvre" (Some 4))
           then 1 else 0)
        + (if 0 =? 0 then 0 else 1)
    ∧ (DualStorage.Statistics.total_ratings stats = 0 →
       DualStorage.Statistics.avg_rating stats = PyInt 0).
Proof.
  destruct (statistics_after_a_rating (primary_statistics := unit)
              (λ _ _ _, Raise DatabaseError) (Raise DatabaseError)
              "2025-02-01T00:00:00" 1 0 "" two_itineraries
              (default [] (DualStorage.itineraries_file two_itineraries))
              0 (dual_itinerary 1 "Day 1: the Louvre" (Some 4)))
    as (files' & Hrate & Hreturns & _).
  - reflexivity.
  - split_and!; [reflexivity | reflexivity | intros; lia].
  - exists files'.
    destruct Hreturns as (stats & Hstats).
    + injection Hrate as <-. by left.
    + by exists stats.
Defined.

(** A rating of 2^1100 is stored, and the statistics then raise. *)
Example a_rating_past_the_float_range :
  (DualStorage.get_statistics (primary_statistics := unit) false
     (Raise DatabaseError)
     (DualStorage.rate_itinerary false (λ _ _ _, Raise DatabaseError) true
        "2025-02-01T00:00:00" 1 (2 ^ 1100) "" two_itineraries).2).1
  = Raise OverflowError.
Proof. vm_compute. reflexivity. Qed.

(** The one rated itinerary, rated again with 0, is no longer counted. *)
Example a_rating_of_zero_is_not_counted :
  (match (DualStorage.get_statistics (primary_statistics := unit) false
            (Raise DatabaseError) two_itineraries).1 with
   | Ok (inr stats) => Some (DualStorage.Statistics.total_ratings stats)
   | _ => None
   end) = Some 1
  ∧ (match (DualStorage.get_statistics (primary_statistics := unit) false
              (Raise DatabaseError)
              (DualStorage.rate_itinerary false (λ _ _ _, Raise DatabaseError) true
                 "2025-02-01T00:00:00" 1 0 "" two_itineraries).2).1 with
     | Ok (inr stats) =>
         Some (DualStorage.Statistics.total_ratings stats,
               DualStorage.Statistics.avg_rating stats)
     | _ => None
     end) = Some (0, PyInt 0).
Proof. split; vm_compute; reflexivity. Qed.

(** ** The recent itineraries, in general *)

(** On the flat-file path, for a limit of at least 1,
    [get_recent_itineraries] returns the first [limit] records of the
    file (all of them when there are fewer), the last of them first. *)
Theorem recent_itineraries_are_the_first_of_the_file env w (limit : nat) :
  use_database env = false →
  (0 < limit)%nat →
  ∃ recent,
    get_recent_itineraries env (Z.of_nat limit) w = (Ok recent, w)
    ∧ recent = rev (take limit (default [] (itineraries_file w)))
    ∧ length recent = (limit `min` length (default [] (itineraries_file w)))%nat.
Proof.
  intros Hdb Hlimit. eexists. split; [by apply get_recent_itineraries_flat_file|].
  split; [done|]. by rewrite length_rev, length_take.
Qed.

Lemma recent_itineraries_are_the_first_of_the_file_witness :
  ∃ recent,
    get_recent_itineraries json_only (Z.of_nat 2) five_stored = (Ok recent, five_stored)
    ∧ recent = rev (take 2 (default [] (itineraries_file five_stored)))
    ∧ length recent = (2 `min` length (default [] (itineraries_file five_stored)))%nat.
Proof.
  apply (recent_itineraries_are_the_first_of_the_file json_only five_stored 2).
  - reflexivity.
  - lia.
Defined.

(** ** Destinations and the case of their letters *)

Lemma every_character_checked (f : ascii → bool) :
  forallb f every_character = true → ∀ c, f c = true.
Proof.
  intros Hall c. rewrite <- (ascii_nat_embedding c).
  apply (proj1 (forallb_forall _ _) Hall).
  apply in_map, in_seq. pose proof (nat_ascii_bounded c). lia.
Qed.

Lemma lower_char_determines c d :
  lower_char c = lower_char d →
  is_cased c = is_cased d ∧ title_char c = title_char d.
Proof.
  intros Heq.
  assert (case_agrees c d = true) as Hagree.
  { clear Heq. revert d.
    apply (every_character_checked (λ d, case_agrees c d)). revert c.
    apply (every_character_checked
             (λ c, forallb (λ d, case_agrees c d) every_character)).
    vm_compute. reflexivity. }
  unfold case_agrees in Hagree. rewrite decide_True in Hagree by done.
  apply andb_true_iff in Hagree as [H1%bool_decide_eq_true H2%bool_decide_eq_true].
  done.
Qed.

Lemma title_from_same_letters previous a b :
  same_letters a b → title_from previous a = title_from previous b.
Proof.
  unfold same_letters. revert previous b.
  induction a as [|c a IH]; intros previous [|d b] Heq; simpl in *; try done.
  injection Heq as Hcd Hab.
  destruct (lower_char_determines c d Hcd) as [Hcased Htitle].
  rewrite <- Hcased, Hcd, Htitle. f_equal. by apply IH.
Qed.

(** Destinations are counted without regard to case: two city names that
    differ by the case of their letters only (the accented letters of
    Latin-1 included; names whose title is a string below code point 256)
    have the same title, the key under which the auto-trainer and the
    statistics count them, so that two such records raise one count by
    2. *)
Theorem destinations_are_counted_without_case a b :
  title_within_range (Itin.city_name a) →
  title_within_range (Itin.city_name b) →
  same_letters (Itin.city_name a) (Itin.city_name b) →
  title (Itin.city_name a) = title (Itin.city_name b)
  ∧ (∀ cities,
       count_cities [a; b] cities !! title (Itin.city_name a)
       = Some (default 0 (cities !! title (Itin.city_name a)) + 2))
  ∧ destinations [a; b] = [title (Itin.city_name a); title (Itin.city_name a)].
Proof.
  intros _ _ Hsame.
  assert (title (Itin.city_name a) = title (Itin.city_name b)) as Htitle
    by (by apply title_from_same_letters).
  split_and!; [done | | unfold destinations; simpl; by rewrite Htitle].
  intros cities. unfold count_cities, count_city. simpl. rewrite <- Htitle.
  rewrite !lookup_insert_eq. simpl. f_equal. lia.
Qed.

Lemma destinations_are_counted_without_case_witness :
  title (Itin.city_name (stored_entry 1 "new york" "Day 1: the High Line"))
  = title (Itin.city_name (stored_entry 2 "NEW York" "Day 1: Harlem"))
  ∧ (∀ cities,
       count_cities [stored_entry 1 "new york" "Day 1: the High Line";
                     stored_entry 2 "NEW York" "Day 1: Harlem"] cities
         !! title (Itin.city_name (stored_entry 1 "new york" "Day 1: the High Line"))
       = Some (default 0
                 (cities !! title (Itin.city_name
                                     (stored_entry 1 "new york" "Day 1: the High Line")))
               + 2))
  ∧ destinations [stored_entry 1 "new york" "Day 1: the High Line";
                  stored_entry 2 "NEW York" "Day 1: Harlem"]
    = [title (Itin.city_name (stored_entry 1 "new york" "Day 1: the High Line"));
       title (Itin.city_name (stored_entry 1 "new york" "Day 1: the High Line"))].
Proof.
  apply (destinations_are_counted_without_case
           (stored_entry 1 "new york" "Day 1: the High Line")
           (stored_entry 2 "NEW York" "Day 1: Harlem")).
  - apply (bool_decide_unpack _). vm_compute. exact I.
  - apply (bool_decide_unpack _). vm_compute. exact I.
  - reflexivity.
Defined.

(** A blank in front of the name makes another destination of it.  The
    accented letters are letters: e with acute (233) becomes the capital
    one (201) at the head of a word, and a with tilde (227) keeps the
    letter after it in lower case. *)
Example title_examples :
  title "new york" = "New York"%string
  ∧ title "NEW York" = "New York"%string
  ∧ title " new york" = " New York"%string
  ∧ title (String "233" "mile-ville") = String "201" "mile-Ville"
  ∧ title (String "s" (String "227" "o paulo"))
    = String "S" (String "227" "o Paulo").
Proof. split_and!; vm_compute; reflexivity. Qed.

(** ** An itineraries file that cannot be read *)

(** An itineraries file that cannot be read is replaced.  On a writable
    disk, [store_complete_itinerary] leaves a file that holds the new
    record alone, with id 1 unless the primary backend gave one; and in
    flat-file mode [record_feedback] leaves a file that holds no record
    at all. *)
Theorem unreadable_itineraries_file_is_replaced env w city trip_days budget
    interests travel_style include_food include_transport
    full_prompt_context full_itinerary itinerary_id rating comments :
  itineraries_file w = None →
  disk_writable env = true →
  store_complete_itinerary env city trip_days budget interests travel_style
    include_food include_transport full_prompt_context full_itinerary w
  = (Ok (default 1 (primary_id env)),
     put_itineraries
       [itinerary_entry env (default 1 (primary_id env)) city trip_days budget
          interests travel_style include_food include_transport
          full_prompt_context full_itinerary (count_words full_itinerary)] w)
  ∧ (use_database env = false →
     ∃ w', record_feedback env itinerary_id rating comments w = (Ok tt, w')
           ∧ itineraries_file w' = Some []).
Proof.
  intros Hnone Hdisk. split.
  - rewrite store_complete_itinerary_eq. unfold flat_file_id. rewrite Hnone.
    simpl. by rewrite saved_itineraries_written.
  - intros Hdb.
    rewrite (record_feedback_eq env itinerary_id rating comments w [])
      by (by rewrite _load_itineraries_json, Hnone).
    simpl. eexists. split; [reflexivity|].
    unfold feedback_recorded. rewrite saved_itineraries_written by done.
    unfold saved_feedback. rewrite Hdisk.
    destruct (_ =? 0); [|done].
    unfold auto_trained. rewrite Hdb. done.
Qed.

Lemma unreadable_itineraries_file_is_replaced_witness :
  store_complete_itinerary json_only "rome" 2 "Budget" ["food"] [] true true
    "" "Day 1: the Forum" (mkWorld None (Some []) None)
  = (Ok (default 1 (primary_id json_only)),
     put_itineraries
       [itinerary_entry json_only (default 1 (primary_id json_only)) "rome" 2
          "Budget" ["food"] [] true true "" "Day 1: the Forum"
          (count_words "Day 1: the Forum")] (mkWorld None (Some []) None))
  ∧ (use_database json_only = false →
     ∃ w', record_feedback json_only 1 5 "great" (mkWorld None (Some []) None)
           = (Ok tt, w')
           ∧ itineraries_file w' = Some []).
Proof.
  apply (unreadable_itineraries_file_is_replaced json_only
           (mkWorld None (Some []) None)); reflexivity.
Defined.
